(** * Industrial gas / compressed-air line sizing: the sizing engine

    A shallow embedding of [src/services/sizingService.ts] (with the data
    contracts of [types.ts] and the tables of [src/constants.ts]) and the
    properties of the engine that were checked against it.

    JavaScript numbers are IEEE-754 binary64 values: they are modelled by
    Rocq's primitive floats, whose operations are the correctly rounded
    binary64 ones.  [Math.pow] and [Math.log10] are host functions whose
    results ECMAScript leaves implementation-approximated; the engine is
    therefore parameterised by a [HostMath] record, and every general theorem
    holds for every host.  Concrete runs use [refHost].

    The per-candidate physics (the body of the candidate loops) is written once
    over an arithmetic interface, [Arith]; the engine reads it in binary64,
    through the instance [floatArith], and every property below is a property
    of that reading.

    The diagnostic calculation trace ([details], [detailsMap],
    [sampleDropDetails]) never feeds a decision or a reported size; it is
    embedded apart, after the engine, beside the CSV row formatting of
    [src/services/exportService.ts] and the state updates of [src/App.tsx]. *)

From Stdlib Require Import ZArith List String Bool Floats Uint63.
From Stdlib Require DecimalString.
From Stdlib Require Import Lia.
Import ListNotations.

Set Warnings "-inexact-float".

(** ** Arithmetic interface *)

Class Arith (num : Type) := {
  n_add : num -> num -> num;
  n_sub : num -> num -> num;
  n_mul : num -> num -> num;
  n_div : num -> num -> num;
  n_opp : num -> num;
  n_leb : num -> num -> bool;
  n_ltb : num -> num -> bool;
  (** [dec m k] is the decimal literal [m * 10^-k] *)
  dec : Z -> nat -> num;
  Math_sqrt : num -> num;
  Math_pow : num -> num -> num;
  Math_log10 : num -> num
}.

Declare Scope num_scope.
Delimit Scope num_scope with num.
Notation "x + y" := (n_add x y) : num_scope.
Notation "x - y" := (n_sub x y) : num_scope.
Notation "x * y" := (n_mul x y) : num_scope.
Notation "x / y" := (n_div x y) : num_scope.
Notation "- x" := (n_opp x) : num_scope.
Notation "x <=? y" := (n_leb x y) : num_scope.
Notation "x <? y" := (n_ltb x y) : num_scope.
Notation "x >? y" := (n_ltb y x) (at level 70) : num_scope.
Notation "x >=? y" := (n_leb y x) (at level 70) : num_scope.

Inductive GasType := air | naturalGas.

(** ** constants.ts and the per-candidate physics of sizingService.ts *)

Section Physics.
Context {num : Type} {A : Arith num}.
Local Open Scope num_scope.

(** an integer literal *)
Definition int (m : Z) : num := dec m 0.

Definition P_ATM_PSIA : num := dec 147 1.
Definition G_C_LBM_FT_LBF_S2 : num := dec 32174 3.
Definition GALLONS_PER_FT3 : num := dec 748 2.
Definition Math_PI : num := dec 3141592653589793 15.

Record GasProperties := {
  gas_R : num;
  gas_nu : num;
  gas_name : string
}.

Definition GAS_PROPERTIES (g : GasType) : GasProperties :=
  match g with
  | air => {| gas_R := dec 5335 2; gas_nu := dec 16 5;
              gas_name := "Compressed Air" |}
  | naturalGas => {| gas_R := dec 965 1; gas_nu := dec 172 6;
                     gas_name := "Natural Gas (SG 0.6)" |}
  end.

Definition toAbsRankine (tempF : num) : num := tempF + dec 45967 2.

Definition swameeJainFrictionFactor
  (roughness_ft diameter_ft reynoldsNumber : num) : num :=
  if reynoldsNumber <=? int 2300 then int 64 / reynoldsNumber
  else
    let term1 := roughness_ft / (dec 37 1 * diameter_ft) in
    let term2 := dec 574 2 / Math_pow reynoldsNumber (dec 9 1) in
    let logTerm := Math_log10 (term1 + term2) in
    dec 25 2 / (logTerm * logTerm).

(** What one turn of a candidate loop leaves in [deltaP_psi], [p_out_psig]
    and [v_fts] (and, for the iterative branch, in [re] and [f]). *)
Record Candidate := {
  deltaP_psi : num;
  p_out_psig : num;
  v_fts : num;
  reynolds : num;
  friction_factor : num
}.

(** The variables one pass of a Darcy-Weisbach loop reads and writes. *)
Record IterState := {
  it_p_out : num;
  it_v : num;
  it_re : num;
  it_f : num;
  it_deltaP : num
}.

(** [for (let i = 0; i < n; i++) body] *)
Fixpoint for_loop (n : nat) (body : IterState -> IterState) (st : IterState)
  : IterState :=
  match n with
  | O => st
  | S n' => for_loop n' body (body st)
  end.

(** sizePipe, lines 71-128: one turn of [for (const pipe of candidatePipes)]
    for a selected pipe of internal diameter [d_in]. *)
Definition sizePipe_candidate
  (flowScfm length_ft upstreamPressure_psig requiredOutletPressure_psig
   airTemperature_F pipeRoughness_ft : num) (gasType : GasType) (d_in : num)
  : Candidate :=
  let GAS := GAS_PROPERTIES gasType in
  let t_abs_R := toAbsRankine airTemperature_F in
  let p_in_abs_psia := upstreamPressure_psig + P_ATM_PSIA in
  let d_ft := d_in / int 12 in
  let area_ft2 := (Math_PI * d_ft * d_ft) / int 4 in
  match gasType with
  | naturalGas =>
      let flowScfh := flowScfm * int 60 in
      let p1_sq := p_in_abs_psia * p_in_abs_psia in
      let p_out_psig :=
        if flowScfh >? int 0 then
          let term_in_parens :=
            flowScfh / (int 2207 * Math_pow d_in (dec 2582 3)) in
          let delta_p_sq :=
            length_ft * Math_pow term_in_parens (int 1 / dec 522 3) in
          let p2_sq := p1_sq - delta_p_sq in
          if p2_sq <? int 0 then - P_ATM_PSIA
          else Math_sqrt p2_sq - P_ATM_PSIA
        else upstreamPressure_psig in
      let deltaP_psi := upstreamPressure_psig - p_out_psig in
      let p_out_abs_psia := p_out_psig + P_ATM_PSIA in
      let p_avg_abs_psia := (p_in_abs_psia + p_out_abs_psia) / int 2 in
      let q_acfm := flowScfm * (P_ATM_PSIA / p_avg_abs_psia) in
      let q_cfs := q_acfm / int 60 in
      let v_fts := q_cfs / area_ft2 in
      {| deltaP_psi := deltaP_psi; p_out_psig := p_out_psig; v_fts := v_fts;
         reynolds := int 0; friction_factor := int 0 |}
  | air =>
      let body (st : IterState) : IterState :=
        let p_out_abs_iter := it_p_out st + P_ATM_PSIA in
        let p_avg_abs_iter := (p_in_abs_psia + p_out_abs_iter) / int 2 in
        let rho_iter := (p_avg_abs_iter * int 144) / (gas_R GAS * t_abs_R) in
        let q_acfm_iter := flowScfm * (P_ATM_PSIA / p_avg_abs_iter) in
        let q_cfs_iter := q_acfm_iter / int 60 in
        let v_fts := q_cfs_iter / area_ft2 in
        let re := (v_fts * d_ft) / gas_nu GAS in
        let f := swameeJainFrictionFactor pipeRoughness_ft d_ft re in
        let deltaP_lbf_ft2 :=
          f * (length_ft / d_ft) * (rho_iter * v_fts * v_fts)
          / (int 2 * G_C_LBM_FT_LBF_S2) in
        let deltaP_psi := deltaP_lbf_ft2 / int 144 in
        {| it_p_out := upstreamPressure_psig - deltaP_psi;
           it_v := v_fts; it_re := re; it_f := f; it_deltaP := deltaP_psi |} in
      let st := for_loop 5 body
        {| it_p_out := requiredOutletPressure_psig;
           it_v := int 0; it_re := int 0; it_f := int 0;
           it_deltaP := int 0 |} in
      {| deltaP_psi := it_deltaP st; p_out_psig := it_p_out st;
         v_fts := it_v st; reynolds := it_re st; friction_factor := it_f st |}
  end.

(** calculateHeaderSizing, lines 209-265: one turn of
    [for (const pipe of selectedPipes)]. *)
Definition header_candidate
  (designScfm inletPressure headerLength airTemperature pipeRoughness : num)
  (gasType : GasType) (d_in : num) : Candidate :=
  let GAS := GAS_PROPERTIES gasType in
  let t_abs_R := toAbsRankine airTemperature in
  let p_in_abs_psia := inletPressure + P_ATM_PSIA in
  let d_ft := d_in / int 12 in
  let area_ft2 := (Math_PI * d_ft * d_ft) / int 4 in
  match gasType with
  | naturalGas =>
      let flowScfh := designScfm * int 60 in
      let p1_sq := p_in_abs_psia * p_in_abs_psia in
      let p_out_psig :=
        if flowScfh >? int 0 then
          let term_in_parens :=
            flowScfh / (int 2207 * Math_pow d_in (dec 2582 3)) in
          let delta_p_sq :=
            headerLength * Math_pow term_in_parens (int 1 / dec 522 3) in
          let p2_sq := p1_sq - delta_p_sq in
          if p2_sq <? int 0 then - P_ATM_PSIA
          else Math_sqrt p2_sq - P_ATM_PSIA
        else inletPressure in
      let deltaP_psi := inletPressure - p_out_psig in
      let p_out_abs_psia := p_out_psig + P_ATM_PSIA in
      let p_avg_abs_psia := (p_in_abs_psia + p_out_abs_psia) / int 2 in
      let q_acfm := designScfm * (P_ATM_PSIA / p_avg_abs_psia) in
      let q_cfs := q_acfm / int 60 in
      let v_fts := q_cfs / area_ft2 in
      {| deltaP_psi := deltaP_psi; p_out_psig := p_out_psig; v_fts := v_fts;
         reynolds := int 0; friction_factor := int 0 |}
  | air =>
      let body (st : IterState) : IterState :=
        let p_out_abs := it_p_out st + P_ATM_PSIA in
        let p_avg_abs := (p_in_abs_psia + p_out_abs) / int 2 in
        let rho_iter := (p_avg_abs * int 144) / (gas_R GAS * t_abs_R) in
        let q_acfm_iter := designScfm * (P_ATM_PSIA / p_avg_abs) in
        let q_cfs_iter := q_acfm_iter / int 60 in
        let v_fts := q_cfs_iter / area_ft2 in
        let re := (v_fts * d_ft) / gas_nu GAS in
        let f := swameeJainFrictionFactor pipeRoughness d_ft re in
        let deltaP_lbf_ft2 :=
          f * (headerLength / d_ft) * (rho_iter * v_fts * v_fts)
          / (int 2 * G_C_LBM_FT_LBF_S2) in
        let deltaP_psi := deltaP_lbf_ft2 / int 144 in
        {| it_p_out := inletPressure - deltaP_psi;
           it_v := v_fts; it_re := re; it_f := f; it_deltaP := deltaP_psi |} in
      let st := for_loop 5 body
        {| it_p_out := inletPressure;
           it_v := int 0; it_re := int 0; it_f := int 0;
           it_deltaP := int 0 |} in
      {| deltaP_psi := it_deltaP st; p_out_psig := it_p_out st;
         v_fts := it_v st; reynolds := it_re st; friction_factor := it_f st |}
  end.

(** The squared outlet pressure [p2_sq] both fuel-gas branches compute and
    test (sizePipe lines 84-88, calculateHeaderSizing lines 224-228). *)
Definition ifgc_p2_sq (flowScfm length_ft upstreamPressure_psig d_in : num)
  : num :=
  let p_in_abs_psia := upstreamPressure_psig + P_ATM_PSIA in
  let flowScfh := flowScfm * int 60 in
  let p1_sq := p_in_abs_psia * p_in_abs_psia in
  let term_in_parens := flowScfh / (int 2207 * Math_pow d_in (dec 2582 3)) in
  let delta_p_sq := length_ft * Math_pow term_in_parens (int 1 / dec 522 3) in
  p1_sq - delta_p_sq.

End Physics.

Arguments GasProperties : clear implicits.
Arguments Candidate : clear implicits.
Arguments IterState : clear implicits.

(** ** Binary64 arithmetic and the host's Math functions *)

Record HostMath := {
  host_pow : float -> float -> float;
  host_log10 : float -> float
}.

Definition float_dec (m : Z) (k : nat) : float :=
  (of_uint63 (Uint63.of_Z m) / of_uint63 (Uint63.of_Z (10 ^ Z.of_nat k)))%float.

#[global] Instance floatArith (M : HostMath) : Arith float := {
  n_add := PrimFloat.add;
  n_sub := PrimFloat.sub;
  n_mul := PrimFloat.mul;
  n_div := PrimFloat.div;
  n_opp := PrimFloat.opp;
  n_leb := PrimFloat.leb;
  n_ltb := PrimFloat.ltb;
  dec := float_dec;
  Math_sqrt := PrimFloat.sqrt;
  Math_pow := host_pow M;
  Math_log10 := host_log10 M
}.

(** *** A reference host

    [ref_pow] and [ref_log10] approximate the mathematical functions to a
    relative error of about 1e-15 on positive finite arguments (argument
    reduction and a power series), with the special values of ECMAScript's
    [Math.pow] and [Math.log10] that the engine can meet: its exponents
    (2.582, 1/0.522 and 0.9) are not integers, so a negative base gives
    NaN. *)
Module RefHost.
Local Open Scope float_scope.

Definition ln2 : float := 0.6931471805599453.
Definition ln10 : float := 2.302585092994046.
Definition sqrt_half : float := 0.7071067811865476.

Definition float_of_Z (z : Z) : float :=
  match z with
  | Z0 => 0
  | Zpos _ => of_uint63 (Uint63.of_Z z)
  | Zneg _ => - of_uint63 (Uint63.of_Z (- z))
  end.

(** the integer an integer-valued float denotes *)
Definition Z_of_float (x : float) : Z :=
  match Prim2SF x with
  | S754_finite s m e =>
      let v := Z.shiftl (Z.pos m) e in if s then (- v)%Z else v
  | _ => 0%Z
  end.

(** [sum_{i<=n} z2^i / (2*i+1)] by Horner's rule, starting from term [k] *)
Fixpoint atanh_series (n : nat) (k : Z) (z2 : float) : float :=
  match n with
  | O => 1 / float_of_Z (2 * k + 1)
  | S n' => 1 / float_of_Z (2 * k + 1) + z2 * atanh_series n' (k + 1) z2
  end.

(** natural logarithm of a positive finite float *)
Definition ln (x : float) : float :=
  let (m0, e0) := Z.frexp x in
  let (m, e) := if m0 <? sqrt_half then (m0 * 2, (e0 - 1)%Z) else (m0, e0) in
  let z := (m - 1) / (m + 1) in
  float_of_Z e * ln2 + 2 * z * atanh_series 14 0 (z * z).

(** [sum_{i<=n} r^i / i!] by Horner's rule, starting from term [k] *)
Fixpoint exp_series (n : nat) (k : Z) (r : float) : float :=
  match n with
  | O => 1
  | S n' => 1 + r / float_of_Z k * exp_series n' (k + 1) r
  end.

Definition exp (y : float) : float :=
  if 710 <? y then infinity
  else if y <? -746 then 0
  else
    let magic := 6755399441055744 in
    let kf := (y / ln2 + magic) - magic in
    let r := y - kf * ln2 in
    Z.ldexp (exp_series 18 1 r) (Z_of_float kf).

Definition ref_pow (x y : float) : float :=
  if y =? 0 then 1
  else if is_nan x || is_nan y then nan
  else if x =? 1 then (if PrimFloat.abs y =? infinity then nan else 1)
  else if x <? 0 then nan
  else if x =? 0 then (if 0 <? y then 0 else infinity)
  else if x =? infinity then (if 0 <? y then infinity else 0)
  else exp (y * ln x).

Definition ref_log10 (x : float) : float :=
  if is_nan x || (x <? 0) then nan
  else if x =? 0 then neg_infinity
  else if x =? infinity then infinity
  else ln x / ln10.

End RefHost.

Definition refHost : HostMath :=
  {| host_pow := RefHost.ref_pow; host_log10 := RefHost.ref_log10 |}.

(** ** JavaScript number helpers *)

Section JsNumbers.
Local Open Scope float_scope.

(** ToBoolean on a number: false for +0, -0 and NaN *)
Definition truthy (x : float) : bool :=
  negb (PrimFloat.is_zero x || PrimFloat.is_nan x).

(** [x || 0] *)
Definition or_zero (x : float) : float := if truthy x then x else 0.

(** [Math.max(a, b)]: NaN when either is, and +0 above -0 *)
Definition Math_max (a b : float) : float :=
  if is_nan a || is_nan b then nan
  else if a <? b then b
  else if b <? a then a
  else if get_sign a then b else a.

(** [Math.min(a, b)]: NaN when either is, and -0 below +0 *)
Definition Math_min (a b : float) : float :=
  if is_nan a || is_nan b then nan
  else if a <? b then a
  else if b <? a then b
  else if get_sign a then a else b.

Definition Math_abs (x : float) : float := PrimFloat.abs x.

Definition Infinity : float := infinity.

End JsNumbers.

(** ** types.ts *)

Module SystemInputs.
Record t := {
  inletPressure : float;
  availableCompressorFlow : float;
  minOutletPressure : float;
  maxTypicalOutletPressure : float;
  demandSafetyFactor : float;
  tankVolume : float;
  gasType : GasType
}.
End SystemInputs.

Module HeaderGeometry.
Record t := {
  headerLength : float;
  maxLineVelocity : float;
  pipeRoughness : float;
  airTemperature : float
}.
End HeaderGeometry.

Module PipeSize.
Record t := {
  nominal : string;
  id_in : float;
  selected : bool
}.
End PipeSize.

Module SubDrop.
Record t := {
  id : string;
  name : string;
  length : float;
  reqPressure : float;
  reqFlow : float
}.
End SubDrop.

Module Drop.
Record t := {
  id : string;
  name : string;
  length : float;
  reqPressure : float;
  reqFlow : float;
  subDrops : list SubDrop.t
}.
End Drop.

Inductive SizingStatus :=
| OK
| High_velocity
| Insufficient_outlet_pressure
| Excessive_dP
| High_velocity_and_Excessive_dP
| Inactive
| No_feasible_size.

Inductive Severity := ok | warn | bad.

Module Row.
(** SizingResultRow; [outletPressure] is [null] for drops and sub-drops.
    Every row the engine builds sets [severity]. *)
Record t := {
  nominal : string;
  id_in : float;
  velocity : float;
  deltaP : float;
  outletPressure : option float;
  status : SizingStatus;
  severity : Severity
}.
End Row.

Module HeaderResults.
Record t := {
  recommendedSize : string;
  outletPressure : float;
  designScfm : float;
  velocity : float;
  comparisonTable : list Row.t
}.
End HeaderResults.

Module SubDropResult.
Record t := {
  name : string;
  reqPressure : float;
  reqFlow : float;
  length : float;
  recommendedSize : string;
  status : SizingStatus;
  velocity : float;
  deltaP : float;
  sizingOptions : list Row.t
}.
End SubDropResult.

Module DropResult.
Record t := {
  id : string;
  name : string;
  length : float;
  reqPressure : float;
  reqFlow : float;
  subDropTotalFlow : float;
  usedFlow : float;
  isSizedOnSubDrops : bool;
  recommendedSize : string;
  velocity : float;
  deltaP : float;
  comparisonTable : list Row.t;
  subDropResults : list SubDropResult.t
}.
End DropResult.

Module TankMetrics.
Record t := {
  equivalentStorageScf : float;
  referenceFlowScfm : float;
  coverageTimeMinutes : float;
  isCoveringDeficit : bool
}.
End TankMetrics.

Inductive CapacityStatus := Capacity_OK | SHORTFALL | No_demand.

Module CalculationResults.
Record t := {
  totalDemandScfm : float;
  totalDesignDemandScfm : float;
  capacityStatus : CapacityStatus;
  capacityMarginOrDeficitScfm : float;
  headerDesignScfm : float;
  header : option HeaderResults.t;
  drops : list DropResult.t;
  tankMetrics : option TankMetrics.t
}.
End CalculationResults.

(** What sizePipe returns (an anonymous object type in the source). *)
Module PipeSizing.
Record t := {
  table : list Row.t;
  recommended : string;
  velocity : float;
  deltaP : float;
  status : SizingStatus
}.
End PipeSizing.

(** ** services/sizingService.ts *)

Definition SizingStatus_eqb (a b : SizingStatus) : bool :=
  match a, b with
  | OK, OK | High_velocity, High_velocity
  | Insufficient_outlet_pressure, Insufficient_outlet_pressure
  | Excessive_dP, Excessive_dP
  | High_velocity_and_Excessive_dP, High_velocity_and_Excessive_dP
  | Inactive, Inactive | No_feasible_size, No_feasible_size => true
  | _, _ => false
  end.

Definition Severity_eqb (a b : Severity) : bool :=
  match a, b with
  | ok, ok | warn, warn | bad, bad => true
  | _, _ => false
  end.

Section Engine.
Variable M : HostMath.
Local Open Scope string_scope.
Local Open Scope list_scope.
Local Open Scope float_scope.

Let P_ATM : float := P_ATM_PSIA (A := floatArith M).

Definition calculateSeverity (isOk : bool)
  (velocity maxVelocity deltaP allowedDeltaP : float) : Severity :=
  if isOk then ok
  else
    let velocityExceededBadly := 1.5 * maxVelocity <? velocity in
    let pressureExceededBadly :=
      (0 <? allowedDeltaP) && (1.5 * allowedDeltaP <? deltaP) in
    if velocityExceededBadly || pressureExceededBadly then bad else warn.

(** sizePipe, lines 130-146: classification of one evaluated candidate and
    the row pushed onto [results]. *)
Definition sizePipe_row
  (flowScfm length_ft upstreamPressure_psig requiredOutletPressure_psig
   maxVelocity_fts airTemperature_F pipeRoughness_ft : float)
  (gasType : GasType) (allowedDeltaP : float) (pipe : PipeSize.t) : Row.t :=
  let c := sizePipe_candidate (A := floatArith M)
             flowScfm length_ft upstreamPressure_psig
             requiredOutletPressure_psig airTemperature_F pipeRoughness_ft
             gasType (PipeSize.id_in pipe) in
  let velocityOk := v_fts c <=? maxVelocity_fts in
  let pressureOk := deltaP_psi c <=? allowedDeltaP in
  let status :=
    if negb velocityOk && negb pressureOk then High_velocity_and_Excessive_dP
    else if negb velocityOk then High_velocity
    else if negb pressureOk then Excessive_dP
    else OK in
  {| Row.nominal := PipeSize.nominal pipe;
     Row.id_in := PipeSize.id_in pipe;
     Row.velocity := v_fts c;
     Row.deltaP := deltaP_psi c;
     Row.outletPressure := None;
     Row.status := status;
     Row.severity :=
       calculateSeverity (SizingStatus_eqb status OK) (v_fts c)
         maxVelocity_fts (deltaP_psi c) allowedDeltaP |}.

(** sizePipe, lines 63-148: [for (const pipe of candidatePipes)], skipping
    the pipes that are not selected; the value is [results] after the loop. *)
Fixpoint sizePipe_results (row : PipeSize.t -> Row.t)
  (candidatePipes : list PipeSize.t) : list Row.t :=
  match candidatePipes with
  | [] => []
  | pipe :: rest =>
      if negb (PipeSize.selected pipe) then sizePipe_results row rest
      else row pipe :: sizePipe_results row rest
  end.

Definition sizePipe
  (flowScfm length_ft upstreamPressure_psig requiredOutletPressure_psig
   maxVelocity_fts airTemperature_F pipeRoughness_ft : float)
  (candidatePipes : list PipeSize.t) (gasType : GasType) : PipeSizing.t :=
  if flowScfm <=? 0 then
    {| PipeSizing.table := []; PipeSizing.recommended := "N/A (Inactive)";
       PipeSizing.velocity := 0; PipeSizing.deltaP := 0;
       PipeSizing.status := Inactive |}
  else
    let allowedDeltaP :=
      Math_max 1e-6 (upstreamPressure_psig - requiredOutletPressure_psig) in
    let results :=
      sizePipe_results
        (sizePipe_row flowScfm length_ft upstreamPressure_psig
           requiredOutletPressure_psig maxVelocity_fts airTemperature_F
           pipeRoughness_ft gasType allowedDeltaP)
        candidatePipes in
    let okSizes :=
      filter (fun r => SizingStatus_eqb (Row.status r) OK) results in
    let recommendedSize :=
      match okSizes with
      | r :: _ => Row.nominal r
      | [] => "No feasible size"
      end in
    let recommendedResult :=
      match find (fun r => String.eqb (Row.nominal r) recommendedSize) results
      with
      | Some r => Some r
      | None => hd_error results
      end in
    {| PipeSizing.table := results;
       PipeSizing.recommended := recommendedSize;
       PipeSizing.velocity :=
         match recommendedResult with Some r => Row.velocity r | None => 0 end;
       PipeSizing.deltaP :=
         match recommendedResult with Some r => Row.deltaP r | None => 0 end;
       PipeSizing.status :=
         match recommendedResult with
         | Some r => Row.status r
         | None => No_feasible_size
         end |}.

(** calculateHeaderSizing, lines 267-284: classification of one evaluated
    candidate and the row pushed onto [comparisonTable]. *)
Definition header_row (designScfm : float) (system : SystemInputs.t)
  (geometry : HeaderGeometry.t) (pipe : PipeSize.t) : Row.t :=
  let d_in := PipeSize.id_in pipe in
  let c := header_candidate (A := floatArith M)
             designScfm (SystemInputs.inletPressure system)
             (HeaderGeometry.headerLength geometry)
             (HeaderGeometry.airTemperature geometry)
             (HeaderGeometry.pipeRoughness geometry)
             (SystemInputs.gasType system) d_in in
  let pressureOk := SystemInputs.minOutletPressure system <=? p_out_psig c in
  let velocityOk := v_fts c <=? HeaderGeometry.maxLineVelocity geometry in
  let status := OK in
  let status :=
    if negb pressureOk then Insufficient_outlet_pressure else status in
  let status := if negb velocityOk then High_velocity else status in
  let status :=
    if negb pressureOk && negb velocityOk then High_velocity_and_Excessive_dP
    else status in
  {| Row.nominal := PipeSize.nominal pipe;
     Row.id_in := d_in;
     Row.velocity := v_fts c;
     Row.deltaP := deltaP_psi c;
     Row.outletPressure := Some (p_out_psig c);
     Row.status := status;
     Row.severity :=
       calculateSeverity (SizingStatus_eqb status OK) (v_fts c)
         (HeaderGeometry.maxLineVelocity geometry) (deltaP_psi c)
         (SystemInputs.inletPressure system
          - SystemInputs.minOutletPressure system) |}.

(** The [results] field of what calculateHeaderSizing returns. *)
Definition calculateHeaderSizing (designScfm : float)
  (system : SystemInputs.t) (geometry : HeaderGeometry.t)
  (pipes : list PipeSize.t) : option HeaderResults.t :=
  let selectedPipes := filter PipeSize.selected pipes in
  if Nat.eqb (List.length selectedPipes) 0 || (designScfm <=? 0) then None
  else
    let comparisonTable :=
      map (header_row designScfm system geometry) selectedPipes in
    let okSizes :=
      filter (fun r => SizingStatus_eqb (Row.status r) OK) comparisonTable in
    let recommendedSize :=
      match okSizes with
      | r :: _ => Row.nominal r
      | [] => "No feasible size"
      end in
    let recommendedResult :=
      find (fun r => String.eqb (Row.nominal r) recommendedSize)
        comparisonTable in
    Some
      {| HeaderResults.recommendedSize := recommendedSize;
         HeaderResults.outletPressure :=
           match recommendedResult with
           | Some r =>
               match Row.outletPressure r with Some p => p | None => 0 end
           | None => 0
           end;
         HeaderResults.designScfm := designScfm;
         HeaderResults.velocity :=
           match recommendedResult with
           | Some r => Row.velocity r
           | None => 0
           end;
         HeaderResults.comparisonTable := comparisonTable |}.

Definition calculateTankMetrics (system : SystemInputs.t)
  (totalDesignDemandScfm capacityMarginOrDeficitScfm : float)
  : option TankMetrics.t :=
  if SystemInputs.tankVolume system <=? 0 then None
  else
    let p_in_abs_psia := SystemInputs.inletPressure system + P_ATM in
    let p_min_abs_psia := SystemInputs.minOutletPressure system + P_ATM in
    let v_tank_ft3 :=
      SystemInputs.tankVolume system
      / GALLONS_PER_FT3 (A := floatArith M) in
    let equivalentStorageScf :=
      v_tank_ft3 * (p_in_abs_psia - p_min_abs_psia) / P_ATM in
    if totalDesignDemandScfm <=? 0 then
      Some {| TankMetrics.equivalentStorageScf := equivalentStorageScf;
              TankMetrics.referenceFlowScfm := 0;
              TankMetrics.coverageTimeMinutes := Infinity;
              TankMetrics.isCoveringDeficit := false |}
    else
      let isCoveringDeficit := capacityMarginOrDeficitScfm <? 0 in
      let referenceFlowScfm :=
        if isCoveringDeficit then Math_abs capacityMarginOrDeficitScfm
        else totalDesignDemandScfm in
      let coverageTimeMinutes :=
        if 0 <? referenceFlowScfm
        then equivalentStorageScf / referenceFlowScfm
        else Infinity in
      Some {| TankMetrics.equivalentStorageScf := equivalentStorageScf;
              TankMetrics.referenceFlowScfm := referenceFlowScfm;
              TankMetrics.coverageTimeMinutes := coverageTimeMinutes;
              TankMetrics.isCoveringDeficit := isCoveringDeficit |}.

Definition flowDivisor (system : SystemInputs.t) : float :=
  match SystemInputs.gasType system with
  | naturalGas => 60
  | air => 1
  end.

(** calculateDropsSizing, lines 444-451: up to 3 sizing options *)
Definition sizingOptions_of (table : list Row.t) : list Row.t :=
  let okOptions :=
    filter (fun r => Severity_eqb (Row.severity r) ok) table in
  if Nat.ltb 0 (List.length okOptions) then firstn 3 okOptions
  else firstn 3 table.

(** calculateDropsSizing, lines 428-464: the callback mapped over
    [drop.subDrops] *)
Definition subDropResult_of (system : SystemInputs.t)
  (geometry : HeaderGeometry.t) (selectedPipes : list PipeSize.t)
  (sd : SubDrop.t) : SubDropResult.t :=
  let subDropDesignFlowScfm :=
    (or_zero (SubDrop.reqFlow sd) * SystemInputs.demandSafetyFactor system)
    / flowDivisor system in
  let subDropSizing :=
    sizePipe subDropDesignFlowScfm (SubDrop.length sd)
      (SystemInputs.inletPressure system) (SubDrop.reqPressure sd)
      (HeaderGeometry.maxLineVelocity geometry)
      (HeaderGeometry.airTemperature geometry)
      (HeaderGeometry.pipeRoughness geometry)
      selectedPipes (SystemInputs.gasType system) in
  {| SubDropResult.name := SubDrop.name sd;
     SubDropResult.reqPressure := SubDrop.reqPressure sd;
     SubDropResult.reqFlow := SubDrop.reqFlow sd;
     SubDropResult.length := SubDrop.length sd;
     SubDropResult.recommendedSize := PipeSizing.recommended subDropSizing;
     SubDropResult.status := PipeSizing.status subDropSizing;
     SubDropResult.velocity := PipeSizing.velocity subDropSizing;
     SubDropResult.deltaP := PipeSizing.deltaP subDropSizing;
     SubDropResult.sizingOptions :=
       sizingOptions_of (PipeSizing.table subDropSizing) |}.

(** calculateDropsSizing, lines 394-481: the callback mapped over [drops] *)
Definition dropResult_of (system : SystemInputs.t)
  (geometry : HeaderGeometry.t) (selectedPipes : list PipeSize.t)
  (drop : Drop.t) : DropResult.t :=
  let subDropTotalFlow :=
    fold_left (fun sum sd => sum + or_zero (SubDrop.reqFlow sd))
      (Drop.subDrops drop) 0 in
  let usedFlow := Math_max (or_zero (Drop.reqFlow drop)) subDropTotalFlow in
  let designFlowScfm :=
    (usedFlow * SystemInputs.demandSafetyFactor system)
    / flowDivisor system in
  let dropSizing :=
    sizePipe designFlowScfm (Drop.length drop)
      (SystemInputs.inletPressure system) (Drop.reqPressure drop)
      (HeaderGeometry.maxLineVelocity geometry)
      (HeaderGeometry.airTemperature geometry)
      (HeaderGeometry.pipeRoughness geometry)
      selectedPipes (SystemInputs.gasType system) in
  let subDropResults :=
    map (subDropResult_of system geometry selectedPipes)
      (Drop.subDrops drop) in
  {| DropResult.id := Drop.id drop;
     DropResult.name := Drop.name drop;
     DropResult.length := Drop.length drop;
     DropResult.reqPressure := Drop.reqPressure drop;
     DropResult.reqFlow := Drop.reqFlow drop;
     DropResult.subDropTotalFlow := subDropTotalFlow;
     DropResult.usedFlow := usedFlow;
     DropResult.isSizedOnSubDrops :=
       (Drop.reqFlow drop <? subDropTotalFlow) && (0 <=? Drop.reqFlow drop);
     DropResult.recommendedSize := PipeSizing.recommended dropSizing;
     DropResult.velocity := PipeSizing.velocity dropSizing;
     DropResult.deltaP := PipeSizing.deltaP dropSizing;
     DropResult.comparisonTable := PipeSizing.table dropSizing;
     DropResult.subDropResults := subDropResults |}.

(** The [dropResults] field of what calculateDropsSizing returns. *)
Definition calculateDropsSizing (drops : list Drop.t)
  (system : SystemInputs.t) (geometry : HeaderGeometry.t)
  (pipes : list PipeSize.t) : list DropResult.t :=
  let selectedPipes := filter PipeSize.selected pipes in
  if Nat.eqb (List.length selectedPipes) 0 then []
  else map (dropResult_of system geometry selectedPipes) drops.

Definition performAllCalculations (systemInputs : SystemInputs.t)
  (headerGeometry : HeaderGeometry.t) (candidatePipes : list PipeSize.t)
  (drops : list Drop.t) : CalculationResults.t :=
  let flowDivisor := flowDivisor systemInputs in
  let dropResults :=
    calculateDropsSizing drops systemInputs headerGeometry candidatePipes in
  let totalDemandScfm :=
    fold_left (fun sum dr => sum + DropResult.usedFlow dr / flowDivisor)
      dropResults 0 in
  let totalDesignDemandScfm :=
    totalDemandScfm * SystemInputs.demandSafetyFactor systemInputs in
  let availableFlowScfm :=
    SystemInputs.availableCompressorFlow systemInputs / flowDivisor in
  (* the two variables of the capacity check, as initialised ... *)
  let capacity := (No_demand, availableFlowScfm) in
  (* ... and as the guarded block leaves them *)
  let capacity :=
    if 0 <? totalDesignDemandScfm then
      let capacityMarginOrDeficitScfm :=
        availableFlowScfm - totalDesignDemandScfm in
      (if 0 <=? capacityMarginOrDeficitScfm then Capacity_OK else SHORTFALL,
       capacityMarginOrDeficitScfm)
    else capacity in
  let capacityStatus := fst capacity in
  let capacityMarginOrDeficitScfm := snd capacity in
  let headerDesignScfm := Math_min availableFlowScfm totalDesignDemandScfm in
  let headerResults :=
    calculateHeaderSizing headerDesignScfm systemInputs headerGeometry
      candidatePipes in
  let tankMetrics :=
    calculateTankMetrics systemInputs totalDesignDemandScfm
      capacityMarginOrDeficitScfm in
  {| CalculationResults.totalDemandScfm := totalDemandScfm;
     CalculationResults.totalDesignDemandScfm := totalDesignDemandScfm;
     CalculationResults.capacityStatus := capacityStatus;
     CalculationResults.capacityMarginOrDeficitScfm :=
       capacityMarginOrDeficitScfm;
     CalculationResults.headerDesignScfm := headerDesignScfm;
     CalculationResults.header := headerResults;
     CalculationResults.drops := dropResults;
     CalculationResults.tankMetrics := tankMetrics |}.

End Engine.

(** ** Vocabulary of the properties *)

Definition is_OK (r : Row.t) : bool := SizingStatus_eqb (Row.status r) OK.

(** the first row, in table order, whose status is OK *)
Definition first_OK_row (table : list Row.t) : option Row.t := find is_OK table.

Definition labelled (label : string) (r : Row.t) : bool :=
  String.eqb (Row.nominal r) label.

(** severity agrees with status on a row *)
Definition severity_matches_status (r : Row.t) : Prop :=
  (Row.severity r = ok <-> Row.status r = OK) /\
  (Row.status r <> OK -> Row.severity r = warn \/ Row.severity r = bad).

(** a declared flow that [reqFlow || 0] leaves as it is: a number (not NaN)
    other than negative zero *)
Definition declared (x : float) : Prop :=
  PrimFloat.is_nan x = false /\ x <> (-0)%float.

(** the label sizePipe and the header report when no row is OK *)
Definition no_feasible_size : string := "No feasible size".

(** what a row says of the candidate's evaluation *)
Definition evaluated (r : Row.t) : string * float * float * float :=
  (Row.nominal r, Row.id_in r, Row.velocity r, Row.deltaP r).

Definition is_ok_severity (r : Row.t) : bool :=
  Severity_eqb (Row.severity r) ok.

(** the sum of the sub-drops' declared flows, as [reduce] accumulates it *)
Definition sum_reqFlow (subDrops : list SubDrop.t) : float :=
  fold_left (fun sum sd => (sum + SubDrop.reqFlow sd)%float) subDrops 0%float.

(** [m] is the maximum of [a] and [b] by the order of the numbers: it is
    above both and it is one of them *)
Definition is_max_of (a b m : float) : Prop :=
  (a <=? m)%float = true /\ (b <=? m)%float = true /\ (m = a \/ m = b).

(** the sum of [reqFlow || 0] over the sub-drops, as [reduce] accumulates
    it *)
Definition sum_or_zero (subDrops : list SubDrop.t) : float :=
  fold_left (fun sum sd => (sum + or_zero (SubDrop.reqFlow sd))%float)
    subDrops 0%float.

(** What the aggregator makes of a drop: the result [dr] of the drop [drop],
    sized against the candidates [selectedPipes]. *)
Definition aggregated (M : HostMath) (system : SystemInputs.t)
  (geometry : HeaderGeometry.t) (selectedPipes : list PipeSize.t)
  (drop : Drop.t) (dr : DropResult.t) : Prop :=
  let own := or_zero (Drop.reqFlow drop) in
  let subTotal := sum_or_zero (Drop.subDrops drop) in
  let designFlow :=
    (DropResult.usedFlow dr * SystemInputs.demandSafetyFactor system
     / flowDivisor system)%float in
  let sizing :=
    sizePipe M designFlow (Drop.length drop)
      (SystemInputs.inletPressure system) (Drop.reqPressure drop)
      (HeaderGeometry.maxLineVelocity geometry)
      (HeaderGeometry.airTemperature geometry)
      (HeaderGeometry.pipeRoughness geometry)
      selectedPipes (SystemInputs.gasType system) in
  DropResult.id dr = Drop.id drop /\
  DropResult.name dr = Drop.name drop /\
  DropResult.subDropTotalFlow dr = subTotal /\
  DropResult.usedFlow dr = Math_max own subTotal /\
  (PrimFloat.is_nan subTotal = false ->
   is_max_of own subTotal (DropResult.usedFlow dr)) /\
  (declared (Drop.reqFlow drop) ->
   Forall (fun sd => declared (SubDrop.reqFlow sd)) (Drop.subDrops drop) ->
   own = Drop.reqFlow drop /\
   subTotal = sum_reqFlow (Drop.subDrops drop)) /\
  DropResult.comparisonTable dr = PipeSizing.table sizing /\
  DropResult.recommendedSize dr = PipeSizing.recommended sizing /\
  DropResult.velocity dr = PipeSizing.velocity sizing /\
  DropResult.deltaP dr = PipeSizing.deltaP sizing /\
  (DropResult.isSizedOnSubDrops dr = true <->
   (Drop.reqFlow drop <? subTotal)%float = true /\
   (0 <=? Drop.reqFlow drop)%float = true).

(** the design flow of a sub-drop and the comparison table sizePipe computes
    for it *)
Definition subDrop_designFlow (system : SystemInputs.t) (sd : SubDrop.t)
  : float :=
  (or_zero (SubDrop.reqFlow sd) * SystemInputs.demandSafetyFactor system
   / flowDivisor system)%float.

Definition subDrop_table (M : HostMath) (system : SystemInputs.t)
  (geometry : HeaderGeometry.t) (selectedPipes : list PipeSize.t)
  (sd : SubDrop.t) : list Row.t :=
  PipeSizing.table
    (sizePipe M (subDrop_designFlow system sd) (SubDrop.length sd)
       (SystemInputs.inletPressure system) (SubDrop.reqPressure sd)
       (HeaderGeometry.maxLineVelocity geometry)
       (HeaderGeometry.airTemperature geometry)
       (HeaderGeometry.pipeRoughness geometry)
       selectedPipes (SystemInputs.gasType system)).

(** the first 3 rows of severity [ok], in table order, or the first 3 rows
    when no row has severity [ok] *)
Definition first_3_options (table : list Row.t) : list Row.t :=
  if existsb is_ok_severity table
  then firstn 3 (filter is_ok_severity table)
  else firstn 3 table.

(** ** Concrete inputs

    The default candidate list of constants.ts and the end-to-end scenario of
    the specification (inlet 130 psig, 500 SCFM available, minimum outlet
    90 psig, safety factor 1.2, air at 70 F, roughness 0.00015 ft, a 1000 ft
    header, a 50 ft/s ceiling). *)
Module Scenario.
Local Open Scope string_scope.
Local Open Scope float_scope.

Definition inch (label : string) : string :=
  label ++ String (Ascii.ascii_of_nat 34) EmptyString.

Definition pipe (label : string) (d : float) : PipeSize.t :=
  {| PipeSize.nominal := inch label; PipeSize.id_in := d;
     PipeSize.selected := true |}.

Definition DEFAULT_PIPE_SIZES : list PipeSize.t :=
  [ pipe "1/4" 0.364; pipe "1/2" 0.622; pipe "3/4" 0.824; pipe "1" 1.049;
    pipe "1-1/4" 1.380; pipe "1-1/2" 1.610; pipe "2" 2.067;
    pipe "2-1/2" 2.469; pipe "3" 3.068; pipe "4" 4.026; pipe "5" 5.047;
    pipe "6" 6.065 ].

Definition system (g : GasType) : SystemInputs.t :=
  {| SystemInputs.inletPressure := 130;
     SystemInputs.availableCompressorFlow := 500;
     SystemInputs.minOutletPressure := 90;
     SystemInputs.maxTypicalOutletPressure := 100;
     SystemInputs.demandSafetyFactor := 1.2;
     SystemInputs.tankVolume := 0;
     SystemInputs.gasType := g |}.

Definition geometry : HeaderGeometry.t :=
  {| HeaderGeometry.headerLength := 1000;
     HeaderGeometry.maxLineVelocity := 50;
     HeaderGeometry.pipeRoughness := 0.00015;
     HeaderGeometry.airTemperature := 70 |}.

Definition subDrop (flow : float) : SubDrop.t :=
  {| SubDrop.id := "s"; SubDrop.name := "Sub-drop"; SubDrop.length := 20;
     SubDrop.reqPressure := 95; SubDrop.reqFlow := flow |}.

Definition drop (flow : float) (subs : list SubDrop.t) : Drop.t :=
  {| Drop.id := "d"; Drop.name := "Drop"; Drop.length := 100;
     Drop.reqPressure := 95; Drop.reqFlow := flow; Drop.subDrops := subs |}.

(** a low-pressure fuel-gas system and a long line, for the clamped closed
    form *)
Definition fuel_system (minOutlet : float) : SystemInputs.t :=
  {| SystemInputs.inletPressure := 5;
     SystemInputs.availableCompressorFlow := 500;
     SystemInputs.minOutletPressure := minOutlet;
     SystemInputs.maxTypicalOutletPressure := 4;
     SystemInputs.demandSafetyFactor := 1.2;
     SystemInputs.tankVolume := 0;
     SystemInputs.gasType := naturalGas |}.

Definition long_line : HeaderGeometry.t :=
  {| HeaderGeometry.headerLength := 10000;
     HeaderGeometry.maxLineVelocity := 50;
     HeaderGeometry.pipeRoughness := 0.00015;
     HeaderGeometry.airTemperature := 70 |}.

(** the scenario's system with a 400 gallon receiver *)
Definition system_with_tank : SystemInputs.t :=
  {| SystemInputs.inletPressure := 130;
     SystemInputs.availableCompressorFlow := 500;
     SystemInputs.minOutletPressure := 90;
     SystemInputs.maxTypicalOutletPressure := 100;
     SystemInputs.demandSafetyFactor := 1.2;
     SystemInputs.tankVolume := 400;
     SystemInputs.gasType := air |}.

End Scenario.

(** ** The diagnostic trace of sizingService.ts

    sizePipe, calculateHeaderSizing and calculateDropsSizing return, beside the
    values above, a calculation trace for the recommended candidate.  Each
    trace is given here as a function of its own, beside the function that
    returns the sizing: the [details] field of what sizePipe and
    calculateHeaderSizing return, and the [sampleDropDetails] field of what
    calculateDropsSizing returns. *)

(** A JavaScript [Map] with string keys, as far as [set] and [get] go: [set]
    on a key already present replaces its value. *)
Section JsMap.
Context {V : Type}.

Fixpoint Map_set (key : string) (value : V) (m : list (string * V))
  : list (string * V) :=
  match m with
  | [] => [(key, value)]
  | (k, v) :: rest =>
      if String.eqb k key then (key, value) :: rest
      else (k, v) :: Map_set key value rest
  end.

Fixpoint Map_get (key : string) (m : list (string * V)) : option V :=
  match m with
  | [] => None
  | (k, v) :: rest => if String.eqb k key then Some v else Map_get key rest
  end.

End JsMap.

(** [pipeDetails] of sizePipe *)
Module PipeDetails.
Record t := {
  formula : string;
  d_ft : float;
  area_ft2 : float;
  reynolds : float;
  friction_factor : float
}.
End PipeDetails.

(** [pipeDetails] of calculateHeaderSizing: [re] and [f] are set by the
    iterative branch only *)
Module HeaderPipeDetails.
Record t := {
  formula : string;
  re : option float;
  f : option float
}.
End HeaderPipeDetails.

Module RecommendedPipe.
Record t := {
  d_ft : float;
  area_ft2 : float;
  reynolds : float;
  friction_factor : float
}.
End RecommendedPipe.

(** CalculationDetailBlock *)
Module DetailBlock.
Record t := {
  formula : string;
  p_avg_abs_psia : float;
  rho : float;
  q_acfm : float;
  q_cfs : float;
  recommended_pipe : option RecommendedPipe.t
}.
End DetailBlock.

(** CalculationDetails['sampleDrop'] *)
Module SampleDrop.
Record t := {
  name : string;
  block : DetailBlock.t;
  q_scfm : float;
  allowed_deltaP : float
}.
End SampleDrop.

Section Trace.
Variable M : HostMath.
Local Open Scope string_scope.
Local Open Scope list_scope.
Local Open Scope float_scope.

Definition formula_of (gasType : GasType) : string :=
  match gasType with
  | naturalGas => "IFGC 402.4.1"
  | air => "Darcy-Weisbach (Iterative)"
  end.

(** sizePipe, lines 104 and 127: [pipeDetails] for one selected pipe *)
Definition sizePipe_pipeDetails
  (flowScfm length_ft upstreamPressure_psig requiredOutletPressure_psig
   airTemperature_F pipeRoughness_ft : float)
  (gasType : GasType) (pipe : PipeSize.t) : PipeDetails.t :=
  let c := sizePipe_candidate (A := floatArith M)
             flowScfm length_ft upstreamPressure_psig
             requiredOutletPressure_psig airTemperature_F pipeRoughness_ft
             gasType (PipeSize.id_in pipe) in
  let d_ft := PipeSize.id_in pipe / 12 in
  let area_ft2 := (Math_PI (A := floatArith M) * d_ft * d_ft) / 4 in
  {| PipeDetails.formula := formula_of gasType;
     PipeDetails.d_ft := d_ft;
     PipeDetails.area_ft2 := area_ft2;
     PipeDetails.reynolds := reynolds c;
     PipeDetails.friction_factor := friction_factor c |}.

(** sizePipe, lines 61-148: [detailsMap] after the loop *)
Definition sizePipe_detailsMap (pipeDetails : PipeSize.t -> PipeDetails.t)
  (candidatePipes : list PipeSize.t) : list (string * PipeDetails.t) :=
  fold_left
    (fun detailsMap pipe =>
       if negb (PipeSize.selected pipe) then detailsMap
       else Map_set (PipeSize.nominal pipe) (pipeDetails pipe) detailsMap)
    candidatePipes [].

(** The [details] field of what sizePipe returns (lines 150-177). *)
Definition sizePipe_details
  (flowScfm length_ft upstreamPressure_psig requiredOutletPressure_psig
   maxVelocity_fts airTemperature_F pipeRoughness_ft : float)
  (candidatePipes : list PipeSize.t) (gasType : GasType)
  : option DetailBlock.t :=
  if flowScfm <=? 0 then None
  else
    let GAS := GAS_PROPERTIES (A := floatArith M) gasType in
    let t_abs_R := toAbsRankine (A := floatArith M) airTemperature_F in
    let p_in_abs_psia :=
      upstreamPressure_psig + P_ATM_PSIA (A := floatArith M) in
    let allowedDeltaP :=
      Math_max 1e-6 (upstreamPressure_psig - requiredOutletPressure_psig) in
    let results :=
      sizePipe_results
        (sizePipe_row M flowScfm length_ft upstreamPressure_psig
           requiredOutletPressure_psig maxVelocity_fts airTemperature_F
           pipeRoughness_ft gasType allowedDeltaP)
        candidatePipes in
    let detailsMap :=
      sizePipe_detailsMap
        (sizePipe_pipeDetails flowScfm length_ft upstreamPressure_psig
           requiredOutletPressure_psig airTemperature_F pipeRoughness_ft
           gasType)
        candidatePipes in
    let okSizes :=
      filter (fun r => SizingStatus_eqb (Row.status r) OK) results in
    let recommendedSize :=
      match okSizes with
      | r :: _ => Row.nominal r
      | [] => "No feasible size"
      end in
    let recommendedResult :=
      match find (fun r => String.eqb (Row.nominal r) recommendedSize) results
      with
      | Some r => Some r
      | None => hd_error results
      end in
    let recommendedPipeDetails := Map_get recommendedSize detailsMap in
    match recommendedResult, recommendedPipeDetails with
    | Some recommendedResult, Some recommendedPipeDetails =>
        let final_p_out_psig :=
          upstreamPressure_psig - Row.deltaP recommendedResult in
        let final_p_out_abs :=
          final_p_out_psig + P_ATM_PSIA (A := floatArith M) in
        let final_p_avg_abs := (p_in_abs_psia + final_p_out_abs) / 2 in
        let final_rho := (final_p_avg_abs * 144) / (gas_R GAS * t_abs_R) in
        let final_q_acfm :=
          flowScfm * (P_ATM_PSIA (A := floatArith M) / final_p_avg_abs) in
        let final_q_cfs := final_q_acfm / 60 in
        Some
          {| DetailBlock.formula :=
               PipeDetails.formula recommendedPipeDetails;
             DetailBlock.p_avg_abs_psia := final_p_avg_abs;
             DetailBlock.rho := final_rho;
             DetailBlock.q_acfm := final_q_acfm;
             DetailBlock.q_cfs := final_q_cfs;
             DetailBlock.recommended_pipe :=
               Some
                 {| RecommendedPipe.d_ft :=
                      PipeDetails.d_ft recommendedPipeDetails;
                    RecommendedPipe.area_ft2 :=
                      PipeDetails.area_ft2 recommendedPipeDetails;
                    RecommendedPipe.reynolds :=
                      PipeDetails.reynolds recommendedPipeDetails;
                    RecommendedPipe.friction_factor :=
                      PipeDetails.friction_factor recommendedPipeDetails |}
          |}
    | _, _ => None
    end.

(** calculateHeaderSizing, lines 244 and 264: [pipeDetails] for one pipe *)
Definition header_pipeDetails (designScfm : float) (system : SystemInputs.t)
  (geometry : HeaderGeometry.t) (pipe : PipeSize.t) : HeaderPipeDetails.t :=
  let c := header_candidate (A := floatArith M)
             designScfm (SystemInputs.inletPressure system)
             (HeaderGeometry.headerLength geometry)
             (HeaderGeometry.airTemperature geometry)
             (HeaderGeometry.pipeRoughness geometry)
             (SystemInputs.gasType system) (PipeSize.id_in pipe) in
  match SystemInputs.gasType system with
  | naturalGas =>
      {| HeaderPipeDetails.formula := "IFGC 402.4.1";
         HeaderPipeDetails.re := None; HeaderPipeDetails.f := None |}
  | air =>
      {| HeaderPipeDetails.formula := "Darcy-Weisbach (Iterative)";
         HeaderPipeDetails.re := Some (reynolds c);
         HeaderPipeDetails.f := Some (friction_factor c) |}
  end.

(** [x || 0] for a number that may be missing *)
Definition or_zero_opt (x : option float) : float :=
  match x with
  | Some x => or_zero x
  | None => 0
  end.

(** The [details] field of what calculateHeaderSizing returns (lines
    299-328). *)
Definition calculateHeaderSizing_details (designScfm : float)
  (system : SystemInputs.t) (geometry : HeaderGeometry.t)
  (pipes : list PipeSize.t) : option DetailBlock.t :=
  let selectedPipes := filter PipeSize.selected pipes in
  if Nat.eqb (List.length selectedPipes) 0 || (designScfm <=? 0) then None
  else
    let GAS := GAS_PROPERTIES (A := floatArith M)
                 (SystemInputs.gasType system) in
    let t_abs_R :=
      toAbsRankine (A := floatArith M)
        (HeaderGeometry.airTemperature geometry) in
    let p_in_abs_psia :=
      SystemInputs.inletPressure system + P_ATM_PSIA (A := floatArith M) in
    let comparisonTable :=
      map (header_row M designScfm system geometry) selectedPipes in
    let detailsMap :=
      fold_left
        (fun detailsMap pipe =>
           Map_set (PipeSize.nominal pipe)
             (header_pipeDetails designScfm system geometry pipe) detailsMap)
        selectedPipes [] in
    let okSizes :=
      filter (fun r => SizingStatus_eqb (Row.status r) OK) comparisonTable in
    let recommendedSize :=
      match okSizes with
      | r :: _ => Row.nominal r
      | [] => "No feasible size"
      end in
    let recommendedResult :=
      find (fun r => String.eqb (Row.nominal r) recommendedSize)
        comparisonTable in
    match recommendedResult with
    | None => None
    | Some recommendedResult =>
        match find (fun p => String.eqb (PipeSize.nominal p) recommendedSize)
                selectedPipes with
        | None => None
        | Some recommendedPipe =>
            let d_ft := PipeSize.id_in recommendedPipe / 12 in
            let area_ft2 :=
              (Math_PI (A := floatArith M) * d_ft * d_ft) / 4 in
            let p_out_abs :=
              match Row.outletPressure recommendedResult with
              | Some p => p
              | None => 0
              end + P_ATM_PSIA (A := floatArith M) in
            let p_avg_abs := (p_in_abs_psia + p_out_abs) / 2 in
            let rho := (p_avg_abs * 144) / (gas_R GAS * t_abs_R) in
            let q_acfm :=
              designScfm * (P_ATM_PSIA (A := floatArith M) / p_avg_abs) in
            let q_cfs := q_acfm / 60 in
            let pipeDetails := Map_get recommendedSize detailsMap in
            Some
              {| DetailBlock.formula :=
                   match pipeDetails with
                   | Some pd =>
                       if String.eqb (HeaderPipeDetails.formula pd)
                            EmptyString
                       then "N/A" else HeaderPipeDetails.formula pd
                   | None => "N/A"
                   end;
                 DetailBlock.p_avg_abs_psia := p_avg_abs;
                 DetailBlock.rho := rho;
                 DetailBlock.q_acfm := q_acfm;
                 DetailBlock.q_cfs := q_cfs;
                 DetailBlock.recommended_pipe :=
                   Some
                     {| RecommendedPipe.d_ft := d_ft;
                        RecommendedPipe.area_ft2 := area_ft2;
                        RecommendedPipe.reynolds :=
                          match pipeDetails with
                          | Some pd => or_zero_opt (HeaderPipeDetails.re pd)
                          | None => 0
                          end;
                        RecommendedPipe.friction_factor :=
                          match pipeDetails with
                          | Some pd => or_zero_opt (HeaderPipeDetails.f pd)
                          | None => 0
                          end |} |}
        end
    end.

(** The design flow of a drop's own line (lines 395-399). *)
Definition drop_designFlowScfm (system : SystemInputs.t) (drop : Drop.t)
  : float :=
  let subDropTotalFlow :=
    fold_left (fun sum sd => sum + or_zero (SubDrop.reqFlow sd))
      (Drop.subDrops drop) 0 in
  let usedFlow := Math_max (or_zero (Drop.reqFlow drop)) subDropTotalFlow in
  (usedFlow * SystemInputs.demandSafetyFactor system) / flowDivisor system.

(** calculateDropsSizing, lines 414-425: what one turn of the callback does to
    [sampleDropDetails] and [firstActiveDropProcessed]. *)
Definition sampleDrop_step (system : SystemInputs.t)
  (geometry : HeaderGeometry.t) (selectedPipes : list PipeSize.t)
  (state : option SampleDrop.t * bool) (drop : Drop.t)
  : option SampleDrop.t * bool :=
  let '(sampleDropDetails, firstActiveDropProcessed) := state in
  let designFlowScfm := drop_designFlowScfm system drop in
  let details :=
    sizePipe_details designFlowScfm (Drop.length drop)
      (SystemInputs.inletPressure system) (Drop.reqPressure drop)
      (HeaderGeometry.maxLineVelocity geometry)
      (HeaderGeometry.airTemperature geometry)
      (HeaderGeometry.pipeRoughness geometry)
      selectedPipes (SystemInputs.gasType system) in
  if negb firstActiveDropProcessed && (0 <? designFlowScfm) then
    (match details with
     | Some block =>
         Some {| SampleDrop.name := Drop.name drop;
                 SampleDrop.block := block;
                 SampleDrop.q_scfm := designFlowScfm;
                 SampleDrop.allowed_deltaP :=
                   Math_max 1e-6
                     (SystemInputs.inletPressure system
                      - Drop.reqPressure drop) |}
     | None => sampleDropDetails
     end, true)
  else state.

(** The [sampleDropDetails] field of what calculateDropsSizing returns. *)
Definition calculateDropsSizing_sampleDropDetails (drops : list Drop.t)
  (system : SystemInputs.t) (geometry : HeaderGeometry.t)
  (pipes : list PipeSize.t) : option SampleDrop.t :=
  let selectedPipes := filter PipeSize.selected pipes in
  if Nat.eqb (List.length selectedPipes) 0 then None
  else
    fst (fold_left (sampleDrop_step system geometry selectedPipes) drops
           (None, false)).

End Trace.

(** ** services/exportService.ts: the rows of the CSV report

    [String(item)] and [toFixed] on a number are the host's: they are taken
    as parameters.  The report as a whole reads the clock and drives the
    document; only its row formatting and the row of a sub-drop are
    embedded.  A text is a sequence of characters, of which formatRow looks
    at the double quote only. *)
Module CsvExport.
Local Open Scope string_scope.

Record HostFormat := {
  Number_toString : float -> string;
  Number_toFixed : float -> nat -> string
}.

(** an element of a [(string | number)[]] row *)
Inductive Item :=
| Str (s : string)
| Num (x : float).

Definition dquote : Ascii.ascii := Ascii.ascii_of_nat 34.

Definition CRLF : string :=
  String (Ascii.ascii_of_nat 13) (String (Ascii.ascii_of_nat 10) EmptyString).

Definition CSV_SEPARATOR : string := ",".

(** [String(item)] *)
Definition String_of (H : HostFormat) (item : Item) : string :=
  match item with
  | Str s => s
  | Num x => Number_toString H x
  end.

(** the global [replace] of formatRow: every double quote is doubled *)
Fixpoint double_quotes (s : string) : string :=
  match s with
  | EmptyString => EmptyString
  | String c rest =>
      if Ascii.eqb c dquote
      then String dquote (String dquote (double_quotes rest))
      else String c (double_quotes rest)
  end.

Definition formatRow (H : HostFormat) (items : list Item) : string :=
  String.concat CSV_SEPARATOR
    (map (fun item =>
            String dquote (double_quotes (String_of H item))
            ++ String dquote EmptyString)
         items)
  ++ CRLF.

(** the strings of the SizingStatus union *)
Definition delta_P : string :=
  String (Ascii.ascii_of_nat 206) (String (Ascii.ascii_of_nat 148) "P").

Definition SizingStatus_string (st : SizingStatus) : string :=
  match st with
  | OK => "OK"
  | High_velocity => "High velocity"
  | Insufficient_outlet_pressure => "Insufficient outlet pressure"
  | Excessive_dP => "Excessive " ++ delta_P
  | High_velocity_and_Excessive_dP => "High velocity & Excessive " ++ delta_P
  | Inactive => "Inactive"
  | No_feasible_size => "No feasible size"
  end.

(** exportResultsToCsv, line 90: the header row of a drop's sub-drop table *)
Definition subDrop_headings (demandFlowUnit : string) : list Item :=
  [ Str "Sub-drop Name"; Str "Length (ft)";
    Str ("Req. Flow (" ++ demandFlowUnit ++ ")"); Str "Rec. Size";
    Str "Status"; Str "Option 1"; Str "Option 1 Details"; Str "Option 2";
    Str "Option 2 Details"; Str "Option 3"; Str "Option 3 Details" ].

(** exportResultsToCsv, lines 92-103: [rowData] of one sub-drop *)
Definition subDrop_rowData (H : HostFormat) (sd : SubDropResult.t)
  : list Item :=
  [ Str (SubDropResult.name sd); Num (SubDropResult.length sd);
    Num (SubDropResult.reqFlow sd); Str (SubDropResult.recommendedSize sd);
    Str (SizingStatus_string (SubDropResult.status sd)) ]
  ++ flat_map
       (fun opt =>
          [ Str (Row.nominal opt);
            Str ("v:" ++ Number_toFixed H (Row.velocity opt) 1
                 ++ " ft/s, dP:" ++ Number_toFixed H (Row.deltaP opt) 2
                 ++ " psi") ])
       (SubDropResult.sizingOptions sd).

End CsvExport.

(** ** App.tsx: the updates of the candidate list and of the demand tree

    Each handler passes React an update function of the previous state; the
    function is what is embedded.  [Date.now()] is a parameter. *)
Module App.
Local Open Scope string_scope.
Local Open Scope float_scope.

(** the decimal digits of a non-negative integer, as a template literal
    prints it *)
Definition decimal (n : N) : string :=
  DecimalString.NilZero.string_of_uint (N.to_uint n).

Definition togglePipeSelection (nominal : string) (pipes : list PipeSize.t)
  : list PipeSize.t :=
  map (fun p =>
         if String.eqb (PipeSize.nominal p) nominal
         then {| PipeSize.nominal := PipeSize.nominal p;
                 PipeSize.id_in := PipeSize.id_in p;
                 PipeSize.selected := negb (PipeSize.selected p) |}
         else p)
      pipes.

(** [drops] is the list the component rendered with, [prev] the state the
    update is applied to *)
Definition handleAddDrop (now : N) (drops prev : list Drop.t) : list Drop.t :=
  let newDrop :=
    {| Drop.id := "drop-" ++ decimal now;
       Drop.name := "Drop " ++ decimal (N.of_nat (List.length drops) + 1);
       Drop.length := 100;
       Drop.reqPressure := 95;
       Drop.reqFlow := 100;
       Drop.subDrops := [] |} in
  prev ++ [newDrop].

Definition handleRemoveDrop (id : string) (prev : list Drop.t) : list Drop.t :=
  filter (fun d => negb (String.eqb (Drop.id d) id)) prev.

(** [Date.now()] is read inside the callback, when it meets the drop of the
    identifier; [now] is that reading.  One drop meets it when the drops
    carry pairwise different identifiers. *)
Definition handleAddSubDrop (now : N) (dropId : string) (prev : list Drop.t)
  : list Drop.t :=
  map (fun d =>
         if String.eqb (Drop.id d) dropId then
           let newSubDrop :=
             {| SubDrop.id := "subdrop-" ++ decimal now;
                SubDrop.name :=
                  "Sub-drop "
                  ++ decimal (N.of_nat (List.length (Drop.subDrops d)) + 1);
                SubDrop.length := 40;
                SubDrop.reqPressure := 90;
                SubDrop.reqFlow := 20 |} in
           {| Drop.id := Drop.id d; Drop.name := Drop.name d;
              Drop.length := Drop.length d;
              Drop.reqPressure := Drop.reqPressure d;
              Drop.reqFlow := Drop.reqFlow d;
              Drop.subDrops := Drop.subDrops d ++ [newSubDrop] |}
         else d)
      prev.

Definition handleRemoveSubDrop (dropId subDropId : string)
  (prev : list Drop.t) : list Drop.t :=
  map (fun d =>
         if String.eqb (Drop.id d) dropId then
           {| Drop.id := Drop.id d; Drop.name := Drop.name d;
              Drop.length := Drop.length d;
              Drop.reqPressure := Drop.reqPressure d;
              Drop.reqFlow := Drop.reqFlow d;
              Drop.subDrops :=
                filter (fun sd => negb (String.eqb (SubDrop.id sd) subDropId))
                  (Drop.subDrops d) |}
         else d)
      prev.

End App.

(** ** Vocabulary of the further properties *)

(** what identifies a candidate in a table: its label and its diameter *)
Definition row_candidate (r : Row.t) : string * float :=
  (Row.nominal r, Row.id_in r).

Definition pipe_candidate (p : PipeSize.t) : string * float :=
  (PipeSize.nominal p, PipeSize.id_in p).

(** the selected candidates carry pairwise different labels *)
Definition distinct_labels (pipes : list PipeSize.t) : Prop :=
  NoDup (map PipeSize.nominal (filter PipeSize.selected pipes)).

(** the four outcomes of the two checks of a drop or sub-drop row *)
Definition line_status (velocityOk pressureOk : bool) : SizingStatus :=
  match velocityOk, pressureOk with
  | true, true => OK
  | false, true => High_velocity
  | true, false => Excessive_dP
  | false, false => High_velocity_and_Excessive_dP
  end.

(** the four outcomes of the two checks of a header row *)
Definition header_status (pressureOk velocityOk : bool) : SizingStatus :=
  match pressureOk, velocityOk with
  | true, true => OK
  | false, true => Insufficient_outlet_pressure
  | true, false => High_velocity
  | false, false => High_velocity_and_Excessive_dP
  end.

(** the trace entry calculateDropsSizing builds from one drop *)
Definition sampleDrop_of (M : HostMath) (system : SystemInputs.t)
  (geometry : HeaderGeometry.t) (selectedPipes : list PipeSize.t)
  (drop : Drop.t) : option SampleDrop.t :=
  option_map
    (fun block =>
       {| SampleDrop.name := Drop.name drop;
          SampleDrop.block := block;
          SampleDrop.q_scfm := drop_designFlowScfm system drop;
          SampleDrop.allowed_deltaP :=
            Math_max 1e-6
              (SystemInputs.inletPressure system - Drop.reqPressure drop)%float
       |})
    (sizePipe_details M (drop_designFlowScfm system drop) (Drop.length drop)
       (SystemInputs.inletPressure system) (Drop.reqPressure drop)
       (HeaderGeometry.maxLineVelocity geometry)
       (HeaderGeometry.airTemperature geometry)
       (HeaderGeometry.pipeRoughness geometry)
       selectedPipes (SystemInputs.gasType system)).

(** a drop whose own line carries a positive design flow *)
Definition active_drop (system : SystemInputs.t) (drop : Drop.t) : bool :=
  (0 <? drop_designFlowScfm system drop)%float.

(** Reading a cell of a CSV line back: the text after the opening quote, up
    to the first quote that is not doubled, and what follows that quote. *)
Fixpoint unquote (s : string) : option (string * string) :=
  match s with
  | EmptyString => None
  | String c rest =>
      if Ascii.eqb c CsvExport.dquote then
        match rest with
        | String c' rest' =>
            if Ascii.eqb c' CsvExport.dquote then
              match unquote rest' with
              | Some (cell, tail) => Some (String CsvExport.dquote cell, tail)
              | None => None
              end
            else Some (EmptyString, rest)
        | EmptyString => Some (EmptyString, EmptyString)
        end
      else
        match unquote rest with
        | Some (cell, tail) => Some (String c cell, tail)
        | None => None
        end
  end.

(** a text that does not begin with a double quote *)
Definition no_leading_quote (s : string) : bool :=
  match s with
  | EmptyString => true
  | String c _ => negb (Ascii.eqb c CsvExport.dquote)
  end.

(** a cell between double quotes, its own quotes doubled, and the line of a
    list of cell texts *)
Definition quoted (s : string) : string :=
  (String CsvExport.dquote (CsvExport.double_quotes s)
   ++ String CsvExport.dquote EmptyString)%string.

Definition csv_line (cells : list string) : string :=
  (String.concat CsvExport.CSV_SEPARATOR (map quoted cells)
   ++ CsvExport.CRLF)%string.

(** every pipe of a label is selected *)
Definition label_selected (label : string) (pipes : list PipeSize.t) : Prop :=
  Forall
    (fun p => PipeSize.nominal p = label -> PipeSize.selected p = true)
    pipes.

(** no drop, and no sub-drop, carries the identifier *)
Definition fresh_drop_id (id : string) (drops : list Drop.t) : Prop :=
  Forall (fun d => Drop.id d <> id) drops.

Definition fresh_subDrop_id (id : string) (drops : list Drop.t) : Prop :=
  Forall
    (fun d => Forall (fun sd => SubDrop.id sd <> id) (Drop.subDrops d))
    drops.

(** ** Facts about binary64 comparisons *)

Section FloatFacts.
Local Open Scope float_scope.

Lemma SFcompare_swap (a b : spec_float) :
  SFcompare b a = option_map CompOpp (SFcompare a b).
Proof.
  destruct a as [sa | sa | | sa ma ea], b as [sb | sb | | sb mb eb];
    try destruct sa; try destruct sb; try reflexivity; simpl.
  - rewrite (Z.compare_antisym eb ea).
    destruct (eb ?= ea)%Z; simpl; try reflexivity.
    now rewrite (Pos.compare_cont_antisym ma mb Eq).
  - rewrite (Z.compare_antisym eb ea).
    destruct (eb ?= ea)%Z; simpl; try reflexivity.
    now rewrite (Pos.compare_cont_antisym ma mb Eq).
Qed.

Lemma ltb_leb_false (x y : float) : (x <? y) = true -> (y <=? x) = false.
Proof.
  rewrite FloatAxioms.ltb_spec, FloatAxioms.leb_spec. unfold SFltb, SFleb.
  rewrite (SFcompare_swap (Prim2SF x) (Prim2SF y)).
  destruct (SFcompare (Prim2SF x) (Prim2SF y)) as [[]|]; simpl; congruence.
Qed.

Lemma leb_ltb_false (x y : float) : (x <=? y) = true -> (y <? x) = false.
Proof.
  rewrite FloatAxioms.ltb_spec, FloatAxioms.leb_spec. unfold SFltb, SFleb.
  rewrite (SFcompare_swap (Prim2SF x) (Prim2SF y)).
  destruct (SFcompare (Prim2SF x) (Prim2SF y)) as [[]|]; simpl; congruence.
Qed.

Lemma eqb_ltb_false (x y : float) : (x =? y) = true -> (y <? x) = false.
Proof.
  rewrite FloatAxioms.ltb_spec, FloatAxioms.eqb_spec. unfold SFltb, SFeqb.
  rewrite (SFcompare_swap (Prim2SF x) (Prim2SF y)).
  destruct (SFcompare (Prim2SF x) (Prim2SF y)) as [[]|]; simpl; congruence.
Qed.

Lemma Prim2SF_inj (x y : float) : Prim2SF x = Prim2SF y -> x = y.
Proof.
  intros H. rewrite <- (SF2Prim_Prim2SF x), <- (SF2Prim_Prim2SF y).
  now rewrite H.
Qed.

Lemma is_zero_cases (x : float) :
  PrimFloat.is_zero x = true -> x = 0 \/ x = -0.
Proof.
  unfold PrimFloat.is_zero. rewrite FloatAxioms.eqb_spec. unfold SFeqb.
  change (Prim2SF zero) with (S754_zero false).
  destruct (Prim2SF x) as [s | s | | s m e] eqn:Hx; simpl;
    try destruct s; try discriminate; intros _.
  - right. apply Prim2SF_inj. rewrite Hx. reflexivity.
  - left. apply Prim2SF_inj. rewrite Hx. reflexivity.
Qed.

Lemma or_zero_declared (x : float) : declared x -> or_zero x = x.
Proof.
  intros [Hnan Hnz]. unfold or_zero, truthy. rewrite Hnan, orb_false_r.
  destruct (PrimFloat.is_zero x) eqn:Hz; [simpl | reflexivity].
  destruct (is_zero_cases x Hz) as [-> | ->]; [reflexivity | congruence].
Qed.

Lemma sub_zero (x : float) : x - 0 = x.
Proof.
  apply Prim2SF_inj. rewrite FloatAxioms.sub_spec. unfold SF64sub.
  change (Prim2SF 0) with (S754_zero false).
  destruct (Prim2SF x) as [[] | [] | | s m e]; reflexivity.
Qed.

Lemma abs_pos_of_neg (x : float) : (x <? 0) = true -> (0 <? abs x) = true.
Proof.
  rewrite !FloatAxioms.ltb_spec, FloatAxioms.abs_spec. unfold SFltb.
  change (Prim2SF 0) with (S754_zero false).
  destruct (Prim2SF x) as [[] | [] | | [] m e]; simpl; congruence.
Qed.

End FloatFacts.

(** ** Facts about the list operations the engine uses *)

Section ListFacts.
Context {T : Type}.

Lemma filter_head_find (p : T -> bool) (l : list T) :
  match filter p l with
  | x :: _ => find p l = Some x
  | [] => find p l = None
  end.
Proof.
  induction l as [| a l IH]; simpl; [reflexivity |].
  destruct (p a); simpl; [reflexivity | exact IH].
Qed.

Lemma find_none_existsb (p : T -> bool) (l : list T) :
  existsb p l = false -> find p l = None.
Proof.
  induction l as [| a l IH]; simpl; [reflexivity |].
  destruct (p a); simpl; [discriminate | exact IH].
Qed.

Lemma firstn_nil_iff (n : nat) (l : list T) :
  firstn (S n) l = [] <-> l = [].
Proof. destruct l; simpl; split; congruence. Qed.

Lemma Forall_firstn (P : T -> Prop) (n : nat) (l : list T) :
  Forall P l -> Forall P (firstn n l).
Proof.
  intros H. revert n. induction H as [| a l Ha Hl IH]; intros [| n]; simpl;
    constructor; auto.
Qed.

Lemma Forall_filter (P : T -> Prop) (p : T -> bool) (l : list T) :
  Forall P l -> Forall P (filter p l).
Proof.
  induction 1 as [| a l Ha Hl IH]; simpl; [constructor |].
  destruct (p a); [constructor |]; assumption.
Qed.

Lemma filter_idempotent (p : T -> bool) (l : list T) :
  filter p (filter p l) = filter p l.
Proof.
  induction l as [| a l IH]; simpl; [reflexivity |].
  destruct (p a) eqn:E; simpl; [rewrite E, IH |]; auto.
Qed.

Lemma filter_nil_existsb (p : T -> bool) (l : list T) :
  existsb p l = negb (Nat.eqb (List.length (filter p l)) 0).
Proof.
  induction l as [| a l IH]; simpl; [reflexivity |].
  destruct (p a); simpl; [reflexivity | exact IH].
Qed.

End ListFacts.

(** ** The engine, unfolded *)

(** With the same seed the two candidate loops run the same iteration, and
    the two closed forms are the same text. *)
Lemma header_candidate_as_sizePipe {num : Type} {A : Arith num}
  (q inlet L T rough req : num) (g : GasType) (d : num) :
  g = naturalGas \/ req = inlet ->
  header_candidate q inlet L T rough g d =
  sizePipe_candidate q L inlet req T rough g d.
Proof. intros [-> | ->]; [| destruct g]; reflexivity. Qed.

Section EngineFacts.
Variable M : HostMath.
Local Open Scope string_scope.
Local Open Scope float_scope.

Lemma P_ATM_PSIA_float : P_ATM_PSIA (A := floatArith M) = 14.7.
Proof. reflexivity. Qed.

Lemma GALLONS_PER_FT3_float : GALLONS_PER_FT3 (A := floatArith M) = 7.48.
Proof. reflexivity. Qed.

Lemma sizePipe_results_map (row : PipeSize.t -> Row.t)
  (pipes : list PipeSize.t) :
  sizePipe_results row pipes = map row (filter PipeSize.selected pipes).
Proof.
  induction pipes as [| p pipes IH]; simpl; [reflexivity |].
  destruct (PipeSize.selected p); simpl; now rewrite IH.
Qed.

Lemma SizingStatus_eqb_eq (a b : SizingStatus) :
  SizingStatus_eqb a b = true <-> a = b.
Proof. destruct a, b; simpl; split; congruence. Qed.

Lemma Severity_eqb_eq (a b : Severity) : Severity_eqb a b = true <-> a = b.
Proof. destruct a, b; simpl; split; congruence. Qed.

Lemma calculateSeverity_spec (isOk : bool) (v vmax dP allowed : float) :
  (calculateSeverity isOk v vmax dP allowed = ok <-> isOk = true) /\
  (isOk = false ->
   calculateSeverity isOk v vmax dP allowed = warn \/
   calculateSeverity isOk v vmax dP allowed = bad).
Proof.
  unfold calculateSeverity. destruct isOk.
  - split; [tauto | discriminate].
  - destruct ((1.5 * vmax <? v) || (0 <? allowed) && (1.5 * allowed <? dP));
      split; try (split; discriminate); auto.
Qed.

Lemma severity_of_status (st : SizingStatus)
  (v vmax dP allowed : float) (r : Row.t) :
  Row.status r = st ->
  Row.severity r =
    calculateSeverity (SizingStatus_eqb st OK) v vmax dP allowed ->
  severity_matches_status r.
Proof.
  intros Hst Hsev. unfold severity_matches_status. rewrite Hst, Hsev.
  destruct (calculateSeverity_spec (SizingStatus_eqb st OK) v vmax dP allowed)
    as [Hok Hfail].
  split.
  - rewrite Hok. apply SizingStatus_eqb_eq.
  - intros Hne. apply Hfail.
    destruct (SizingStatus_eqb st OK) eqn:E; [| reflexivity].
    apply SizingStatus_eqb_eq in E. contradiction.
Qed.

Lemma sizePipe_row_severity flowScfm length_ft up req vmax T rough g allowed
  (pipe : PipeSize.t) :
  severity_matches_status
    (sizePipe_row M flowScfm length_ft up req vmax T rough g allowed pipe).
Proof. eapply severity_of_status; reflexivity. Qed.

Lemma header_row_severity designScfm system geometry (pipe : PipeSize.t) :
  severity_matches_status (header_row M designScfm system geometry pipe).
Proof. eapply severity_of_status; reflexivity. Qed.

Lemma sizePipe_table flowScfm length_ft up req vmax T rough pipes g :
  PipeSizing.table (sizePipe M flowScfm length_ft up req vmax T rough pipes g)
  = if flowScfm <=? 0 then []
    else map (sizePipe_row M flowScfm length_ft up req vmax T rough g
                (Math_max 1e-6 (up - req)))
             (filter PipeSize.selected pipes).
Proof.
  unfold sizePipe. destruct (flowScfm <=? 0); [reflexivity |].
  cbn [PipeSizing.table]. apply sizePipe_results_map.
Qed.

Lemma sizePipe_table_severity flowScfm length_ft up req vmax T rough pipes g :
  Forall severity_matches_status
    (PipeSizing.table
       (sizePipe M flowScfm length_ft up req vmax T rough pipes g)).
Proof.
  rewrite sizePipe_table. destruct (flowScfm <=? 0); [constructor |].
  apply Forall_forall. intros r Hr. apply in_map_iff in Hr.
  destruct Hr as [p [<- _]]. apply sizePipe_row_severity.
Qed.

Lemma header_table designScfm system geometry pipes h :
  calculateHeaderSizing M designScfm system geometry pipes = Some h ->
  (designScfm <=? 0) = false /\
  filter PipeSize.selected pipes <> [] /\
  HeaderResults.comparisonTable h =
    map (header_row M designScfm system geometry)
      (filter PipeSize.selected pipes).
Proof.
  unfold calculateHeaderSizing.
  destruct (filter PipeSize.selected pipes) as [| p sel] eqn:Hsel;
    [discriminate |].
  cbn [List.length Nat.eqb orb].
  destruct (designScfm <=? 0); [discriminate |].
  intros H. injection H as <-. cbn [HeaderResults.comparisonTable].
  repeat split. discriminate.
Qed.

Lemma sizingOptions_subset (P : Row.t -> Prop) (table : list Row.t) :
  Forall P table -> Forall P (sizingOptions_of table).
Proof.
  intros H. unfold sizingOptions_of.
  destruct (Nat.ltb 0 _); apply Forall_firstn; [apply Forall_filter |];
    exact H.
Qed.

(** reading the literals of the physics in binary64 *)
Ltac float_literals :=
  unfold int, P_ATM_PSIA, GALLONS_PER_FT3 in *;
  cbn [n_add n_sub n_mul n_div n_opp n_leb n_ltb dec Math_sqrt Math_pow
       Math_log10 floatArith] in *;
  repeat match goal with
  | |- context [float_dec ?m ?k] =>
      let v := eval vm_compute in (float_dec m k) in
      change (float_dec m k) with v
  | H : context [float_dec ?m ?k] |- _ =>
      let v := eval vm_compute in (float_dec m k) in
      change (float_dec m k) with v in H
  end.

Lemma sizePipe_candidate_clamped (q L up req T rough d : float) :
  (0 <? q * 60) = true ->
  (ifgc_p2_sq (A := floatArith M) q L up d <? 0) = true ->
  let c := sizePipe_candidate (A := floatArith M) q L up req T rough
             naturalGas d in
  p_out_psig c = -14.7 /\ deltaP_psi c = up - (-14.7).
Proof.
  intros Hq Hp2 c. subst c. unfold sizePipe_candidate, ifgc_p2_sq in *.
  cbn [p_out_psig deltaP_psi]. float_literals.
  rewrite Hq, Hp2. split; reflexivity.
Qed.

Lemma header_candidate_clamped (q inlet L T rough d : float) :
  (0 <? q * 60) = true ->
  (ifgc_p2_sq (A := floatArith M) q L inlet d <? 0) = true ->
  let c := header_candidate (A := floatArith M) q inlet L T rough
             naturalGas d in
  p_out_psig c = -14.7 /\ deltaP_psi c = inlet - (-14.7).
Proof.
  intros Hq Hp2 c. subst c. unfold header_candidate, ifgc_p2_sq in *.
  cbn [p_out_psig deltaP_psi]. float_literals.
  rewrite Hq, Hp2. split; reflexivity.
Qed.

Lemma fold_or_zero_declared (subs : list SubDrop.t) (acc : float) :
  Forall (fun sd => declared (SubDrop.reqFlow sd)) subs ->
  fold_left (fun sum sd => sum + or_zero (SubDrop.reqFlow sd)) subs acc =
  fold_left (fun sum sd => sum + SubDrop.reqFlow sd) subs acc.
Proof.
  intros H. revert acc. induction H as [| sd subs Hsd _ IH]; intros acc;
    simpl; [reflexivity |].
  now rewrite (or_zero_declared _ Hsd), IH.
Qed.

Lemma calculateDropsSizing_map drops system geometry pipes :
  filter PipeSize.selected pipes <> [] ->
  calculateDropsSizing M drops system geometry pipes =
  map (dropResult_of M system geometry (filter PipeSize.selected pipes)) drops.
Proof.
  intros H. unfold calculateDropsSizing.
  destruct (filter PipeSize.selected pipes); [contradiction | reflexivity].
Qed.

End EngineFacts.

(** ** Properties of the engine *)

Section Properties.
Local Open Scope string_scope.
Local Open Scope float_scope.

(** *** Inactive segments *)

(** C6: whenever [flow <= 0], whatever the other arguments and the gas kind,
    sizePipe returns the empty table, the label "N/A (Inactive)", status
    Inactive and zero velocity and pressure drop. *)
Theorem sizePipe_inactive (M : HostMath)
  (flowScfm length_ft up req vmax T rough : float)
  (pipes : list PipeSize.t) (g : GasType) :
  (flowScfm <=? 0) = true ->
  sizePipe M flowScfm length_ft up req vmax T rough pipes g =
  {| PipeSizing.table := []; PipeSizing.recommended := "N/A (Inactive)";
     PipeSizing.velocity := 0; PipeSizing.deltaP := 0;
     PipeSizing.status := Inactive |}.
Proof. intros H. unfold sizePipe. now rewrite H. Qed.

Lemma sizePipe_inactive_witness :
  (0 <=? 0) = true /\
  sizePipe refHost 0 100 130 95 50 70 0.00015 Scenario.DEFAULT_PIPE_SIZES
    naturalGas =
  {| PipeSizing.table := []; PipeSizing.recommended := "N/A (Inactive)";
     PipeSizing.velocity := 0; PipeSizing.deltaP := 0;
     PipeSizing.status := Inactive |}.
Proof.
  split; [reflexivity |].
  apply (sizePipe_inactive refHost 0 100 130 95 50 70 0.00015
           Scenario.DEFAULT_PIPE_SIZES naturalGas).
  reflexivity.
Defined.

(** *** Severity and status *)

(** C10: in every row the engine emits - the comparison table of the header
    and of each drop, the sizing options of each sub-drop, and more generally
    every row of every table sizePipe builds - the severity is [ok] exactly
    when the status is OK, and a row that is not OK carries [warn] or [bad]. *)
Theorem severity_ok_iff_status_OK (M : HostMath) (system : SystemInputs.t)
  (geometry : HeaderGeometry.t) (pipes : list PipeSize.t)
  (drops : list Drop.t) :
  let r := performAllCalculations M system geometry pipes drops in
  (forall h, CalculationResults.header r = Some h ->
     Forall severity_matches_status (HeaderResults.comparisonTable h)) /\
  Forall (fun dr =>
            Forall severity_matches_status (DropResult.comparisonTable dr) /\
            Forall (fun sdr =>
                      Forall severity_matches_status
                        (SubDropResult.sizingOptions sdr))
                   (DropResult.subDropResults dr))
         (CalculationResults.drops r) /\
  (forall flowScfm length_ft up req vmax T rough g,
     Forall severity_matches_status
       (PipeSizing.table
          (sizePipe M flowScfm length_ft up req vmax T rough pipes g))).
Proof.
  intros r. subst r. unfold performAllCalculations.
  cbn [CalculationResults.header CalculationResults.drops].
  split; [| split].
  - intros h Hh. apply header_table in Hh. destruct Hh as [_ [_ ->]].
    apply Forall_forall. intros row Hrow. apply in_map_iff in Hrow.
    destruct Hrow as [p [<- _]]. apply header_row_severity.
  - unfold calculateDropsSizing.
    destruct (Nat.eqb _ 0); [constructor |].
    apply Forall_forall. intros dr Hdr. apply in_map_iff in Hdr.
    destruct Hdr as [d [<- _]]. unfold dropResult_of.
    cbn [DropResult.comparisonTable DropResult.subDropResults]. split.
    + apply sizePipe_table_severity.
    + apply Forall_forall. intros sdr Hsdr. apply in_map_iff in Hsdr.
      destruct Hsdr as [sd [<- _]]. unfold subDropResult_of.
      cbn [SubDropResult.sizingOptions].
      apply sizingOptions_subset, sizePipe_table_severity.
  - intros. apply sizePipe_table_severity.
Qed.

(** *** Recommendation order *)

(** C1, as the code has it: in a non-empty sizePipe table the recommended
    label is the label of the first row, in table order, whose status is OK;
    with no OK row it is "No feasible size" and - unless a candidate is itself
    labelled "No feasible size" - the reported velocity, pressure drop and
    status are those of the first row.  The header recommends by the same rule,
    but with no OK row (and no candidate labelled "No feasible size") it
    reports outlet pressure 0 and velocity 0, not the first row's values. *)
Theorem recommended_is_first_OK_row (M : HostMath) :
  (forall flowScfm length_ft up req vmax T rough pipes g,
     let s := sizePipe M flowScfm length_ft up req vmax T rough pipes g in
     PipeSizing.table s <> [] ->
     match first_OK_row (PipeSizing.table s) with
     | Some r => PipeSizing.recommended s = Row.nominal r
     | None =>
         PipeSizing.recommended s = no_feasible_size /\
         (existsb (labelled no_feasible_size) (PipeSizing.table s) = false ->
          exists r0, hd_error (PipeSizing.table s) = Some r0 /\
            PipeSizing.velocity s = Row.velocity r0 /\
            PipeSizing.deltaP s = Row.deltaP r0 /\
            PipeSizing.status s = Row.status r0)
     end) /\
  (forall designScfm system geometry pipes h,
     calculateHeaderSizing M designScfm system geometry pipes = Some h ->
     HeaderResults.comparisonTable h <> [] /\
     match first_OK_row (HeaderResults.comparisonTable h) with
     | Some r => HeaderResults.recommendedSize h = Row.nominal r
     | None =>
         HeaderResults.recommendedSize h = no_feasible_size /\
         (existsb (labelled no_feasible_size)
            (HeaderResults.comparisonTable h) = false ->
          HeaderResults.outletPressure h = 0 /\
          HeaderResults.velocity h = 0)
     end).
Proof.
  split.
  - intros flowScfm length_ft up req vmax T rough pipes g s. subst s.
    unfold sizePipe. destruct (flowScfm <=? 0); [intros H; now elim H |].
    cbn [PipeSizing.table PipeSizing.recommended PipeSizing.velocity
         PipeSizing.deltaP PipeSizing.status].
    set (results := sizePipe_results _ pipes). intros Hne.
    unfold first_OK_row.
    pose proof (filter_head_find is_OK results) as Hf.
    change (fun r : Row.t => SizingStatus_eqb (Row.status r) OK) with is_OK.
    destruct (filter is_OK results) as [| r oks]; rewrite Hf;
      [| reflexivity].
    split; [reflexivity |]. intros Hlab.
    change (fun r : Row.t => (Row.nominal r =? "No feasible size")%string)
      with (labelled no_feasible_size).
    rewrite (find_none_existsb _ _ Hlab).
    destruct results as [| r0 rest]; [now elim Hne |].
    exists r0. repeat split.
  - intros designScfm system geometry pipes h Hh.
    pose proof (header_table M _ _ _ _ _ Hh) as [_ [Hsel Htab]].
    split.
    { rewrite Htab. destruct (filter PipeSize.selected pipes);
        [now elim Hsel | discriminate]. }
    revert Hh. unfold calculateHeaderSizing.
    destruct (Nat.eqb _ 0 || (designScfm <=? 0)); [discriminate |].
    intros Hh. injection Hh as <-.
    cbn [HeaderResults.comparisonTable HeaderResults.recommendedSize
         HeaderResults.outletPressure HeaderResults.velocity].
    set (table := map _ (filter PipeSize.selected pipes)).
    unfold first_OK_row.
    pose proof (filter_head_find is_OK table) as Hf.
    change (fun r : Row.t => SizingStatus_eqb (Row.status r) OK) with is_OK.
    destruct (filter is_OK table) as [| r oks]; rewrite Hf; [| reflexivity].
    split; [reflexivity |]. intros Hlab.
    change (fun r : Row.t => (Row.nominal r =? "No feasible size")%string)
      with (labelled no_feasible_size).
    rewrite (find_none_existsb _ _ Hlab). split; reflexivity.
Qed.

(** C1, as stated, fails on the header: with the 1/4 and 1/2 inch candidates
    only, the scenario's header (120 SCFM) has no OK row; the first row has
    velocity about 2014 ft/s and a negative outlet pressure, and the header
    reports "No feasible size" with velocity 0 and outlet pressure 0. *)
Lemma header_without_OK_row_reports_zero :
  let pipes := [Scenario.pipe "1/4" 0.364; Scenario.pipe "1/2" 0.622] in
  let h := calculateHeaderSizing refHost 120 (Scenario.system air)
             Scenario.geometry pipes in
  option_map HeaderResults.recommendedSize h = Some no_feasible_size /\
  option_map (fun h => map Row.status (HeaderResults.comparisonTable h)) h =
    Some [High_velocity_and_Excessive_dP; High_velocity_and_Excessive_dP] /\
  option_map (fun h => hd_error (map (fun r => (Row.velocity r,
                                               Row.outletPressure r))
                                   (HeaderResults.comparisonTable h))) h =
    Some (Some (2014.1053015575424, Some (-45380.273740903329))) /\
  option_map HeaderResults.velocity h = Some 0 /\
  option_map HeaderResults.outletPressure h = Some 0.
Proof. vm_compute. repeat split. Qed.

(** The recommendation follows table order, not diameter: with the 2 inch
    candidate listed before the 1 inch one, the scenario's drop (120 SCFM over
    100 ft) is recommended the 2 inch pipe although the 1 inch one is OK. *)
Lemma recommended_is_first_OK_row_witness :
  let pipes := [Scenario.pipe "3/4" 0.824; Scenario.pipe "2" 2.067;
                Scenario.pipe "1" 1.049] in
  let s := sizePipe refHost 120 100 130 95 50 70 0.00015 pipes air in
  map Row.status (PipeSizing.table s) = [High_velocity; OK; OK] /\
  PipeSizing.recommended s = Scenario.inch "2".
Proof.
  intros pipes s. split; [vm_compute; reflexivity |].
  pose proof (proj1 (recommended_is_first_OK_row refHost)
                120 100 130 95 50 70 0.00015 pipes air) as H.
  cbv zeta in H. fold s in H.
  assert (Hne : PipeSizing.table s <> []) by (vm_compute; discriminate).
  specialize (H Hne). 
  assert (Hf : option_map Row.nominal (first_OK_row (PipeSizing.table s))
               = Some (Scenario.inch "2")) by (vm_compute; reflexivity).
  destruct (first_OK_row (PipeSizing.table s)) as [r |]; [| discriminate].
  rewrite H. simpl in Hf. congruence.
Defined.

(** *** Header sizing and the generic evaluator *)

(** C4, as the code has it: the header's Darcy-Weisbach iteration starts from
    the inlet pressure.  Each header row carries the velocity and pressure drop
    that sizePipe computes for the same flow, length, upstream pressure,
    temperature, roughness and candidate when sizePipe's downstream reference
    is the inlet pressure; for fuel gas (a closed form, no seed) they agree
    for every downstream reference. *)
Theorem header_rows_as_sizePipe_rows (M : HostMath) (designScfm : float)
  (system : SystemInputs.t) (geometry : HeaderGeometry.t)
  (pipes : list PipeSize.t) (h : HeaderResults.t) (req : float) :
  calculateHeaderSizing M designScfm system geometry pipes = Some h ->
  SystemInputs.gasType system = naturalGas \/
  req = SystemInputs.inletPressure system ->
  map evaluated (HeaderResults.comparisonTable h) =
  map evaluated
    (PipeSizing.table
       (sizePipe M designScfm (HeaderGeometry.headerLength geometry)
          (SystemInputs.inletPressure system) req
          (HeaderGeometry.maxLineVelocity geometry)
          (HeaderGeometry.airTemperature geometry)
          (HeaderGeometry.pipeRoughness geometry)
          pipes (SystemInputs.gasType system))).
Proof.
  intros Hh Hseed. apply header_table in Hh. destruct Hh as [Hq [_ ->]].
  rewrite sizePipe_table, Hq, !map_map. apply map_ext. intros p.
  unfold evaluated, header_row, sizePipe_row.
  cbn [Row.nominal Row.id_in Row.velocity Row.deltaP].
  now rewrite (header_candidate_as_sizePipe (A := floatArith M)
                 designScfm (SystemInputs.inletPressure system)
                 (HeaderGeometry.headerLength geometry)
                 (HeaderGeometry.airTemperature geometry)
                 (HeaderGeometry.pipeRoughness geometry) req
                 (SystemInputs.gasType system) (PipeSize.id_in p) Hseed).
Qed.

Lemma header_rows_as_sizePipe_rows_witness :
  let pipes := [Scenario.pipe "1" 1.049; Scenario.pipe "2" 2.067] in
  option_map (fun h => map evaluated (HeaderResults.comparisonTable h))
    (calculateHeaderSizing refHost 120 (Scenario.system air)
       Scenario.geometry pipes) =
  Some (map evaluated
          (PipeSizing.table
             (sizePipe refHost 120 1000 130 130 50 70 0.00015 pipes air))).
Proof.
  intros pipes.
  destruct (calculateHeaderSizing refHost 120 (Scenario.system air)
              Scenario.geometry pipes) as [h |] eqn:Hh;
    [| vm_compute in Hh; discriminate].
  simpl. f_equal.
  exact (header_rows_as_sizePipe_rows refHost 120 (Scenario.system air)
           Scenario.geometry pipes h 130 Hh (or_intror eq_refl)).
Defined.

(** C4, as stated, fails: for the scenario's header (air, 120 SCFM, 1000 ft,
    130 psig upstream, 90 psig downstream reference) and the 1 inch candidate,
    the header reports 38.4750 ft/s and 34.7684 psi where the generic
    evaluator, seeded with the downstream reference, computes 38.4759 ft/s and
    34.7691 psi. *)
Lemma header_seed_is_not_the_downstream_reference :
  let pipes := [Scenario.pipe "1" 1.049] in
  option_map (fun h => map (fun r => (Row.velocity r, Row.deltaP r))
                         (HeaderResults.comparisonTable h))
    (calculateHeaderSizing refHost 120 (Scenario.system air)
       Scenario.geometry pipes) =
  Some [(38.475022375634168, 34.768385742643908)] /\
  map (fun r => (Row.velocity r, Row.deltaP r))
    (PipeSizing.table
       (sizePipe refHost 120 1000 130 90 50 70 0.00015 pipes air)) =
  [(38.47593495660454, 34.7690747668859)].
Proof. vm_compute. split; reflexivity. Qed.

(** *** Capacity check *)

(** C3, as the code has it: when the design demand is positive the margin is
    the available flow minus the design demand, and the status is OK when that
    margin is [>= 0] and SHORTFALL when it is negative; when the design demand
    is not positive the status is "No demand" and the margin is the available
    flow itself - which is again available minus demand when the demand is
    zero. *)
Theorem capacity_margin_and_status (M : HostMath) (system : SystemInputs.t)
  (geometry : HeaderGeometry.t) (pipes : list PipeSize.t)
  (drops : list Drop.t) :
  let r := performAllCalculations M system geometry pipes drops in
  let available :=
    SystemInputs.availableCompressorFlow system / flowDivisor system in
  let designDemand := CalculationResults.totalDesignDemandScfm r in
  let margin := CalculationResults.capacityMarginOrDeficitScfm r in
  let status := CalculationResults.capacityStatus r in
  ((0 <? designDemand) = true -> margin = available - designDemand) /\
  ((0 <? designDemand) = false -> margin = available) /\
  (designDemand = 0 -> margin = available - designDemand) /\
  ((designDemand <=? 0) = true -> status = No_demand) /\
  ((0 <? designDemand) = true -> (0 <=? margin) = true ->
   status = Capacity_OK) /\
  ((0 <? designDemand) = true -> (margin <? 0) = true -> status = SHORTFALL).
Proof.
  intros r available designDemand margin status.
  subst r available designDemand margin status.
  unfold performAllCalculations.
  cbn [CalculationResults.totalDesignDemandScfm
       CalculationResults.capacityMarginOrDeficitScfm
       CalculationResults.capacityStatus].
  set (dd := fold_left _ _ 0 * SystemInputs.demandSafetyFactor system).
  set (available :=
         SystemInputs.availableCompressorFlow system / flowDivisor system).
  destruct (0 <? dd) eqn:Hpos; cbn [fst snd].
  - split; [reflexivity |]. split; [discriminate |].
    split; [reflexivity |]. split; [| split].
    + intros Hle. apply leb_ltb_false in Hle. congruence.
    + intros _ Hm. now rewrite Hm.
    + intros _ Hm. apply ltb_leb_false in Hm. now rewrite Hm.
  - split; [discriminate |]. split; [reflexivity |].
    split; [| split; [reflexivity | split; discriminate]].
    intros ->. symmetry. apply sub_zero.
Qed.

(** The specification's arithmetic: 500 available against a design demand of
    450 (one drop of 375 under the safety factor 1.2) is OK with margin 50. *)
Lemma capacity_margin_and_status_witness :
  let r := performAllCalculations refHost (Scenario.system air)
             Scenario.geometry Scenario.DEFAULT_PIPE_SIZES
             [Scenario.drop 375 []] in
  CalculationResults.totalDesignDemandScfm r = 450 /\
  CalculationResults.capacityMarginOrDeficitScfm r = 50 /\
  CalculationResults.capacityStatus r = Capacity_OK.
Proof.
  intros r.
  assert (Hdd : CalculationResults.totalDesignDemandScfm r = 450)
    by (vm_compute; reflexivity).
  destruct (capacity_margin_and_status refHost (Scenario.system air)
              Scenario.geometry Scenario.DEFAULT_PIPE_SIZES
              [Scenario.drop 375 []])
    as [Hmargin [_ [_ [_ [Hok _]]]]].
  fold r in Hmargin, Hok. rewrite Hdd in Hmargin, Hok.
  specialize (Hmargin eq_refl).
  split; [exact Hdd |]. split.
  - rewrite Hmargin. vm_compute. reflexivity.
  - apply Hok; [reflexivity |]. rewrite Hmargin. vm_compute. reflexivity.
Defined.

(** C3, as stated, fails on the margin: a drop and a sub-drop that declare
    negative flows (-5 and -3) give a design demand of -3.6; the status is
    "No demand" and the reported margin is the available 500, not
    500 - (-3.6) = 503.6. *)
Lemma negative_demand_margin_is_available_flow :
  let r := performAllCalculations refHost (Scenario.system air)
             Scenario.geometry Scenario.DEFAULT_PIPE_SIZES
             [Scenario.drop (-5) [Scenario.subDrop (-3)]] in
  CalculationResults.totalDesignDemandScfm r = -3.5999999999999996 /\
  CalculationResults.capacityStatus r = No_demand /\
  CalculationResults.capacityMarginOrDeficitScfm r = 500 /\
  500 - CalculationResults.totalDesignDemandScfm r = 503.60000000000002.
Proof. vm_compute. repeat split. Qed.

(** *** The clamped fuel-gas outlet pressure *)

(** C5, as the code has it: in an active fuel-gas evaluation, a selected
    candidate whose squared outlet pressure [p2_sq] is negative gets a row and
    no error; its outlet pressure is clamped to [-14.7] psig (zero absolute
    pressure; the header row reports it) and its pressure drop is
    [upstream - (-14.7)], the whole inlet absolute pressure.  The status is
    then the ordinary classification: a drop or sub-drop row is OK exactly
    when the velocity is within the ceiling and the clamped drop is within the
    allowed drop, and a header row is failing whenever the minimum outlet
    pressure is above [-14.7] psig. *)
Theorem negative_p2_sq_is_clamped (M : HostMath) (system : SystemInputs.t)
  (geometry : HeaderGeometry.t) (pipes : list PipeSize.t) (pipe : PipeSize.t)
  (flowScfm req : float) :
  SystemInputs.gasType system = naturalGas ->
  (flowScfm <=? 0) = false ->
  (0 <? flowScfm * 60) = true ->
  In pipe pipes ->
  PipeSize.selected pipe = true ->
  (ifgc_p2_sq (A := floatArith M) flowScfm
     (HeaderGeometry.headerLength geometry)
     (SystemInputs.inletPressure system) (PipeSize.id_in pipe) <? 0) = true ->
  let L := HeaderGeometry.headerLength geometry in
  let up := SystemInputs.inletPressure system in
  let vmax := HeaderGeometry.maxLineVelocity geometry in
  let T := HeaderGeometry.airTemperature geometry in
  let rough := HeaderGeometry.pipeRoughness geometry in
  let allowed := Math_max 1e-6 (up - req) in
  let row :=
    sizePipe_row M flowScfm L up req vmax T rough naturalGas allowed pipe in
  let hrow := header_row M flowScfm system geometry pipe in
  In row (PipeSizing.table
            (sizePipe M flowScfm L up req vmax T rough pipes naturalGas)) /\
  Row.deltaP row = up - (-14.7) /\
  (Row.status row = OK <->
   (Row.velocity row <=? vmax) = true /\
   (up - (-14.7) <=? allowed) = true) /\
  (exists h,
     calculateHeaderSizing M flowScfm system geometry pipes = Some h /\
     In hrow (HeaderResults.comparisonTable h)) /\
  Row.outletPressure hrow = Some (-14.7) /\
  Row.deltaP hrow = up - (-14.7) /\
  ((-14.7 <? SystemInputs.minOutletPressure system) = true ->
   Row.status hrow <> OK).
Proof.
  intros Hgas Hq Hqh Hin Hsel Hp2 L up vmax T rough allowed row hrow.
  assert (Hfilter : In pipe (filter PipeSize.selected pipes))
    by (apply filter_In; split; assumption).
  destruct (sizePipe_candidate_clamped M flowScfm L up req T rough
              (PipeSize.id_in pipe) Hqh Hp2) as [_ HdP].
  destruct (header_candidate_clamped M flowScfm up L T rough
              (PipeSize.id_in pipe) Hqh Hp2) as [Hhout HhdP].
  cbv zeta in HdP, Hhout, HhdP.
  split; [| split; [| split; [| split; [| split; [| split]]]]].
  - rewrite sizePipe_table, Hq. apply in_map. exact Hfilter.
  - exact HdP.
  - unfold row, sizePipe_row. cbn [Row.status Row.velocity].
    rewrite HdP.
    destruct (v_fts _ <=? vmax), (up - (-14.7) <=? allowed); simpl;
      split; try discriminate; try tauto; intros [? ?]; discriminate.
  - unfold calculateHeaderSizing. rewrite Hq.
    destruct (filter PipeSize.selected pipes) as [| p0 sel] eqn:E;
      [contradiction |].
    cbn [List.length Nat.eqb orb]. eexists. split; [reflexivity |].
    cbn [HeaderResults.comparisonTable]. apply in_map. exact Hfilter.
  - unfold hrow, header_row. cbn [Row.outletPressure]. rewrite Hgas.
    fold up L T rough. now rewrite Hhout.
  - unfold hrow, header_row. cbn [Row.deltaP]. rewrite Hgas.
    fold up L T rough. exact HhdP.
  - intros Hmin. apply ltb_leb_false in Hmin.
    unfold hrow, header_row. cbn [Row.status]. rewrite Hgas.
    fold up L T rough. rewrite Hhout, Hmin.
    destruct (v_fts _ <=? _); simpl; discriminate.
Qed.

Lemma negative_p2_sq_is_clamped_witness :
  let pipe := Scenario.pipe "1" 1.049 in
  let row :=
    sizePipe_row refHost 10 10000 5 2 50 70 0.00015 naturalGas
      (Math_max 1e-6 (5 - 2)) pipe in
  let hrow :=
    header_row refHost 10 (Scenario.fuel_system 2) Scenario.long_line pipe in
  (ifgc_p2_sq (A := floatArith refHost) 10 10000 5 1.049 <? 0) = true /\
  Row.deltaP row = 5 - (-14.7) /\
  Row.outletPressure hrow = Some (-14.7) /\
  Row.status hrow <> OK.
Proof.
  intros pipe row hrow. split; [vm_compute; reflexivity |].
  destruct (negative_p2_sq_is_clamped refHost (Scenario.fuel_system 2)
              Scenario.long_line [pipe] pipe 10 2)
    as [_ [HdP [_ [_ [Hout [_ Hst]]]]]];
    try (vm_compute; reflexivity).
  - left. reflexivity.
  - split; [exact HdP |]. split; [exact Hout |].
    apply Hst. vm_compute. reflexivity.
Defined.

(** C5, as stated, fails on the status: with the downstream reference at
    zero absolute pressure (-14.7 psig) the allowed drop is the whole inlet
    absolute pressure, so the clamped candidate (10 SCFM of fuel gas through
    10000 ft of 1 inch pipe from 5 psig, [p2_sq] about -263) passes both tests
    and is recommended, by sizePipe and by the header alike. *)
Lemma clamped_candidate_can_be_OK :
  let pipes := [Scenario.pipe "1" 1.049] in
  let s := sizePipe refHost 10 10000 5 (-14.7) 50 70 0.00015 pipes
             naturalGas in
  let h := calculateHeaderSizing refHost 10 (Scenario.fuel_system (-14.7))
             Scenario.long_line pipes in
  (ifgc_p2_sq (A := floatArith refHost) 10 10000 5 1.049 <? 0) = true /\
  map (fun r => (Row.deltaP r, Row.status r, Row.severity r))
    (PipeSizing.table s) = [(5 - (-14.7), OK, ok)] /\
  PipeSizing.recommended s = Scenario.inch "1" /\
  option_map (fun h => map (fun r => (Row.outletPressure r, Row.status r))
                         (HeaderResults.comparisonTable h)) h =
    Some [(Some (-14.7), OK)].
Proof. vm_compute. repeat split. Qed.

(** *** Receiver tank *)

(** C7: the tank calculator returns no metrics exactly when the tank volume
    is [<= 0]; otherwise the equivalent storage is
    [tankVolume / 7.48 * (P_in_abs - P_min_abs) / 14.7]; with a design demand
    [<= 0] the coverage is infinite and [isCoveringDeficit] is false;
    otherwise the reference flow is [|margin|] when the margin is negative
    and the design demand when it is not, [isCoveringDeficit] tells whether
    the margin is negative, and the coverage is the storage divided by the
    reference flow (infinite when the reference flow is 0). *)
Theorem tank_metrics (M : HostMath) (system : SystemInputs.t)
  (designDemand margin : float) :
  let result := calculateTankMetrics M system designDemand margin in
  let storage :=
    SystemInputs.tankVolume system / 7.48
    * ((SystemInputs.inletPressure system + 14.7)
       - (SystemInputs.minOutletPressure system + 14.7)) / 14.7 in
  (result = None <-> (SystemInputs.tankVolume system <=? 0) = true) /\
  ((SystemInputs.tankVolume system <=? 0) = false ->
   exists t,
     result = Some t /\
     TankMetrics.equivalentStorageScf t = storage /\
     ((designDemand <=? 0) = true ->
      TankMetrics.coverageTimeMinutes t = infinity /\
      TankMetrics.isCoveringDeficit t = false /\
      TankMetrics.referenceFlowScfm t = 0) /\
     ((designDemand <=? 0) = false ->
      TankMetrics.isCoveringDeficit t = (margin <? 0) /\
      TankMetrics.referenceFlowScfm t =
        (if margin <? 0 then abs margin else designDemand) /\
      ((TankMetrics.referenceFlowScfm t =? 0) = true ->
       TankMetrics.coverageTimeMinutes t = infinity) /\
      ((0 <? TankMetrics.referenceFlowScfm t) = true ->
       TankMetrics.coverageTimeMinutes t =
         storage / TankMetrics.referenceFlowScfm t) /\
      ((0 <? designDemand) = true ->
       TankMetrics.coverageTimeMinutes t =
         storage / TankMetrics.referenceFlowScfm t))).
Proof.
  intros result storage. subst result. unfold calculateTankMetrics.
  change (P_ATM_PSIA (A := floatArith M)) with 14.7.
  change (GALLONS_PER_FT3 (A := floatArith M)) with 7.48.
  fold storage.
  destruct (SystemInputs.tankVolume system <=? 0).
  { split; [tauto | discriminate]. }
  split; [split; [destruct (designDemand <=? 0) |]; discriminate |].
  intros _. destruct (designDemand <=? 0) eqn:Hdd.
  { eexists. split; [reflexivity |].
    cbn [TankMetrics.equivalentStorageScf TankMetrics.coverageTimeMinutes
         TankMetrics.isCoveringDeficit TankMetrics.referenceFlowScfm].
    split; [reflexivity |]. split; [intros _; repeat split | discriminate]. }
  eexists. split; [reflexivity |].
  cbn [TankMetrics.equivalentStorageScf TankMetrics.coverageTimeMinutes
       TankMetrics.isCoveringDeficit TankMetrics.referenceFlowScfm].
  split; [reflexivity |]. split; [discriminate |]. intros _.
  unfold Math_abs.
  set (ref := if margin <? 0 then abs margin else designDemand).
  split; [reflexivity |]. split; [reflexivity |].
  split; [| split].
  - intros Hz. apply eqb_ltb_false in Hz. now rewrite Hz.
  - intros Hpos. now rewrite Hpos.
  - intros Hpos.
    assert (Href : (0 <? ref) = true).
    { unfold ref. destruct (margin <? 0) eqn:Hm;
        [now apply abs_pos_of_neg | exact Hpos]. }
    now rewrite Href.
Qed.

(** A 400 gallon receiver between 130 and 90 psig holds about 145.5 SCF;
    against a deficit of 30 SCFM it covers about 4.85 minutes. *)
Lemma tank_metrics_witness :
  exists t,
    calculateTankMetrics refHost Scenario.system_with_tank 120 (-30) = Some t /\
    TankMetrics.isCoveringDeficit t = true /\
    TankMetrics.referenceFlowScfm t = 30 /\
    TankMetrics.coverageTimeMinutes t = 400 / 7.48 * (144.7 - 104.7) / 14.7 / 30.
Proof.
  destruct (tank_metrics refHost Scenario.system_with_tank 120 (-30))
    as [_ H].
  destruct H as [t [Ht [_ [_ H]]]]; [reflexivity |].
  destruct H as [Hflag [Href [_ [_ Hcov]]]]; [reflexivity |].
  exists t. split; [exact Ht |]. split; [exact Hflag |].
  split; [exact Href |].
  rewrite Hcov by reflexivity. rewrite Href. vm_compute. reflexivity.
Defined.

(** *** Flow monotonicity *)


(** C9 fails on the code, by a defect of the compressed-air branch.  For the
    scenario's segment (1000 ft, 130 psig upstream, 90 psig downstream
    reference, 70 F, roughness 0.00015 ft) and the 3/4 inch candidate, raising
    the flow from 110 to 120 SCFM lowers the computed velocity from 115.5 to
    -221.4 ft/s and the computed pressure drop from 183.2 to 9.48 psi, and
    the row of the larger flow is classified OK.  At 110 SCFM the pressure
    drop already exceeds the inlet absolute pressure of 144.7 psi: the
    iteration lets its outlet estimate fall below zero absolute pressure,
    and the next pass then works with a negative mean pressure.  The
    fuel-gas branch clamps its outlet at zero absolute pressure: on the same
    segment its pressure drop stays at 144.7 psi and its velocity grows with
    the flow. *)
Theorem air_iteration_is_not_monotone :
  let row g q :=
    map (fun r => (Row.velocity r, Row.deltaP r, Row.status r))
      (PipeSizing.table
         (sizePipe refHost q 1000 130 90 50 70 0.00015
            [Scenario.pipe "3/4" 0.824] g)) in
  (0 <? 110) = true /\ (110 <=? 120) = true /\
  row air 110 =
    [(115.478088958962, 183.1975045915909, High_velocity_and_Excessive_dP)]
  /\
  row air 120 = [(-221.40102377882189, 9.4819724813642789, OK)] /\
  (-221.40102377882189 <? 115.478088958962) = true /\
  (9.4819724813642789 <? 183.1975045915909) = true /\
  (130 + 14.7 <? 183.1975045915909) = true /\
  row naturalGas 110 =
    [(100.58620462210526, 144.69999999999999,
      High_velocity_and_Excessive_dP)] /\
  row naturalGas 120 =
    [(109.73040504229664, 144.69999999999999,
      High_velocity_and_Excessive_dP)].
Proof. vm_compute. repeat split. Qed.

(** The same failure where no host function is called (every pass is
    laminar): a very long 1/4 inch line, from 0.2 to 0.4 SCFM. *)
Lemma laminar_iteration_is_not_monotone (M : HostMath) :
  let v q :=
    v_fts (sizePipe_candidate (A := floatArith M) q 400000 130 90 70 0.00015
             air 0.364) in
  v 0.2 = 1.0989661911878905 /\ v 0.4 = -6.3664248846899252.
Proof. vm_compute. split; reflexivity. Qed.

(** *** The specification's worked examples *)

(** End to end: one drop of 100 SCFM over 100 ft needing 95 psig, the twelve
    default candidates, air.  Total demand 100, design demand 120, capacity OK
    with margin 380, a 1 inch drop, and a header sized at 120 SCFM - whose
    recommended 3/4 inch row carries the negative velocity the oscillating
    iteration leaves. *)
Example end_to_end_scenario :
  let r := performAllCalculations refHost (Scenario.system air)
             Scenario.geometry Scenario.DEFAULT_PIPE_SIZES
             [Scenario.drop 100 []] in
  CalculationResults.totalDemandScfm r = 100 /\
  CalculationResults.totalDesignDemandScfm r = 120 /\
  CalculationResults.capacityStatus r = Capacity_OK /\
  CalculationResults.capacityMarginOrDeficitScfm r = 380 /\
  CalculationResults.headerDesignScfm r = 120 /\
  map DropResult.recommendedSize (CalculationResults.drops r)
    = [Scenario.inch "1"] /\
  option_map HeaderResults.recommendedSize (CalculationResults.header r)
    = Some (Scenario.inch "3/4") /\
  option_map HeaderResults.velocity (CalculationResults.header r)
    = Some (-1625.4828733140505) /\
  CalculationResults.tankMetrics r = None.
Proof. vm_compute. repeat split. Qed.

(** Capacity arithmetic: 400 available against a design demand of 450 is a
    shortfall of 50. *)
Example capacity_shortfall :
  let system :=
    {| SystemInputs.inletPressure := 130;
       SystemInputs.availableCompressorFlow := 400;
       SystemInputs.minOutletPressure := 90;
       SystemInputs.maxTypicalOutletPressure := 100;
       SystemInputs.demandSafetyFactor := 1.2;
       SystemInputs.tankVolume := 0;
       SystemInputs.gasType := air |} in
  let r := performAllCalculations refHost system Scenario.geometry
             Scenario.DEFAULT_PIPE_SIZES [Scenario.drop 375 []] in
  CalculationResults.totalDesignDemandScfm r = 450 /\
  CalculationResults.capacityStatus r = SHORTFALL /\
  CalculationResults.capacityMarginOrDeficitScfm r = -50.
Proof. vm_compute. repeat split. Qed.

End Properties.

(** * Further properties of the code *)

(** ** More facts about binary64 comparisons *)

Section MoreFloatFacts.
Local Open Scope float_scope.

Lemma is_nan_false (x : float) :
  PrimFloat.is_nan x = false -> Prim2SF x <> S754_nan.
Proof.
  unfold PrimFloat.is_nan. rewrite FloatAxioms.eqb_spec. unfold SFeqb.
  intros H E. rewrite E in H. discriminate.
Qed.

Lemma SFcompare_total (a b : spec_float) :
  a <> S754_nan -> b <> S754_nan -> SFcompare a b <> None.
Proof.
  destruct a as [sa | sa | | sa ma ea], b as [sb | sb | | sb mb eb];
    simpl; intros Ha Hb; congruence.
Qed.

Lemma leb_false_ltb (x y : float) :
  PrimFloat.is_nan x = false -> PrimFloat.is_nan y = false ->
  (x <=? y) = false -> (y <? x) = true.
Proof.
  intros Hx Hy. apply is_nan_false in Hx. apply is_nan_false in Hy.
  rewrite FloatAxioms.ltb_spec, FloatAxioms.leb_spec. unfold SFltb, SFleb.
  rewrite (SFcompare_swap (Prim2SF x) (Prim2SF y)).
  pose proof (SFcompare_total _ _ Hx Hy) as Ht.
  destruct (SFcompare (Prim2SF x) (Prim2SF y)) as [[] |]; simpl; congruence.
Qed.

Lemma ltb_false_leb (x y : float) :
  PrimFloat.is_nan x = false -> PrimFloat.is_nan y = false ->
  (x <? y) = false -> (y <=? x) = true.
Proof.
  intros Hx Hy. apply is_nan_false in Hx. apply is_nan_false in Hy.
  rewrite FloatAxioms.ltb_spec, FloatAxioms.leb_spec. unfold SFltb, SFleb.
  rewrite (SFcompare_swap (Prim2SF x) (Prim2SF y)).
  pose proof (SFcompare_total _ _ Hx Hy) as Ht.
  destruct (SFcompare (Prim2SF x) (Prim2SF y)) as [[] |]; simpl; congruence.
Qed.

(** below a number that is [<= 0] *)
Lemma ltb_leb_zero (x y : float) :
  (x <? y) = true -> (y <=? 0) = true -> (x <=? 0) = true.
Proof.
  rewrite FloatAxioms.ltb_spec, !FloatAxioms.leb_spec. unfold SFltb, SFleb.
  change (Prim2SF 0) with (S754_zero false).
  destruct (Prim2SF x) as [[] | [] | | [] mx ex],
           (Prim2SF y) as [[] | [] | | [] my ey]; simpl; congruence.
Qed.

(** equal to a number that is [<= 0] *)
Lemma eq_leb_zero (x y : float) :
  PrimFloat.is_nan x = false -> PrimFloat.is_nan y = false ->
  (x <? y) = false -> (y <? x) = false ->
  (x <=? 0) = (y <=? 0).
Proof.
  intros Hx Hy. apply is_nan_false in Hx. apply is_nan_false in Hy.
  rewrite !FloatAxioms.ltb_spec, !FloatAxioms.leb_spec. unfold SFltb, SFleb.
  rewrite (SFcompare_swap (Prim2SF x) (Prim2SF y)).
  change (Prim2SF 0) with (S754_zero false).
  destruct (Prim2SF x) as [[] | [] | | [] mx ex],
           (Prim2SF y) as [[] | [] | | [] my ey]; simpl;
    try congruence; try reflexivity.
Qed.

Lemma Math_min_leb_zero (a b : float) :
  PrimFloat.is_nan a = false -> PrimFloat.is_nan b = false ->
  (a <=? 0) = true \/ (b <=? 0) = true ->
  (Math_min a b <=? 0) = true.
Proof.
  intros Ha Hb H. unfold Math_min. rewrite Ha, Hb. cbn [orb].
  destruct (a <? b) eqn:Hab.
  { destruct H as [H | H]; [exact H | now apply (ltb_leb_zero a b)]. }
  destruct (b <? a) eqn:Hba.
  { destruct H as [H | H]; [now apply (ltb_leb_zero b a) | exact H]. }
  pose proof (eq_leb_zero a b Ha Hb Hab Hba) as E.
  destruct (get_sign a); destruct H as [H | H]; congruence.
Qed.

(** above a positive literal *)
Lemma Math_max_floor_pos (x : float) :
  PrimFloat.is_nan x = false -> (0 <? Math_max 1e-6 x) = true.
Proof.
  intros Hx. unfold Math_max. rewrite Hx.
  change (PrimFloat.is_nan 1e-6) with false. cbn [orb].
  destruct (1e-6 <? x) eqn:H1.
  - revert H1. rewrite !FloatAxioms.ltb_spec. unfold SFltb.
    change (Prim2SF 0) with (S754_zero false).
    let v := eval vm_compute in (Prim2SF 1e-6) in
    change (Prim2SF 1e-6) with v.
    destruct (Prim2SF x) as [[] | [] | | [] mx ex]; simpl; congruence.
  - destruct (x <? 1e-6); [reflexivity |].
    change (get_sign 1e-6) with false. reflexivity.
Qed.

End MoreFloatFacts.

(** ** More facts about lists and maps *)

Section MoreListFacts.
Context {T : Type}.

(** among pairwise different keys, looking a member's key up finds it *)
Lemma find_by_key (key : T -> string) (l : list T) (x : T) :
  NoDup (map key l) -> In x l ->
  find (fun y => String.eqb (key y) (key x)) l = Some x.
Proof.
  induction l as [| y l IH]; simpl; [contradiction |].
  intros Hnd Hin. inversion Hnd as [| k ks Hk Hnd']; subst.
  destruct Hin as [-> | Hin].
  - now rewrite String.eqb_refl.
  - destruct (String.eqb (key y) (key x)) eqn:E; [| now apply IH].
    apply String.eqb_eq in E. elim Hk. rewrite E. now apply in_map.
Qed.

Lemma find_map {U : Type} (f : T -> U) (p : U -> bool) (l : list T) :
  find p (map f l) = option_map f (find (fun x => p (f x)) l).
Proof.
  induction l as [| x l IH]; simpl; [reflexivity |].
  destruct (p (f x)); [reflexivity | exact IH].
Qed.

Lemma filter_map_commute {U : Type} (f : T -> U) (p : U -> bool)
  (l : list T) :
  filter p (map f l) = map f (filter (fun x => p (f x)) l).
Proof.
  induction l as [| x l IH]; simpl; [reflexivity |].
  destruct (p (f x)); simpl; now rewrite IH.
Qed.

Lemma Forall_map_of {U : Type} (f : T -> U) (P : U -> Prop) (l : list T) :
  (forall x, P (f x)) -> Forall P (map f l).
Proof.
  intros H. induction l; simpl; constructor; auto.
Qed.

Lemma find_append (p : T -> bool) (l1 l2 : list T) :
  find p (l1 ++ l2) =
  match find p l1 with
  | Some x => Some x
  | None => find p l2
  end.
Proof.
  induction l1 as [| x l1 IH]; simpl; [reflexivity |].
  destruct (p x); [reflexivity | exact IH].
Qed.

End MoreListFacts.

Section MapFacts.
Context {V : Type}.

Lemma Map_get_set_same (k : string) (v : V) (m : list (string * V)) :
  Map_get k (Map_set k v m) = Some v.
Proof.
  induction m as [| [k' v'] m IH]; simpl.
  - now rewrite String.eqb_refl.
  - destruct (String.eqb k' k) eqn:E; simpl.
    + now rewrite String.eqb_refl.
    + now rewrite E.
Qed.

Lemma Map_get_set_other (k k' : string) (v : V) (m : list (string * V)) :
  k <> k' -> Map_get k' (Map_set k v m) = Map_get k' m.
Proof.
  intros Hne. induction m as [| [k0 v0] m IH]; simpl.
  - apply String.eqb_neq in Hne. now rewrite Hne.
  - destruct (String.eqb k0 k) eqn:E; simpl.
    + apply String.eqb_eq in E. subst k0.
      apply String.eqb_neq in Hne. now rewrite Hne.
    + destruct (String.eqb k0 k'); [reflexivity | exact IH].
Qed.

(** the map a loop fills with one [set] per element: the last element that
    carries a key decides what [get] returns for it *)
Lemma Map_get_fold {T : Type} (key : T -> string) (value : T -> V)
  (l : list T) (m : list (string * V)) (k : string) :
  Map_get k (fold_left (fun m x => Map_set (key x) (value x) m) l m) =
  match find (fun x => String.eqb (key x) k) (rev l) with
  | Some x => Some (value x)
  | None => Map_get k m
  end.
Proof.
  revert m. induction l as [| x l IH]; intros m; simpl; [reflexivity |].
  rewrite IH, find_append.
  destruct (find (fun x0 => String.eqb (key x0) k) (rev l)); [reflexivity |].
  simpl. destruct (String.eqb (key x) k) eqn:E.
  - apply String.eqb_eq in E. subst k. apply Map_get_set_same.
  - apply Map_get_set_other. now apply String.eqb_neq.
Qed.

End MapFacts.

(** ** Tables, statuses and the recommended row *)

Section TableFacts.
Variable M : HostMath.
Local Open Scope string_scope.
Local Open Scope float_scope.

Lemma sizePipe_row_candidate flowScfm length_ft up req vmax T rough g allowed
  (pipe : PipeSize.t) :
  row_candidate
    (sizePipe_row M flowScfm length_ft up req vmax T rough g allowed pipe)
  = pipe_candidate pipe.
Proof. reflexivity. Qed.

Lemma header_row_candidate designScfm system geometry (pipe : PipeSize.t) :
  row_candidate (header_row M designScfm system geometry pipe)
  = pipe_candidate pipe.
Proof. reflexivity. Qed.

Lemma map_nominal_rows (row : PipeSize.t -> Row.t) (sel : list PipeSize.t) :
  (forall p, Row.nominal (row p) = PipeSize.nominal p) ->
  map Row.nominal (map row sel) = map PipeSize.nominal sel.
Proof.
  intros H. rewrite map_map. apply map_ext. exact H.
Qed.

(** in a table of pairwise different labels, the row found under the label
    of the first OK row is that row *)
Lemma first_OK_row_found_by_label (table : list Row.t) (r : Row.t) :
  NoDup (map Row.nominal table) ->
  first_OK_row table = Some r ->
  find (fun x => String.eqb (Row.nominal x) (Row.nominal r)) table = Some r
  /\ Row.status r = OK
  /\ match filter is_OK table with
     | x :: _ => Row.nominal x
     | [] => no_feasible_size
     end = Row.nominal r.
Proof.
  intros Hnd Hf. unfold first_OK_row in Hf.
  pose proof (find_some _ _ Hf) as [Hin Hok].
  repeat split.
  - now apply find_by_key.
  - now apply SizingStatus_eqb_eq.
  - pose proof (filter_head_find is_OK table) as Hh.
    destruct (filter is_OK table); congruence.
Qed.

End TableFacts.

Section TableProperties.
Local Open Scope string_scope.
Local Open Scope float_scope.

(** X1: the comparison table of a sizing call with a positive flow, and the
    comparison table of a header that is sized, hold one row per selected
    candidate, in candidate-list order, carrying that candidate's label and
    diameter; the unselected candidates leave no row.  sizePipe skips them
    inside its loop, the header filters them before it. *)
Theorem tables_list_the_selected_candidates (M : HostMath)
  (flowScfm length_ft up req vmax T rough designScfm : float) (g : GasType)
  (system : SystemInputs.t) (geometry : HeaderGeometry.t)
  (pipes : list PipeSize.t) :
  map row_candidate
    (PipeSizing.table
       (sizePipe M flowScfm length_ft up req vmax T rough pipes g))
  = (if flowScfm <=? 0 then []
     else map pipe_candidate (filter PipeSize.selected pipes))
  /\
  option_map (fun h => map row_candidate (HeaderResults.comparisonTable h))
    (calculateHeaderSizing M designScfm system geometry pipes)
  = (if Nat.eqb (List.length (filter PipeSize.selected pipes)) 0
        || (designScfm <=? 0)
     then None
     else Some (map pipe_candidate (filter PipeSize.selected pipes))).
Proof.
  split.
  - rewrite sizePipe_table. destruct (flowScfm <=? 0); [reflexivity |].
    rewrite map_map. apply map_ext. intros p. apply sizePipe_row_candidate.
  - unfold calculateHeaderSizing.
    destruct (Nat.eqb _ 0 || (designScfm <=? 0)); [reflexivity |].
    cbn [option_map HeaderResults.comparisonTable]. f_equal.
    rewrite map_map. apply map_ext. intros p. apply header_row_candidate.
Qed.

(** X2: the status of every row is decided by the row's own numbers.  A drop
    or sub-drop row has no outlet pressure and its status is the outcome of
    [velocity <= ceiling] and [deltaP <= max(1e-6, upstream - required)]; a
    header row has an outlet pressure and its status is the outcome of
    [outletPressure >= minimum] and [velocity <= ceiling].  So no row is
    Inactive or No feasible size, no header row is Excessive dP, and no drop
    row is Insufficient outlet pressure. *)
Theorem row_status_is_decided_by_its_numbers (M : HostMath)
  (flowScfm length_ft up req vmax T rough designScfm : float) (g : GasType)
  (system : SystemInputs.t) (geometry : HeaderGeometry.t)
  (pipes : list PipeSize.t) :
  Forall
    (fun r =>
       Row.outletPressure r = None /\
       Row.status r =
         line_status (Row.velocity r <=? vmax)
           (Row.deltaP r <=? Math_max 1e-6 (up - req)))
    (PipeSizing.table
       (sizePipe M flowScfm length_ft up req vmax T rough pipes g))
  /\
  match calculateHeaderSizing M designScfm system geometry pipes with
  | Some h =>
      Forall
        (fun r =>
           exists p,
             Row.outletPressure r = Some p /\
             Row.status r =
               header_status (SystemInputs.minOutletPressure system <=? p)
                 (Row.velocity r <=? HeaderGeometry.maxLineVelocity geometry))
        (HeaderResults.comparisonTable h)
  | None => True
  end.
Proof.
  split.
  - rewrite sizePipe_table. destruct (flowScfm <=? 0); [constructor |].
    apply Forall_map_of. intros p. split; [reflexivity |].
    unfold sizePipe_row. cbn [Row.status Row.velocity Row.deltaP].
    destruct (_ <=? vmax), (_ <=? Math_max 1e-6 (up - req)); reflexivity.
  - destruct (calculateHeaderSizing M designScfm system geometry pipes)
      as [h |] eqn:Hh; [| exact I].
    destruct (header_table M _ _ _ _ _ Hh) as [_ [_ ->]].
    apply Forall_map_of. intros p. eexists. split; [reflexivity |].
    unfold header_row. cbn [Row.status Row.velocity].
    destruct (SystemInputs.minOutletPressure system <=? _),
             (_ <=? HeaderGeometry.maxLineVelocity geometry); reflexivity.
Qed.

(** X3: sizePipe floors the allowed pressure drop at 1e-6 psi, so the
    pressure tier of the severity always applies in a drop or sub-drop table:
    when [upstream - required] is a number, a row is graded bad exactly when
    it is not OK and its velocity exceeds 1.5 times the ceiling or its
    pressure drop exceeds 1.5 times the allowed drop. *)
Theorem line_row_is_bad_beyond_one_and_a_half (M : HostMath)
  (flowScfm length_ft up req vmax T rough : float) (g : GasType)
  (pipes : list PipeSize.t) :
  PrimFloat.is_nan (up - req) = false ->
  Forall
    (fun r =>
       Row.severity r = bad <->
       Row.status r <> OK /\
       ((1.5 * vmax <? Row.velocity r) = true \/
        (1.5 * Math_max 1e-6 (up - req) <? Row.deltaP r) = true))
    (PipeSizing.table
       (sizePipe M flowScfm length_ft up req vmax T rough pipes g)).
Proof.
  intros Hnan. rewrite sizePipe_table.
  destruct (flowScfm <=? 0); [constructor |].
  apply Forall_map_of. intros p. unfold sizePipe_row.
  cbn [Row.status Row.velocity Row.deltaP Row.severity].
  unfold calculateSeverity. rewrite (Math_max_floor_pos _ Hnan).
  cbn [andb].
  destruct (_ <=? vmax), (_ <=? Math_max 1e-6 (up - req));
    cbn [negb andb SizingStatus_eqb];
    destruct (1.5 * vmax <? _), (1.5 * Math_max 1e-6 (up - req) <? _);
    cbn [orb]; split;
    try discriminate; try (intros [H _]; now elim H);
    try (intros [_ [H | H]]; discriminate);
    try (intros _; split; [discriminate | auto]);
    try reflexivity.
Qed.

Lemma line_row_is_bad_beyond_one_and_a_half_witness :
  Forall
    (fun r =>
       Row.severity r = bad <->
       Row.status r <> OK /\
       ((1.5 * 50 <? Row.velocity r) = true \/
        (1.5 * Math_max 1e-6 (130 - 95) <? Row.deltaP r) = true))
    (PipeSizing.table
       (sizePipe refHost 120 100 130 95 50 70 0.00015
          Scenario.DEFAULT_PIPE_SIZES air)).
Proof.
  apply (line_row_is_bad_beyond_one_and_a_half refHost
           120 100 130 95 50 70 0.00015 air Scenario.DEFAULT_PIPE_SIZES).
  reflexivity.
Defined.

(** X4: the header hands calculateSeverity the raw difference
    [inletPressure - minOutletPressure], with no floor.  When that difference
    is zero or negative the pressure tier is switched off: a header row is
    graded bad exactly when it is not OK and its velocity exceeds 1.5 times
    the ceiling, whatever its pressure drop. *)
Theorem header_row_without_pressure_budget (M : HostMath)
  (designScfm : float) (system : SystemInputs.t) (geometry : HeaderGeometry.t)
  (pipes : list PipeSize.t) :
  (SystemInputs.inletPressure system - SystemInputs.minOutletPressure system
   <=? 0) = true ->
  match calculateHeaderSizing M designScfm system geometry pipes with
  | Some h =>
      Forall
        (fun r =>
           Row.severity r = bad <->
           Row.status r <> OK /\
           (1.5 * HeaderGeometry.maxLineVelocity geometry <? Row.velocity r)
           = true)
        (HeaderResults.comparisonTable h)
  | None => True
  end.
Proof.
  intros Hbudget.
  destruct (calculateHeaderSizing M designScfm system geometry pipes)
    as [h |] eqn:Hh; [| exact I].
  destruct (header_table M _ _ _ _ _ Hh) as [_ [_ ->]].
  apply Forall_map_of. intros p. unfold header_row.
  cbn [Row.status Row.velocity Row.severity].
  unfold calculateSeverity. rewrite (leb_ltb_false _ _ Hbudget).
  cbn [andb]. rewrite orb_false_r.
  destruct (SystemInputs.minOutletPressure system <=? _),
           (_ <=? HeaderGeometry.maxLineVelocity geometry);
    cbn [negb andb SizingStatus_eqb];
    destruct (1.5 * HeaderGeometry.maxLineVelocity geometry <? _);
    split;
    try discriminate; try (intros [H _]; now elim H);
    try (intros [_ H]; discriminate);
    try (intros _; split; [discriminate | reflexivity]);
    try reflexivity.
Qed.

Lemma header_row_without_pressure_budget_witness :
  match calculateHeaderSizing refHost 120 (Scenario.fuel_system 5)
          Scenario.long_line Scenario.DEFAULT_PIPE_SIZES with
  | Some h =>
      Forall
        (fun r =>
           Row.severity r = bad <->
           Row.status r <> OK /\
           (1.5 * 50 <? Row.velocity r) = true)
        (HeaderResults.comparisonTable h)
  | None => True
  end.
Proof.
  apply (header_row_without_pressure_budget refHost 120
           (Scenario.fuel_system 5) Scenario.long_line
           Scenario.DEFAULT_PIPE_SIZES).
  reflexivity.
Defined.

(** X5: when the selected candidates carry pairwise different labels, the
    velocity, pressure drop and status that sizePipe reports beside its
    recommendation are those of the first OK row of its table, and the outlet
    pressure and velocity the header reports are those of the first OK row of
    the header table.  (The code finds the reported row by its label.) *)
Theorem distinct_labels_report_the_first_OK_row (M : HostMath)
  (flowScfm length_ft up req vmax T rough designScfm : float) (g : GasType)
  (system : SystemInputs.t) (geometry : HeaderGeometry.t)
  (pipes : list PipeSize.t) :
  distinct_labels pipes ->
  match
    first_OK_row
      (PipeSizing.table
         (sizePipe M flowScfm length_ft up req vmax T rough pipes g))
  with
  | Some r =>
      PipeSizing.velocity
        (sizePipe M flowScfm length_ft up req vmax T rough pipes g)
      = Row.velocity r /\
      PipeSizing.deltaP
        (sizePipe M flowScfm length_ft up req vmax T rough pipes g)
      = Row.deltaP r /\
      PipeSizing.status
        (sizePipe M flowScfm length_ft up req vmax T rough pipes g) = OK
  | None => True
  end
  /\
  match calculateHeaderSizing M designScfm system geometry pipes with
  | Some h =>
      match first_OK_row (HeaderResults.comparisonTable h) with
      | Some r =>
          Some (HeaderResults.outletPressure h) = Row.outletPressure r /\
          HeaderResults.velocity h = Row.velocity r
      | None => True
      end
  | None => True
  end.
Proof.
  intros Hnd. unfold distinct_labels in Hnd. split.
  - unfold sizePipe. destruct (flowScfm <=? 0); [exact I |].
    cbn [PipeSizing.table PipeSizing.velocity PipeSizing.deltaP
         PipeSizing.status].
    rewrite sizePipe_results_map.
    set (table := map _ (filter PipeSize.selected pipes)).
    assert (Hlab : NoDup (map Row.nominal table)).
    { unfold table. rewrite map_nominal_rows; [exact Hnd | reflexivity]. }
    destruct (first_OK_row table) as [r |] eqn:Hf; [| exact I].
    destruct (first_OK_row_found_by_label table r Hlab Hf)
      as [Hfind [Hok Hrec]].
    change (fun r : Row.t => SizingStatus_eqb (Row.status r) OK) with is_OK.
    unfold no_feasible_size in Hrec. rewrite Hrec, Hfind.
    repeat split. exact Hok.
  - unfold calculateHeaderSizing.
    destruct (Nat.eqb _ 0 || (designScfm <=? 0)); [exact I |].
    cbn [HeaderResults.comparisonTable HeaderResults.outletPressure
         HeaderResults.velocity].
    set (table := map _ (filter PipeSize.selected pipes)).
    assert (Hlab : NoDup (map Row.nominal table)).
    { unfold table. rewrite map_nominal_rows; [exact Hnd | reflexivity]. }
    destruct (first_OK_row table) as [r |] eqn:Hf; [| exact I].
    destruct (first_OK_row_found_by_label table r Hlab Hf)
      as [Hfind [Hok Hrec]].
    change (fun r : Row.t => SizingStatus_eqb (Row.status r) OK) with is_OK.
    unfold no_feasible_size in Hrec. rewrite Hrec, Hfind.
    split; [| reflexivity].
    pose proof (find_some _ _ Hf) as [Hin _]. unfold table in Hin.
    apply in_map_iff in Hin. destruct Hin as [p [<- _]]. reflexivity.
Qed.

Lemma distinct_labels_report_the_first_OK_row_witness :
  option_map Row.nominal
    (first_OK_row
       (PipeSizing.table
          (sizePipe refHost 120 100 130 95 50 70 0.00015
             [Scenario.pipe "3/4" 0.824; Scenario.pipe "1" 1.049;
              Scenario.pipe "2" 2.067] air)))
  = Some (Scenario.inch "1") /\
  match
    first_OK_row
      (PipeSizing.table
         (sizePipe refHost 120 100 130 95 50 70 0.00015
            [Scenario.pipe "3/4" 0.824; Scenario.pipe "1" 1.049;
             Scenario.pipe "2" 2.067] air))
  with
  | Some r =>
      PipeSizing.velocity
        (sizePipe refHost 120 100 130 95 50 70 0.00015
           [Scenario.pipe "3/4" 0.824; Scenario.pipe "1" 1.049;
            Scenario.pipe "2" 2.067] air)
      = Row.velocity r /\
      PipeSizing.deltaP
        (sizePipe refHost 120 100 130 95 50 70 0.00015
           [Scenario.pipe "3/4" 0.824; Scenario.pipe "1" 1.049;
            Scenario.pipe "2" 2.067] air)
      = Row.deltaP r /\
      PipeSizing.status
        (sizePipe refHost 120 100 130 95 50 70 0.00015
           [Scenario.pipe "3/4" 0.824; Scenario.pipe "1" 1.049;
            Scenario.pipe "2" 2.067] air) = OK
  | None => True
  end.
Proof.
  split; [vm_compute; reflexivity |].
  assert (Hnd : distinct_labels
                  [Scenario.pipe "3/4" 0.824; Scenario.pipe "1" 1.049;
                   Scenario.pipe "2" 2.067]).
  { unfold distinct_labels. simpl.
    repeat (constructor; [simpl; intuition discriminate |]).
    constructor. }
  pose proof (distinct_labels_report_the_first_OK_row refHost
                120 100 130 95 50 70 0.00015 120 air (Scenario.system air)
                Scenario.geometry
                [Scenario.pipe "3/4" 0.824; Scenario.pipe "1" 1.049;
                 Scenario.pipe "2" 2.067] Hnd) as H.
  destruct H as [H _]. exact H.
Defined.

(** Without distinct labels the reported numbers can be those of a failing
    row: with a 1/2 inch candidate mislabelled as the 1 inch one and listed
    first, the recommendation is the 1 inch label but the reported status is
    the first row's. *)
Example duplicate_label_reports_the_first_row_of_that_label :
  let pipes := [Scenario.pipe "1" 0.622; Scenario.pipe "1" 1.049] in
  let s := sizePipe refHost 120 100 130 95 50 70 0.00015 pipes air in
  map Row.status (PipeSizing.table s) = [High_velocity_and_Excessive_dP; OK]
  /\ PipeSizing.recommended s = Scenario.inch "1"
  /\ PipeSizing.status s = High_velocity_and_Excessive_dP
  /\ PipeSizing.velocity s = 116.78454985106156.
Proof. vm_compute. repeat split. Qed.

End TableProperties.

(** ** The orchestrator: header flow, capacity status and receiver *)

Section OrderFacts.
Local Open Scope float_scope.

Lemma ltb_irrefl (x : float) : (x <? x) = false.
Proof.
  rewrite FloatAxioms.ltb_spec. unfold SFltb.
  pose proof (SFcompare_swap (Prim2SF x) (Prim2SF x)) as H.
  destruct (SFcompare (Prim2SF x) (Prim2SF x)) as [[] |];
    simpl in H; congruence.
Qed.

Lemma ltb_leb (x y : float) : (x <? y) = true -> (x <=? y) = true.
Proof.
  rewrite FloatAxioms.ltb_spec, FloatAxioms.leb_spec. unfold SFltb, SFleb.
  destruct (SFcompare (Prim2SF x) (Prim2SF y)) as [[] |]; congruence.
Qed.

Lemma leb_refl (x : float) :
  PrimFloat.is_nan x = false -> (x <=? x) = true.
Proof.
  intros H. apply ltb_false_leb; [exact H | exact H | apply ltb_irrefl].
Qed.

(** [Math.min] of two numbers is below both *)
Lemma Math_min_leb (a b : float) :
  PrimFloat.is_nan a = false -> PrimFloat.is_nan b = false ->
  (Math_min a b <=? a) = true /\ (Math_min a b <=? b) = true.
Proof.
  intros Ha Hb. unfold Math_min. rewrite Ha, Hb. cbn [orb].
  destruct (a <? b) eqn:Hab.
  { split; [now apply leb_refl | now apply ltb_leb]. }
  destruct (b <? a) eqn:Hba.
  { split; [now apply ltb_leb | now apply leb_refl]. }
  destruct (get_sign a); split;
    try (now apply leb_refl); now apply ltb_false_leb.
Qed.

(** a product with zero is zero or not a number *)
Lemma zero_mul_not_positive (x : float) : (0 <? 0 * x) = false.
Proof.
  rewrite FloatAxioms.ltb_spec, FloatAxioms.mul_spec. unfold SFltb.
  change (Prim2SF 0) with (S754_zero false).
  destruct (Prim2SF x) as [[] | [] | | [] m e]; reflexivity.
Qed.

End OrderFacts.

Section OrchestratorProperties.
Local Open Scope string_scope.
Local Open Scope float_scope.

(** X6: the flow the header is sized for exceeds neither the available flow
    nor the total design demand (both being numbers), and the orchestrator
    returns no header when either of the two is zero or negative. *)
Theorem header_flow_within_supply_and_demand (M : HostMath)
  (system : SystemInputs.t) (geometry : HeaderGeometry.t)
  (pipes : list PipeSize.t) (drops : list Drop.t) :
  let res := performAllCalculations M system geometry pipes drops in
  let available :=
    SystemInputs.availableCompressorFlow system / flowDivisor system in
  let demand := CalculationResults.totalDesignDemandScfm res in
  PrimFloat.is_nan available = false ->
  PrimFloat.is_nan demand = false ->
  (CalculationResults.headerDesignScfm res <=? available) = true /\
  (CalculationResults.headerDesignScfm res <=? demand) = true /\
  ((available <=? 0) = true \/ (demand <=? 0) = true ->
   CalculationResults.header res = None).
Proof.
  intros res available demand. subst res available demand.
  unfold performAllCalculations.
  cbn [CalculationResults.totalDesignDemandScfm
       CalculationResults.headerDesignScfm CalculationResults.header].
  set (dd := fold_left _ _ 0 * SystemInputs.demandSafetyFactor system).
  set (available :=
         SystemInputs.availableCompressorFlow system / flowDivisor system).
  intros Ha Hd.
  destruct (Math_min_leb available dd Ha Hd) as [H1 H2].
  split; [exact H1 |]. split; [exact H2 |].
  intros H. unfold calculateHeaderSizing.
  rewrite (Math_min_leb_zero available dd Ha Hd H).
  now rewrite orb_true_r.
Qed.

Lemma header_flow_within_supply_and_demand_witness :
  let res := performAllCalculations refHost (Scenario.system air)
               Scenario.geometry Scenario.DEFAULT_PIPE_SIZES
               [Scenario.drop 600 []] in
  CalculationResults.totalDesignDemandScfm res = 720 /\
  CalculationResults.headerDesignScfm res = 500 /\
  (CalculationResults.headerDesignScfm res <=? 500 / 1) = true /\
  (CalculationResults.headerDesignScfm res
   <=? CalculationResults.totalDesignDemandScfm res) = true.
Proof.
  intros res. split; [vm_compute; reflexivity |].
  split; [vm_compute; reflexivity |].
  pose proof (header_flow_within_supply_and_demand refHost
                (Scenario.system air) Scenario.geometry
                Scenario.DEFAULT_PIPE_SIZES [Scenario.drop 600 []]) as H.
  cbv zeta in H. fold res in H.
  destruct H as [H1 [H2 _]]; [vm_compute; reflexivity .. |].
  split; [exact H1 | exact H2].
Defined.

(** X7: in what the orchestrator returns, the receiver follows the capacity
    status (design demand and margin being numbers): with a SHORTFALL the
    receiver covers the deficit and its reference flow is the absolute value
    of the margin; with status OK it does not cover a deficit and its
    reference flow is the design demand; with No demand the reference flow is
    0 and the coverage time is infinite. *)
Theorem receiver_follows_the_capacity_status (M : HostMath)
  (system : SystemInputs.t) (geometry : HeaderGeometry.t)
  (pipes : list PipeSize.t) (drops : list Drop.t) (t : TankMetrics.t) :
  let res := performAllCalculations M system geometry pipes drops in
  PrimFloat.is_nan (CalculationResults.totalDesignDemandScfm res) = false ->
  PrimFloat.is_nan (CalculationResults.capacityMarginOrDeficitScfm res)
  = false ->
  CalculationResults.tankMetrics res = Some t ->
  match CalculationResults.capacityStatus res with
  | SHORTFALL =>
      TankMetrics.isCoveringDeficit t = true /\
      TankMetrics.referenceFlowScfm t =
        abs (CalculationResults.capacityMarginOrDeficitScfm res)
  | Capacity_OK =>
      TankMetrics.isCoveringDeficit t = false /\
      TankMetrics.referenceFlowScfm t =
        CalculationResults.totalDesignDemandScfm res
  | No_demand =>
      TankMetrics.isCoveringDeficit t = false /\
      TankMetrics.referenceFlowScfm t = 0 /\
      TankMetrics.coverageTimeMinutes t = infinity
  end.
Proof.
  intros res. subst res. unfold performAllCalculations.
  cbn [CalculationResults.totalDesignDemandScfm
       CalculationResults.capacityMarginOrDeficitScfm
       CalculationResults.capacityStatus CalculationResults.tankMetrics].
  set (dd := fold_left _ _ 0 * SystemInputs.demandSafetyFactor system).
  set (available :=
         SystemInputs.availableCompressorFlow system / flowDivisor system).
  intros Hdd. unfold calculateTankMetrics.
  destruct (SystemInputs.tankVolume system <=? 0); [discriminate |].
  destruct (0 <? dd) eqn:Hpos; cbn [fst snd].
  - rewrite (ltb_leb_false _ _ Hpos). intros Hm Ht. injection Ht as <-.
    cbn [TankMetrics.isCoveringDeficit TankMetrics.referenceFlowScfm
         TankMetrics.coverageTimeMinutes].
    unfold Math_abs.
    destruct (0 <=? available - dd) eqn:Hmargin.
    + rewrite (leb_ltb_false _ _ Hmargin). split; reflexivity.
    + rewrite (leb_false_ltb 0 (available - dd) eq_refl Hm Hmargin).
      split; reflexivity.
  - rewrite (ltb_false_leb 0 dd eq_refl Hdd Hpos). intros _ Ht.
    injection Ht as <-. repeat split.
Qed.

Lemma receiver_follows_the_capacity_status_witness :
  let res := performAllCalculations refHost Scenario.system_with_tank
               Scenario.geometry Scenario.DEFAULT_PIPE_SIZES
               [Scenario.drop 600 []] in
  CalculationResults.capacityStatus res = SHORTFALL /\
  CalculationResults.capacityMarginOrDeficitScfm res = -220 /\
  option_map TankMetrics.isCoveringDeficit (CalculationResults.tankMetrics res)
  = Some true /\
  option_map TankMetrics.referenceFlowScfm (CalculationResults.tankMetrics res)
  = Some 220.
Proof.
  intros res.
  assert (Hs : CalculationResults.capacityStatus res = SHORTFALL)
    by (vm_compute; reflexivity).
  assert (Hm : CalculationResults.capacityMarginOrDeficitScfm res = -220)
    by (vm_compute; reflexivity).
  split; [exact Hs |]. split; [exact Hm |].
  destruct (CalculationResults.tankMetrics res) as [t |] eqn:Ht;
    [| vm_compute in Ht; discriminate].
  pose proof (receiver_follows_the_capacity_status refHost
                Scenario.system_with_tank Scenario.geometry
                Scenario.DEFAULT_PIPE_SIZES [Scenario.drop 600 []] t) as H.
  cbv zeta in H. fold res in H. rewrite Hs, Hm in H.
  destruct H as [H1 H2];
    [vm_compute; reflexivity | reflexivity | exact Ht |].
  cbn [option_map]. rewrite H1, H2. split; reflexivity.
Defined.

(** X8: with no candidate selected nothing is sized, whatever the drops
    declare: the orchestrator returns no drop result and no header, a total
    demand of 0, the status No demand and the available flow as margin, and
    neither the drops nor the header leave a calculation trace. *)
Theorem no_selected_candidate_no_sizing (M : HostMath)
  (system : SystemInputs.t) (geometry : HeaderGeometry.t)
  (pipes : list PipeSize.t) (drops : list Drop.t) :
  existsb PipeSize.selected pipes = false ->
  let res := performAllCalculations M system geometry pipes drops in
  CalculationResults.drops res = [] /\
  CalculationResults.header res = None /\
  CalculationResults.totalDemandScfm res = 0 /\
  CalculationResults.capacityStatus res = No_demand /\
  CalculationResults.capacityMarginOrDeficitScfm res =
    SystemInputs.availableCompressorFlow system / flowDivisor system /\
  calculateDropsSizing_sampleDropDetails M drops system geometry pipes = None
  /\
  calculateHeaderSizing_details M (CalculationResults.headerDesignScfm res)
    system geometry pipes = None.
Proof.
  intros Hsel res. subst res.
  rewrite filter_nil_existsb in Hsel. apply negb_false_iff in Hsel.
  unfold performAllCalculations, calculateDropsSizing, calculateHeaderSizing,
    calculateDropsSizing_sampleDropDetails, calculateHeaderSizing_details.
  rewrite Hsel.
  cbn [orb fold_left CalculationResults.drops CalculationResults.header
       CalculationResults.totalDemandScfm CalculationResults.capacityStatus
       CalculationResults.capacityMarginOrDeficitScfm].
  rewrite zero_mul_not_positive. repeat split.
Qed.

Lemma no_selected_candidate_no_sizing_witness :
  let pipes := [{| PipeSize.nominal := "1"; PipeSize.id_in := 1.049;
                   PipeSize.selected := false |}] in
  let res := performAllCalculations refHost (Scenario.system air)
               Scenario.geometry pipes [Scenario.drop 600 []] in
  CalculationResults.drops res = [] /\
  CalculationResults.header res = None /\
  CalculationResults.capacityStatus res = No_demand /\
  CalculationResults.capacityMarginOrDeficitScfm res = 500.
Proof.
  intros pipes res.
  pose proof (no_selected_candidate_no_sizing refHost (Scenario.system air)
                Scenario.geometry pipes [Scenario.drop 600 []] eq_refl) as H.
  cbv zeta in H. fold res in H.
  destruct H as [H1 [H2 [_ [H4 [H5 _]]]]].
  repeat split; assumption.
Defined.

End OrchestratorProperties.

(** ** The calculation trace *)

Section TraceFacts.
Variable M : HostMath.
Local Open Scope string_scope.
Local Open Scope float_scope.

(** [detailsMap] of sizePipe holds one [set] per selected pipe *)
Lemma sizePipe_detailsMap_fold (pd : PipeSize.t -> PipeDetails.t)
  (pipes : list PipeSize.t) :
  sizePipe_detailsMap pd pipes =
  fold_left (fun m p => Map_set (PipeSize.nominal p) (pd p) m)
    (filter PipeSize.selected pipes) [].
Proof.
  unfold sizePipe_detailsMap. generalize (@nil (string * PipeDetails.t)).
  induction pipes as [| p pipes IH]; intros m; simpl; [reflexivity |].
  destruct (PipeSize.selected p); simpl; apply IH.
Qed.

(** among pairwise different labels, [get] returns what was [set] for the
    pipe *)
Lemma Map_get_of_member {V : Type} (value : PipeSize.t -> V)
  (sel : list PipeSize.t) (p : PipeSize.t) :
  NoDup (map PipeSize.nominal sel) -> In p sel ->
  Map_get (PipeSize.nominal p)
    (fold_left (fun m x => Map_set (PipeSize.nominal x) (value x) m) sel [])
  = Some (value p).
Proof.
  intros Hnd Hin. rewrite Map_get_fold.
  rewrite (find_by_key PipeSize.nominal (rev sel) p).
  - reflexivity.
  - rewrite map_rev. now apply NoDup_rev.
  - now apply in_rev in Hin.
Qed.

(** a label no selected pipe carries has no entry *)
Lemma Map_get_of_stranger {V : Type} (value : PipeSize.t -> V)
  (sel : list PipeSize.t) (label : string) :
  existsb (fun p => String.eqb (PipeSize.nominal p) label) sel = false ->
  Map_get label
    (fold_left (fun m x => Map_set (PipeSize.nominal x) (value x) m) sel [])
  = None.
Proof.
  intros Hex. rewrite Map_get_fold.
  destruct (find _ (rev sel)) as [p |] eqn:Hf; [| reflexivity].
  apply find_some in Hf. destruct Hf as [Hin Hp]. apply in_rev in Hin.
  assert (existsb (fun p => String.eqb (PipeSize.nominal p) label) sel = true)
    by (apply existsb_exists; eauto).
  congruence.
Qed.

(** a label some selected pipe carries has an entry, set for a pipe of that
    label *)
Lemma Map_get_of_label {V : Type} (value : PipeSize.t -> V)
  (sel : list PipeSize.t) (p : PipeSize.t) :
  In p sel ->
  exists p', In p' sel /\ PipeSize.nominal p' = PipeSize.nominal p /\
    Map_get (PipeSize.nominal p)
      (fold_left (fun m x => Map_set (PipeSize.nominal x) (value x) m) sel [])
    = Some (value p').
Proof.
  intros Hin. rewrite Map_get_fold.
  destruct (find _ (rev sel)) as [p' |] eqn:Hf.
  - apply find_some in Hf. destruct Hf as [Hin' Hp].
    apply in_rev in Hin'. apply String.eqb_eq in Hp. eauto.
  - apply in_rev in Hin. pose proof (find_none _ _ Hf p Hin) as H.
    cbn beta in H. now rewrite String.eqb_refl in H.
Qed.

Lemma existsb_map_rows (row : PipeSize.t -> Row.t) (label : string)
  (sel : list PipeSize.t) :
  (forall p, Row.nominal (row p) = PipeSize.nominal p) ->
  existsb (labelled label) (map row sel) =
  existsb (fun p => String.eqb (PipeSize.nominal p) label) sel.
Proof.
  intros H. induction sel as [| p sel IH]; simpl; [reflexivity |].
  unfold labelled at 1. now rewrite H, IH.
Qed.

(** what one turn of the drop loop leaves once a first active drop was seen *)
Lemma sampleDrop_step_done system geometry sel (drops : list Drop.t)
  (s : option SampleDrop.t) :
  fold_left (sampleDrop_step M system geometry sel) drops (s, true)
  = (s, true).
Proof.
  induction drops as [| d drops IH]; simpl; [reflexivity | exact IH].
Qed.

End TraceFacts.

Section TraceProperties.
Local Open Scope string_scope.
Local Open Scope float_scope.

(** X9: the trace sizePipe returns beside a sizing.  When a row of the table
    is OK the trace exists, and - the selected candidates carrying pairwise
    different labels - it describes the candidate of the first OK row: its
    diameter in feet, its flow area, the formula of the gas, and the mean
    absolute pressure between the inlet and [upstream - deltaP] of that row.
    When no row is OK (and no candidate is labelled "No feasible size")
    there is no trace, also for an inactive line. *)
Theorem line_trace_describes_the_recommended_candidate (M : HostMath)
  (flowScfm length_ft up req vmax T rough : float) (g : GasType)
  (pipes : list PipeSize.t) :
  distinct_labels pipes ->
  match
    first_OK_row
      (PipeSizing.table
         (sizePipe M flowScfm length_ft up req vmax T rough pipes g))
  with
  | Some r =>
      exists b rp,
        sizePipe_details M flowScfm length_ft up req vmax T rough pipes g
        = Some b /\
        DetailBlock.recommended_pipe b = Some rp /\
        DetailBlock.formula b = formula_of g /\
        RecommendedPipe.d_ft rp = Row.id_in r / 12 /\
        RecommendedPipe.area_ft2 rp =
          (Math_PI (A := floatArith M) * (Row.id_in r / 12)
           * (Row.id_in r / 12)) / 4 /\
        DetailBlock.p_avg_abs_psia b =
          ((up + 14.7) + ((up - Row.deltaP r) + 14.7)) / 2
  | None =>
      existsb (labelled no_feasible_size)
        (PipeSizing.table
           (sizePipe M flowScfm length_ft up req vmax T rough pipes g))
      = false ->
      sizePipe_details M flowScfm length_ft up req vmax T rough pipes g = None
  end.
Proof.
  intros Hnd. unfold distinct_labels in Hnd.
  unfold sizePipe, sizePipe_details.
  destruct (flowScfm <=? 0); [intros _; reflexivity |].
  cbn [PipeSizing.table]. rewrite sizePipe_detailsMap_fold.
  rewrite sizePipe_results_map.
  set (sel := filter PipeSize.selected pipes) in *.
  set (row := sizePipe_row M flowScfm length_ft up req vmax T rough g _).
  set (table := map row sel).
  set (pd := sizePipe_pipeDetails M flowScfm length_ft up req T rough g).
  change (fun r : Row.t => SizingStatus_eqb (Row.status r) OK) with is_OK.
  assert (Hlab : NoDup (map Row.nominal table)).
  { unfold table. rewrite map_nominal_rows; [exact Hnd | reflexivity]. }
  destruct (first_OK_row table) as [r |] eqn:Hf.
  - destruct (first_OK_row_found_by_label table r Hlab Hf)
      as [Hfind [_ Hrec]].
    unfold no_feasible_size in Hrec. rewrite Hrec, Hfind.
    pose proof (find_some _ _ Hf) as [Hin _]. unfold table in Hin.
    apply in_map_iff in Hin. destruct Hin as [p [Hp Hin]].
    assert (Hnom : Row.nominal r = PipeSize.nominal p) by now rewrite <- Hp.
    rewrite Hnom, (Map_get_of_member pd sel p Hnd Hin).
    eexists. eexists. split; [reflexivity |].
    cbn [DetailBlock.recommended_pipe DetailBlock.formula
         DetailBlock.p_avg_abs_psia RecommendedPipe.d_ft
         RecommendedPipe.area_ft2].
    split; [reflexivity |]. rewrite <- Hp. repeat split.
  - intros Hex. unfold first_OK_row in Hf.
    pose proof (filter_head_find is_OK table) as Hh.
    destruct (filter is_OK table) as [| x oks]; [| congruence].
    unfold table in Hex. rewrite existsb_map_rows in Hex by reflexivity.
    unfold no_feasible_size in Hex.
    rewrite (Map_get_of_stranger pd sel _ Hex).
    match goal with
    | |- context [find ?p table] => destruct (find p table)
    end; [reflexivity |].
    destruct (hd_error table); reflexivity.
Qed.

Lemma line_trace_describes_the_recommended_candidate_witness :
  option_map Row.id_in
    (first_OK_row
       (PipeSizing.table
          (sizePipe refHost 120 100 130 95 50 70 0.00015
             [Scenario.pipe "3/4" 0.824; Scenario.pipe "1" 1.049;
              Scenario.pipe "2" 2.067] air)))
  = Some 1.049 /\
  match
    first_OK_row
      (PipeSizing.table
         (sizePipe refHost 120 100 130 95 50 70 0.00015
            [Scenario.pipe "3/4" 0.824; Scenario.pipe "1" 1.049;
             Scenario.pipe "2" 2.067] air))
  with
  | Some r =>
      exists b rp,
        sizePipe_details refHost 120 100 130 95 50 70 0.00015
          [Scenario.pipe "3/4" 0.824; Scenario.pipe "1" 1.049;
           Scenario.pipe "2" 2.067] air
        = Some b /\
        DetailBlock.recommended_pipe b = Some rp /\
        DetailBlock.formula b = formula_of air /\
        RecommendedPipe.d_ft rp = Row.id_in r / 12 /\
        RecommendedPipe.area_ft2 rp =
          (Math_PI (A := floatArith refHost) * (Row.id_in r / 12)
           * (Row.id_in r / 12)) / 4 /\
        DetailBlock.p_avg_abs_psia b =
          ((130 + 14.7) + ((130 - Row.deltaP r) + 14.7)) / 2
  | None =>
      existsb (labelled no_feasible_size)
        (PipeSizing.table
           (sizePipe refHost 120 100 130 95 50 70 0.00015
              [Scenario.pipe "3/4" 0.824; Scenario.pipe "1" 1.049;
               Scenario.pipe "2" 2.067] air))
      = false ->
      sizePipe_details refHost 120 100 130 95 50 70 0.00015
        [Scenario.pipe "3/4" 0.824; Scenario.pipe "1" 1.049;
         Scenario.pipe "2" 2.067] air = None
  end.
Proof.
  split; [vm_compute; reflexivity |].
  assert (Hnd : distinct_labels
                  [Scenario.pipe "3/4" 0.824; Scenario.pipe "1" 1.049;
                   Scenario.pipe "2" 2.067]).
  { unfold distinct_labels. simpl.
    repeat (constructor; [simpl; intuition discriminate |]).
    constructor. }
  pose proof (line_trace_describes_the_recommended_candidate refHost
                120 100 130 95 50 70 0.00015 air
                [Scenario.pipe "3/4" 0.824; Scenario.pipe "1" 1.049;
                 Scenario.pipe "2" 2.067] Hnd) as H.
  exact H.
Defined.

(** X10: the sample-drop trace calculateDropsSizing returns is decided by the
    first drop, in list order, whose own design flow is positive, and by that
    drop alone: it is that drop's trace, or null when that drop has none (no
    feasible size), also when a later drop has one; it is null when no drop
    is active or no candidate is selected. *)
Theorem sample_trace_is_of_the_first_active_drop (M : HostMath)
  (drops : list Drop.t) (system : SystemInputs.t)
  (geometry : HeaderGeometry.t) (pipes : list PipeSize.t) :
  calculateDropsSizing_sampleDropDetails M drops system geometry pipes =
  if Nat.eqb (List.length (filter PipeSize.selected pipes)) 0 then None
  else
    match find (active_drop system) drops with
    | Some d =>
        sampleDrop_of M system geometry (filter PipeSize.selected pipes) d
    | None => None
    end.
Proof.
  unfold calculateDropsSizing_sampleDropDetails.
  destruct (Nat.eqb _ 0); [reflexivity |].
  set (sel := filter PipeSize.selected pipes).
  induction drops as [| d drops IH]; [reflexivity |].
  cbn [fold_left find]. unfold sampleDrop_step at 2, active_drop at 1.
  cbn [negb andb].
  destruct (0 <? drop_designFlowScfm system d); [| exact IH].
  rewrite sampleDrop_step_done. unfold sampleDrop_of.
  destruct (sizePipe_details _ _ _ _ _ _ _ _ _ _); reflexivity.
Qed.

(** The first active drop decides alone: with the 1/4 inch candidate only, a
    600 SCFM drop has no feasible size and leaves no trace, and the trace of
    the 1 SCFM drop that follows it is not reported. *)
Example sample_trace_is_missing_after_an_infeasible_drop :
  let pipes := [Scenario.pipe "1/4" 0.364] in
  let drops := [Scenario.drop 600 []; Scenario.drop 1 []] in
  map DropResult.recommendedSize
    (calculateDropsSizing refHost drops (Scenario.system air)
       Scenario.geometry pipes)
  = [no_feasible_size; Scenario.inch "1/4"] /\
  calculateDropsSizing_sampleDropDetails refHost drops (Scenario.system air)
    Scenario.geometry pipes = None /\
  option_map SampleDrop.q_scfm
    (calculateDropsSizing_sampleDropDetails refHost [Scenario.drop 1 []]
       (Scenario.system air) Scenario.geometry pipes) = Some 1.2.
Proof. vm_compute. repeat split. Qed.

(** X11: the header trace goes with the row the header reports.  When no
    header is sized, or no row carries the recommended label, there is no
    trace.  Otherwise the trace exists: its diameter is that of the first row
    carrying the recommended label, its mean absolute pressure is taken
    between the inlet and the outlet pressure the header reports, its formula
    is that of the gas, and for fuel gas its Reynolds number and friction
    factor are 0. *)
Theorem header_trace_goes_with_the_reported_row (M : HostMath)
  (designScfm : float) (system : SystemInputs.t) (geometry : HeaderGeometry.t)
  (pipes : list PipeSize.t) :
  match calculateHeaderSizing M designScfm system geometry pipes with
  | None =>
      calculateHeaderSizing_details M designScfm system geometry pipes = None
  | Some h =>
      match
        find (labelled (HeaderResults.recommendedSize h))
          (HeaderResults.comparisonTable h)
      with
      | None =>
          calculateHeaderSizing_details M designScfm system geometry pipes
          = None
      | Some r =>
          exists b rp,
            calculateHeaderSizing_details M designScfm system geometry pipes
            = Some b /\
            DetailBlock.recommended_pipe b = Some rp /\
            RecommendedPipe.d_ft rp = Row.id_in r / 12 /\
            DetailBlock.p_avg_abs_psia b =
              ((SystemInputs.inletPressure system + 14.7)
               + (HeaderResults.outletPressure h + 14.7)) / 2 /\
            DetailBlock.formula b = formula_of (SystemInputs.gasType system)
            /\
            (SystemInputs.gasType system = naturalGas ->
             RecommendedPipe.reynolds rp = 0 /\
             RecommendedPipe.friction_factor rp = 0)
      end
  end.
Proof.
  unfold calculateHeaderSizing, calculateHeaderSizing_details.
  destruct (Nat.eqb _ 0 || (designScfm <=? 0)); [reflexivity |].
  cbn [HeaderResults.recommendedSize HeaderResults.comparisonTable
       HeaderResults.outletPressure].
  set (sel := filter PipeSize.selected pipes).
  set (table := map (header_row M designScfm system geometry) sel).
  set (rec := match filter _ table with
              | r :: _ => Row.nominal r
              | [] => "No feasible size"
              end).
  change (find (labelled rec) table)
    with (find (fun r => String.eqb (Row.nominal r) rec) table).
  destruct (find (fun r => String.eqb (Row.nominal r) rec) table)
    as [r |] eqn:Hf; [| reflexivity].
  unfold table in Hf. rewrite find_map in Hf. cbn [header_row Row.nominal] in Hf.
  destruct (find (fun p => String.eqb (PipeSize.nominal p) rec) sel)
    as [p |] eqn:Hp; [| discriminate].
  injection Hf as <-.
  pose proof (find_some _ _ Hp) as [Hin Hlabel].
  apply String.eqb_eq in Hlabel.
  destruct (Map_get_of_label (header_pipeDetails M designScfm system geometry)
              sel p Hin) as [p' [_ [_ Hget]]].
  rewrite Hlabel in Hget. rewrite Hget.
  eexists. eexists. split; [reflexivity |].
  cbn [DetailBlock.recommended_pipe DetailBlock.formula
       DetailBlock.p_avg_abs_psia RecommendedPipe.d_ft
       RecommendedPipe.reynolds RecommendedPipe.friction_factor].
  split; [reflexivity |]. split; [reflexivity |]. split; [reflexivity |].
  unfold header_pipeDetails.
  destruct (SystemInputs.gasType system); split; try reflexivity;
    try discriminate.
  intros _. split; reflexivity.
Qed.

End TraceProperties.

(** ** The rows of the CSV report *)

Section CsvFacts.
Import CsvExport.
Local Open Scope string_scope.

Lemma append_associative (a b c : string) : (a ++ b) ++ c = a ++ (b ++ c).
Proof. induction a as [| x a IH]; simpl; [reflexivity | now rewrite IH]. Qed.

Lemma quoted_then (s tail : string) :
  quoted s ++ tail = String dquote (double_quotes s ++ String dquote tail).
Proof.
  unfold quoted. cbn [append]. now rewrite append_associative.
Qed.

(** reading back what formatRow wrote for one cell *)
Lemma unquote_double_quotes (s tail : string) :
  no_leading_quote tail = true ->
  unquote (double_quotes s ++ String dquote tail) = Some (s, tail).
Proof.
  intros Htail. induction s as [| c s IH].
  - cbn [double_quotes append unquote]. rewrite Ascii.eqb_refl.
    destruct tail as [| c' rest]; [reflexivity |].
    cbn [no_leading_quote] in Htail. apply negb_true_iff in Htail.
    now rewrite Htail.
  - cbn [double_quotes]. destruct (Ascii.eqb c dquote) eqn:E.
    + apply Ascii.eqb_eq in E. subst c.
      cbn [append unquote]. rewrite !Ascii.eqb_refl.
      now rewrite IH.
    + cbn [append unquote]. rewrite E. now rewrite IH.
Qed.

Lemma csv_line_cons (s : string) (cells : list string) :
  csv_line (s :: cells) =
  quoted s ++ match cells with
              | [] => CRLF
              | _ :: _ => CSV_SEPARATOR ++ csv_line cells
              end.
Proof.
  unfold csv_line. destruct cells as [| s' cells]; [reflexivity |].
  cbn [map String.concat]. now rewrite !append_associative.
Qed.

Lemma rest_of_line_no_leading_quote (cells : list string) :
  no_leading_quote
    match cells with
    | [] => CRLF
    | _ :: _ => CSV_SEPARATOR ++ csv_line cells
    end = true.
Proof. destruct cells; reflexivity. Qed.

(** a line determines its cells *)
Lemma csv_line_injective (a b : list string) :
  csv_line a = csv_line b -> a = b.
Proof.
  revert b. induction a as [| x xs IH]; intros [| y ys] H.
  - reflexivity.
  - rewrite csv_line_cons, quoted_then in H. discriminate.
  - rewrite csv_line_cons, quoted_then in H. discriminate.
  - rewrite !csv_line_cons, !quoted_then in H. injection H as H.
    apply (f_equal unquote) in H.
    rewrite !unquote_double_quotes in H
      by apply rest_of_line_no_leading_quote.
    injection H as Hx Htail. subst y. f_equal.
    destruct xs as [| x' xs'], ys as [| y' ys'];
      try reflexivity; try discriminate.
    apply IH. cbn [append CSV_SEPARATOR] in Htail. now injection Htail.
Qed.

Lemma formatRow_csv_line (H : HostFormat) (items : list Item) :
  formatRow H items = csv_line (map (String_of H) items).
Proof.
  unfold formatRow, csv_line. now rewrite map_map.
Qed.

Lemma flat_map_pairs {T U : Type} (f : T -> list U) (l : list T) :
  (forall x, List.length (f x) = 2) ->
  List.length (flat_map f l) = 2 * List.length l.
Proof.
  intros H. induction l as [| x l IH]; [reflexivity |].
  cbn [flat_map]. rewrite length_app, H, IH. simpl.
  now rewrite <- !plus_n_Sm, <- !plus_n_O.
Qed.

Lemma sizingOptions_at_most_3 (table : list Row.t) :
  List.length (sizingOptions_of table) <= 3.
Proof.
  unfold sizingOptions_of. destruct (Nat.ltb 0 _); apply firstn_le_length.
Qed.

End CsvFacts.

Section CsvProperties.
Import CsvExport.
Local Open Scope string_scope.

(** X12: formatRow loses nothing.  Two rows are formatted to the same line
    exactly when they hold the same number of cells with the same texts:
    quotes, commas and line breaks inside a cell cannot make two different
    rows collide, because every quote of a cell is doubled and the cell is
    put between quotes. *)
Theorem formatRow_keeps_the_cells_apart (H : HostFormat)
  (a b : list Item) :
  formatRow H a = formatRow H b <->
  map (String_of H) a = map (String_of H) b.
Proof.
  rewrite !formatRow_csv_line. split.
  - apply csv_line_injective.
  - now intros ->.
Qed.

(** X13: every sub-drop row of the report fits under the 11 headings of the
    sub-drop table: a sub-drop result of the engine is exported as 5 cells
    and 2 cells for each of its sizing options, of which there are at most
    3. *)
Theorem subDrop_row_fits_the_headings (M : HostMath) (H : HostFormat)
  (demandFlowUnit : string) (drops : list Drop.t) (system : SystemInputs.t)
  (geometry : HeaderGeometry.t) (pipes : list PipeSize.t) :
  Forall
    (fun dr =>
       Forall
         (fun sd =>
            List.length (subDrop_rowData H sd) =
              5 + 2 * List.length (SubDropResult.sizingOptions sd) /\
            List.length (subDrop_rowData H sd) <=
              List.length (subDrop_headings demandFlowUnit))
         (DropResult.subDropResults dr))
    (calculateDropsSizing M drops system geometry pipes).
Proof.
  unfold calculateDropsSizing. destruct (Nat.eqb _ 0); [constructor |].
  apply Forall_map_of. intros d. cbn [dropResult_of DropResult.subDropResults].
  apply Forall_map_of. intros sd.
  assert (Hlen : forall r : SubDropResult.t,
             List.length (subDrop_rowData H r) =
             5 + 2 * List.length (SubDropResult.sizingOptions r)).
  { intros r. unfold subDrop_rowData. rewrite length_app.
    rewrite flat_map_pairs by reflexivity. reflexivity. }
  split; [apply Hlen |]. rewrite Hlen.
  cbn [subDropResult_of SubDropResult.sizingOptions].
  pose proof (sizingOptions_at_most_3
                (PipeSizing.table
                   (sizePipe M
                      (or_zero (SubDrop.reqFlow sd)
                       * SystemInputs.demandSafetyFactor system
                       / flowDivisor system)%float
                      (SubDrop.length sd) (SystemInputs.inletPressure system)
                      (SubDrop.reqPressure sd)
                      (HeaderGeometry.maxLineVelocity geometry)
                      (HeaderGeometry.airTemperature geometry)
                      (HeaderGeometry.pipeRoughness geometry)
                      (filter PipeSize.selected pipes)
                      (SystemInputs.gasType system)))) as H3.
  cbn [subDrop_headings List.length].
  revert H3. generalize (List.length (sizingOptions_of (PipeSizing.table
    (sizePipe M
       (or_zero (SubDrop.reqFlow sd)
        * SystemInputs.demandSafetyFactor system
        / flowDivisor system)%float
       (SubDrop.length sd) (SystemInputs.inletPressure system)
       (SubDrop.reqPressure sd)
       (HeaderGeometry.maxLineVelocity geometry)
       (HeaderGeometry.airTemperature geometry)
       (HeaderGeometry.pipeRoughness geometry)
       (filter PipeSize.selected pipes)
       (SystemInputs.gasType system))))).
  intros n Hn. lia.
Qed.

End CsvProperties.

(** ** The updates of the candidate list and of the demand tree *)

Section AppFacts.
Local Open Scope string_scope.

Lemma filter_keeps_all {T : Type} (p : T -> bool) (l : list T) :
  Forall (fun x => p x = true) l -> filter p l = l.
Proof.
  induction 1 as [| x l Hx _ IH]; simpl; [reflexivity |].
  now rewrite Hx, IH.
Qed.

Lemma filter_drops_the_last {T : Type} (p : T -> bool) (l : list T) (x : T) :
  Forall (fun y => p y = true) l -> p x = false -> filter p (l ++ [x]) = l.
Proof.
  intros Hl Hx. rewrite filter_app, (filter_keeps_all p l Hl). simpl.
  rewrite Hx. apply app_nil_r.
Qed.

Lemma map_identity {T : Type} (f : T -> T) (l : list T) :
  Forall (fun x => f x = x) l -> map f l = l.
Proof.
  induction 1 as [| x l Hx _ IH]; simpl; [reflexivity |].
  now rewrite Hx, IH.
Qed.

(** the candidates the engine sees after a label is switched off *)
Lemma selected_after_toggle (label : string) (pipes : list PipeSize.t) :
  label_selected label pipes ->
  filter PipeSize.selected (App.togglePipeSelection label pipes) =
  filter (fun p => negb (String.eqb (PipeSize.nominal p) label))
    (filter PipeSize.selected pipes).
Proof.
  unfold label_selected, App.togglePipeSelection.
  induction 1 as [| p pipes Hp _ IH]; [reflexivity |].
  cbn [map filter]. destruct (String.eqb (PipeSize.nominal p) label) eqn:E.
  - apply String.eqb_eq in E. rewrite (Hp E).
    cbn [PipeSize.selected negb filter]. apply String.eqb_eq in E.
    now rewrite E.
  - destruct (PipeSize.selected p); cbn [filter]; [rewrite E |];
      cbn [negb]; now rewrite IH.
Qed.

End AppFacts.

Section AppProperties.
Local Open Scope string_scope.
Local Open Scope float_scope.

(** X14: togglePipeSelection changes selections only: the labels and
    diameters of the list stay as they are, in order, every pipe of another
    label keeps its selection, and toggling the same label twice gives the
    list back. *)
Theorem togglePipeSelection_twice (label : string)
  (pipes : list PipeSize.t) :
  map pipe_candidate (App.togglePipeSelection label pipes)
  = map pipe_candidate pipes /\
  filter (fun p => negb (String.eqb (PipeSize.nominal p) label))
    (App.togglePipeSelection label pipes)
  = filter (fun p => negb (String.eqb (PipeSize.nominal p) label)) pipes /\
  App.togglePipeSelection label (App.togglePipeSelection label pipes) = pipes.
Proof.
  unfold App.togglePipeSelection. repeat split.
  - rewrite map_map. apply map_ext. intros p.
    destruct (String.eqb (PipeSize.nominal p) label); reflexivity.
  - induction pipes as [| p pipes IH]; [reflexivity |]. cbn [map filter].
    destruct (String.eqb (PipeSize.nominal p) label) eqn:E;
      cbn [PipeSize.nominal]; rewrite E; cbn [negb]; now rewrite IH.
  - rewrite map_map. apply map_identity. apply Forall_forall. intros p _.
    destruct (String.eqb (PipeSize.nominal p) label) eqn:E;
      cbn [PipeSize.nominal]; rewrite E; [| reflexivity].
    destruct p as [n d s]. cbn [PipeSize.nominal PipeSize.id_in
                               PipeSize.selected].
    now rewrite negb_involutive.
Qed.

(** X15: switching a label off removes its rows from a table and leaves the
    other rows as they were: when every pipe of the label is selected, the
    table sizePipe computes for the toggled list is the table it computes for
    the list before, without the rows of that label. *)
Theorem deselecting_a_label_removes_its_rows (M : HostMath)
  (flowScfm length_ft up req vmax T rough : float) (g : GasType)
  (label : string) (pipes : list PipeSize.t) :
  label_selected label pipes ->
  PipeSizing.table
    (sizePipe M flowScfm length_ft up req vmax T rough
       (App.togglePipeSelection label pipes) g)
  = filter (fun r => negb (labelled label r))
      (PipeSizing.table
         (sizePipe M flowScfm length_ft up req vmax T rough pipes g)).
Proof.
  intros Hsel. rewrite !sizePipe_table.
  destruct (flowScfm <=? 0); [reflexivity |].
  rewrite (selected_after_toggle label pipes Hsel).
  now rewrite filter_map_commute.
Qed.

Lemma deselecting_a_label_removes_its_rows_witness :
  map Row.nominal
    (PipeSizing.table
       (sizePipe refHost 120 100 130 95 50 70 0.00015
          (App.togglePipeSelection (Scenario.inch "1")
             [Scenario.pipe "3/4" 0.824; Scenario.pipe "1" 1.049;
              Scenario.pipe "2" 2.067]) air))
  = [Scenario.inch "3/4"; Scenario.inch "2"].
Proof.
  rewrite (deselecting_a_label_removes_its_rows refHost
             120 100 130 95 50 70 0.00015 air (Scenario.inch "1")
             [Scenario.pipe "3/4" 0.824; Scenario.pipe "1" 1.049;
              Scenario.pipe "2" 2.067]).
  - vm_compute. reflexivity.
  - unfold label_selected. repeat constructor.
Defined.

(** X16: removing a drop that was just added gives the list back, provided no
    drop of the list already carries the identifier the new drop gets from
    the clock.  (handleRemoveDrop removes every drop of the identifier.) *)
Theorem removing_the_added_drop_restores_the_list (now : N)
  (drops prev : list Drop.t) :
  fresh_drop_id ("drop-" ++ App.decimal now) prev ->
  App.handleRemoveDrop ("drop-" ++ App.decimal now)
    (App.handleAddDrop now drops prev) = prev.
Proof.
  intros Hfresh. unfold App.handleRemoveDrop, App.handleAddDrop.
  apply filter_drops_the_last.
  - unfold fresh_drop_id in Hfresh.
    eapply Forall_impl; [| exact Hfresh]. cbn beta. intros d Hd.
    apply negb_true_iff. now apply String.eqb_neq.
  - cbn [Drop.id]. now rewrite String.eqb_refl.
Qed.

Lemma removing_the_added_drop_restores_the_list_witness :
  App.handleRemoveDrop "drop-1700000000000"
    (App.handleAddDrop 1700000000000 [Scenario.drop 50 []]
       [Scenario.drop 50 []])
  = [Scenario.drop 50 []].
Proof.
  apply (removing_the_added_drop_restores_the_list 1700000000000
           [Scenario.drop 50 []] [Scenario.drop 50 []]).
  unfold fresh_drop_id. repeat constructor. vm_compute. discriminate.
Defined.

(** X17: removing a sub-drop that was just added to a drop gives the tree
    back, provided the drops carry pairwise different identifiers and no
    sub-drop already carries the identifier the new sub-drop gets from the
    clock. *)
Theorem removing_the_added_subDrop_restores_the_tree (now : N)
  (dropId : string) (prev : list Drop.t) :
  NoDup (map Drop.id prev) ->
  fresh_subDrop_id ("subdrop-" ++ App.decimal now) prev ->
  App.handleRemoveSubDrop dropId ("subdrop-" ++ App.decimal now)
    (App.handleAddSubDrop now dropId prev) = prev.
Proof.
  intros _ Hfresh. unfold App.handleRemoveSubDrop, App.handleAddSubDrop.
  rewrite map_map. apply map_identity.
  unfold fresh_subDrop_id in Hfresh.
  eapply Forall_impl; [| exact Hfresh]. cbn beta. intros d Hd.
  destruct (String.eqb (Drop.id d) dropId) eqn:E;
    cbn [Drop.id]; rewrite E; [| reflexivity].
  cbn [Drop.name Drop.length Drop.reqPressure Drop.reqFlow Drop.subDrops].
  rewrite filter_drops_the_last.
  - now destruct d.
  - eapply Forall_impl; [| exact Hd]. cbn beta. intros sd Hsd.
    apply negb_true_iff. now apply String.eqb_neq.
  - cbn [SubDrop.id]. now rewrite String.eqb_refl.
Qed.

Lemma removing_the_added_subDrop_restores_the_tree_witness :
  App.handleRemoveSubDrop "d" "subdrop-1700000000000"
    (App.handleAddSubDrop 1700000000000 "d"
       [Scenario.drop 50 [Scenario.subDrop 30]])
  = [Scenario.drop 50 [Scenario.subDrop 30]].
Proof.
  apply (removing_the_added_subDrop_restores_the_tree 1700000000000 "d"
           [Scenario.drop 50 [Scenario.subDrop 30]]).
  - simpl. constructor; [simpl; tauto | constructor].
  - unfold fresh_subDrop_id. repeat constructor. vm_compute. discriminate.
Defined.

End AppProperties.


(** ** Pressures of a header row, and the flag of a drop sized on its
    sub-drops *)

Section NumberFacts.
Local Open Scope float_scope.

Lemma SFcompare_refl (a : spec_float) :
  a <> S754_nan -> SFcompare a a = Some Eq.
Proof.
  destruct a as [s | s | | s m e]; intros Ha; try reflexivity.
  - destruct s; reflexivity.
  - now elim Ha.
  - destruct s; simpl; rewrite Z.compare_refl, Pos.compare_cont_refl;
      reflexivity.
Qed.

Lemma is_nan_of_spec (x : float) :
  Prim2SF x <> S754_nan -> PrimFloat.is_nan x = false.
Proof.
  intros H. unfold PrimFloat.is_nan. rewrite FloatAxioms.eqb_spec.
  unfold SFeqb. now rewrite (SFcompare_refl _ H).
Qed.

(** only numbers compare *)
Lemma ltb_true_numbers (x y : float) :
  (x <? y) = true ->
  PrimFloat.is_nan x = false /\ PrimFloat.is_nan y = false.
Proof.
  rewrite FloatAxioms.ltb_spec. unfold SFltb. intros H.
  split; apply is_nan_of_spec; intros E; rewrite E in H;
    [| destruct (Prim2SF x)]; discriminate.
Qed.

Lemma or_zero_ltb (x y : float) :
  (x <? y) = true -> (or_zero x <? y) = true.
Proof.
  intros H. destruct (ltb_true_numbers x y H) as [Hx _].
  unfold or_zero, truthy. rewrite Hx, orb_false_r.
  destruct (PrimFloat.is_zero x) eqn:Hz; [| exact H]. cbn [negb].
  destruct (is_zero_cases x Hz) as [-> | ->]; [exact H |].
  revert H. rewrite !FloatAxioms.ltb_spec. unfold SFltb.
  change (Prim2SF 0) with (S754_zero false).
  change (Prim2SF (-0)) with (S754_zero true).
  destruct (Prim2SF y) as [[] | [] | | [] m e]; simpl; congruence.
Qed.

Lemma Math_max_of_ltb (a b : float) : (a <? b) = true -> Math_max a b = b.
Proof.
  intros H. destruct (ltb_true_numbers a b H) as [Ha Hb].
  unfold Math_max. now rewrite Ha, Hb, H.
Qed.

End NumberFacts.

Section LoopFacts.
Context {num : Type}.

(** the last pass of a loop is the outermost *)
Lemma for_loop_last (n : nat) (body : IterState num -> IterState num)
  (st : IterState num) :
  for_loop (S n) body st = body (for_loop n body st).
Proof.
  revert st. induction n as [| n IH]; intros st; [reflexivity |].
  change (for_loop (S (S n)) body st) with (for_loop (S n) body (body st)).
  rewrite IH. reflexivity.
Qed.

End LoopFacts.

Section RowProperties.
Local Open Scope string_scope.
Local Open Scope float_scope.

(** X19: the two pressures of a header row agree with the inlet pressure, in
    binary64 and whatever the host's [Math.pow] and [Math.log10]: for
    compressed air the outlet pressure of a row is the inlet pressure minus
    the row's pressure drop (the last pass of the iteration sets the one from
    the other); for fuel gas the pressure drop of a row is the inlet pressure
    minus the row's outlet pressure. *)
Theorem header_row_pressures_agree (M : HostMath) (designScfm : float)
  (system : SystemInputs.t) (geometry : HeaderGeometry.t)
  (pipes : list PipeSize.t) :
  match calculateHeaderSizing M designScfm system geometry pipes with
  | Some h =>
      Forall
        (fun r =>
           match SystemInputs.gasType system with
           | air =>
               Row.outletPressure r =
                 Some (SystemInputs.inletPressure system - Row.deltaP r)
           | naturalGas =>
               exists p,
                 Row.outletPressure r = Some p /\
                 Row.deltaP r = SystemInputs.inletPressure system - p
           end)
        (HeaderResults.comparisonTable h)
  | None => True
  end.
Proof.
  destruct (calculateHeaderSizing M designScfm system geometry pipes)
    as [h |] eqn:Hh; [| exact I].
  destruct (header_table M _ _ _ _ _ Hh) as [_ [_ ->]].
  apply Forall_map_of. intros p. unfold header_row, header_candidate.
  cbn [Row.outletPressure Row.deltaP].
  destruct (SystemInputs.gasType system).
  - cbn [p_out_psig deltaP_psi]. rewrite (for_loop_last 4). reflexivity.
  - eexists. split; reflexivity.
Qed.

(** X20: the flag isSizedOnSubDrops of a drop result.  When it is set, the
    flow the drop is sized for is the total of its sub-drops, and exceeds the
    declared flow of the drop.  It is never set for a drop that declares a
    negative flow, also when the sub-drops decide the flow. *)
Theorem sized_on_subDrops_flag (M : HostMath) (drops : list Drop.t)
  (system : SystemInputs.t) (geometry : HeaderGeometry.t)
  (pipes : list PipeSize.t) :
  Forall
    (fun dr =>
       (DropResult.isSizedOnSubDrops dr = true ->
        DropResult.usedFlow dr = DropResult.subDropTotalFlow dr /\
        (DropResult.reqFlow dr <? DropResult.usedFlow dr) = true) /\
       ((DropResult.reqFlow dr <? 0) = true ->
        DropResult.isSizedOnSubDrops dr = false))
    (calculateDropsSizing M drops system geometry pipes).
Proof.
  unfold calculateDropsSizing. destruct (Nat.eqb _ 0); [constructor |].
  apply Forall_map_of. intros d. unfold dropResult_of.
  cbn [DropResult.isSizedOnSubDrops DropResult.usedFlow
       DropResult.subDropTotalFlow DropResult.reqFlow].
  set (total := fold_left _ (Drop.subDrops d) 0). split.
  - intros Hflag. apply andb_true_iff in Hflag. destruct Hflag as [Hlt _].
    rewrite (Math_max_of_ltb _ _ (or_zero_ltb _ _ Hlt)).
    split; [reflexivity | exact Hlt].
  - intros Hneg. rewrite (ltb_leb_false _ _ Hneg). apply andb_false_r.
Qed.

(** A drop that declares -5 with two sub-drops of 30 and 40 is sized for
    70, the total of its sub-drops, and is not flagged. *)
Example negative_flow_is_not_flagged :
  map (fun dr => (DropResult.usedFlow dr, DropResult.subDropTotalFlow dr,
                  DropResult.isSizedOnSubDrops dr))
    (calculateDropsSizing refHost
       [Scenario.drop (-5) [Scenario.subDrop 30; Scenario.subDrop 40]]
       (Scenario.system air) Scenario.geometry Scenario.DEFAULT_PIPE_SIZES)
  = [(70, 70, false)].
Proof. vm_compute. reflexivity. Qed.

End RowProperties.

(** ** Demand aggregation and the sizing options of a sub-drop *)

Section AggregationFacts.
Variable M : HostMath.
Local Open Scope string_scope.
Local Open Scope float_scope.

(** [x || 0] is a number *)
Lemma or_zero_number (x : float) : PrimFloat.is_nan (or_zero x) = false.
Proof.
  unfold or_zero, truthy.
  destruct (PrimFloat.is_zero x), (PrimFloat.is_nan x) eqn:Hn;
    cbn [orb negb]; try reflexivity. exact Hn.
Qed.

(** [Math.max] of two numbers is their maximum *)
Lemma Math_max_is_max (a b : float) :
  PrimFloat.is_nan a = false -> PrimFloat.is_nan b = false ->
  is_max_of a b (Math_max a b).
Proof.
  intros Ha Hb. unfold Math_max, is_max_of. rewrite Ha, Hb. cbn [orb].
  destruct (a <? b) eqn:Hab.
  { split; [now apply ltb_leb |]. split; [now apply leb_refl | now right]. }
  destruct (b <? a) eqn:Hba.
  { split; [now apply leb_refl |]. split; [now apply ltb_leb | now left]. }
  destruct (get_sign a).
  - split; [now apply ltb_false_leb |].
    split; [now apply leb_refl | now right].
  - split; [now apply leb_refl |].
    split; [now apply ltb_false_leb | now left].
Qed.

Lemma Forall2_map_right {T U : Type} (P : T -> U -> Prop) (f : T -> U)
  (l : list T) :
  (forall x, P x (f x)) -> Forall2 P l (map f l).
Proof.
  intros H. induction l as [| x l IH]; simpl; constructor; auto.
Qed.

(** the callback mapped over the drops does what [aggregated] says *)
Lemma dropResult_of_aggregated system geometry selectedPipes (drop : Drop.t) :
  aggregated M system geometry selectedPipes drop
    (dropResult_of M system geometry selectedPipes drop).
Proof.
  unfold aggregated, dropResult_of.
  cbn [DropResult.id DropResult.name DropResult.subDropTotalFlow
       DropResult.usedFlow DropResult.comparisonTable
       DropResult.recommendedSize DropResult.velocity DropResult.deltaP
       DropResult.isSizedOnSubDrops].
  fold (sum_or_zero (Drop.subDrops drop)).
  repeat (split; [reflexivity |]).
  split; [| split].
  - intros Hnan. apply Math_max_is_max; [apply or_zero_number | exact Hnan].
  - intros Hreq Hsubs. split; [now apply or_zero_declared |].
    unfold sum_or_zero, sum_reqFlow. now apply fold_or_zero_declared.
  - repeat (split; [reflexivity |]). apply andb_true_iff.
Qed.

(** the options the callback keeps are the first 3 of the preferred rows *)
Lemma sizingOptions_of_first_3 (table : list Row.t) :
  sizingOptions_of table = first_3_options table.
Proof.
  unfold sizingOptions_of, first_3_options.
  change (fun r : Row.t => Severity_eqb (Row.severity r) ok)
    with is_ok_severity.
  rewrite (filter_nil_existsb is_ok_severity table).
  destruct (filter is_ok_severity table); reflexivity.
Qed.

Lemma first_3_options_at_most_3 (table : list Row.t) :
  (List.length (first_3_options table) <= 3)%nat.
Proof.
  unfold first_3_options. destruct (existsb _ _); apply firstn_le_length.
Qed.

Lemma first_3_options_nil (table : list Row.t) :
  first_3_options table = [] <-> table = [].
Proof.
  unfold first_3_options.
  rewrite (filter_nil_existsb is_ok_severity table).
  destruct (filter is_ok_severity table) as [| r oks] eqn:Hok;
    cbn [List.length Nat.eqb negb].
  - apply (firstn_nil_iff 2).
  - split; [discriminate |]. intros Ht. rewrite Ht in Hok. discriminate.
Qed.

Lemma subDrop_table_nil system geometry (sel : list PipeSize.t)
  (sd : SubDrop.t) :
  filter PipeSize.selected sel <> [] ->
  subDrop_table M system geometry sel sd = [] <->
  (subDrop_designFlow system sd <=? 0) = true.
Proof.
  intros Hsel. unfold subDrop_table. rewrite sizePipe_table.
  destruct (subDrop_designFlow system sd <=? 0); [tauto |].
  destruct (filter PipeSize.selected sel); [now elim Hsel |].
  simpl. split; discriminate.
Qed.

End AggregationFacts.

Section AggregationProperties.
Local Open Scope string_scope.
Local Open Scope float_scope.

(** *** Demand aggregation *)

(** C2, as the code has it.  With no candidate selected the aggregator
    returns no drop result at all.  As soon as one candidate is selected it
    returns one result per drop, in the order of the drops, and for each
    drop: [usedFlow] is [Math.max(reqFlow || 0, sum of (sub-drop reqFlow ||
    0))] - above both and equal to one of them, when the sum is a number -
    which is the maximum of the declared flow and the sum of the sub-drops'
    declared flows when the declared flows are numbers other than negative
    zero; the drop is sized by sizePipe at [usedFlow * safetyFactor /
    flowDivisor] (the divisor is 60 for fuel gas, whose flows are hourly,
    and 1 for air); and it is flagged as sized on its sub-drops exactly when
    that sum exceeds the declared flow and the declared flow is
    non-negative. *)
Theorem drop_usedFlow_is_max (M : HostMath) (system : SystemInputs.t)
  (geometry : HeaderGeometry.t) (pipes : list PipeSize.t)
  (drops : list Drop.t) :
  (filter PipeSize.selected pipes = [] ->
   calculateDropsSizing M drops system geometry pipes = []) /\
  (filter PipeSize.selected pipes <> [] ->
   Forall2
     (aggregated M system geometry (filter PipeSize.selected pipes))
     drops
     (calculateDropsSizing M drops system geometry pipes)).
Proof.
  split.
  - intros Hsel. unfold calculateDropsSizing. now rewrite Hsel.
  - intros Hsel. rewrite calculateDropsSizing_map by exact Hsel.
    apply Forall2_map_right. intros drop. apply dropResult_of_aggregated.
Qed.

(** Two drops with sub-drops of 30 and 40: the one that declares 100 uses
    100, its own flow, and is not flagged; the one that declares 50 (the
    specification's example) uses 70 and is flagged as sized on its
    sub-drops. *)
Lemma drop_usedFlow_is_max_witness :
  let drops :=
    [Scenario.drop 100 [Scenario.subDrop 30; Scenario.subDrop 40];
     Scenario.drop 50 [Scenario.subDrop 30; Scenario.subDrop 40]] in
  let results :=
    calculateDropsSizing refHost drops (Scenario.system air)
      Scenario.geometry Scenario.DEFAULT_PIPE_SIZES in
  Forall2
    (aggregated refHost (Scenario.system air) Scenario.geometry
       (filter PipeSize.selected Scenario.DEFAULT_PIPE_SIZES))
    drops results /\
  map DropResult.usedFlow results = [100; 70] /\
  map DropResult.isSizedOnSubDrops results = [false; true].
Proof.
  intros drops results. split; [| vm_compute; split; reflexivity].
  pose proof (drop_usedFlow_is_max refHost (Scenario.system air)
                Scenario.geometry Scenario.DEFAULT_PIPE_SIZES drops)
    as [_ H].
  apply H. vm_compute. discriminate.
Defined.

(** C2, as stated, fails.  With no candidate selected (every candidate
    unticked) the aggregator returns no drop result and the orchestrator a
    total demand of 0: the drop that declares 50 with sub-drops of 30 and 40
    gets no [usedFlow] at all.  And a declared flow that is not a number
    counts as 0: with the candidates selected, a drop declaring NaN with the
    same sub-drops uses 70, where the maximum of NaN and 70 is NaN. *)
Lemma unselected_candidates_leave_no_drop_result :
  let pipes := [{| PipeSize.nominal := "1"; PipeSize.id_in := 1.049;
                   PipeSize.selected := false |}] in
  let drops := [Scenario.drop 50 [Scenario.subDrop 30; Scenario.subDrop 40]] in
  calculateDropsSizing refHost drops (Scenario.system air) Scenario.geometry
    pipes = [] /\
  CalculationResults.totalDemandScfm
    (performAllCalculations refHost (Scenario.system air) Scenario.geometry
       pipes drops) = 0 /\
  map DropResult.usedFlow
    (calculateDropsSizing refHost
       [Scenario.drop nan [Scenario.subDrop 30; Scenario.subDrop 40]]
       (Scenario.system air) Scenario.geometry Scenario.DEFAULT_PIPE_SIZES)
  = [70] /\
  PrimFloat.is_nan (Math_max nan 70) = true.
Proof. vm_compute. repeat split. Qed.

(** *** Sizing options of a sub-drop *)

(** C8, as the code has it: as soon as one candidate is selected, the
    sub-drop results of every drop result are those of the drop's sub-drops,
    in order, and the sizing options of each are the first 3 rows of severity
    [ok] of the sub-drop's comparison table, in table order, or, when no row
    has severity [ok], the first 3 rows of the table; there are at most 3 of
    them, and there is none exactly when the sub-drop's design flow is
    [<= 0] (its table is then empty). *)
Theorem subDrop_sizingOptions (M : HostMath) (system : SystemInputs.t)
  (geometry : HeaderGeometry.t) (pipes : list PipeSize.t)
  (drops : list Drop.t) :
  filter PipeSize.selected pipes <> [] ->
  map (fun dr =>
         map (fun sdr =>
                (SubDropResult.name sdr, SubDropResult.sizingOptions sdr))
           (DropResult.subDropResults dr))
    (calculateDropsSizing M drops system geometry pipes)
  = map (fun drop =>
           map (fun sd =>
                  (SubDrop.name sd,
                   first_3_options
                     (subDrop_table M system geometry
                        (filter PipeSize.selected pipes) sd)))
             (Drop.subDrops drop))
      drops
  /\
  Forall
    (fun drop =>
       Forall
         (fun sd =>
            (List.length
               (first_3_options
                  (subDrop_table M system geometry
                     (filter PipeSize.selected pipes) sd)) <= 3)%nat /\
            (first_3_options
               (subDrop_table M system geometry
                  (filter PipeSize.selected pipes) sd) = [] <->
             (subDrop_designFlow system sd <=? 0) = true))
         (Drop.subDrops drop))
    drops.
Proof.
  intros Hsel. split.
  - rewrite calculateDropsSizing_map by exact Hsel.
    rewrite map_map. apply map_ext. intros drop.
    cbn [dropResult_of DropResult.subDropResults].
    rewrite map_map. apply map_ext. intros sd.
    unfold subDropResult_of.
    cbn [SubDropResult.name SubDropResult.sizingOptions].
    now rewrite sizingOptions_of_first_3.
  - apply Forall_forall. intros drop _. apply Forall_forall. intros sd _.
    split; [apply first_3_options_at_most_3 |].
    rewrite first_3_options_nil. apply subDrop_table_nil.
    now rewrite filter_idempotent.
Qed.

Lemma subDrop_sizingOptions_witness :
  let drops := [Scenario.drop 100 [Scenario.subDrop 30]] in
  map (fun dr =>
         map (fun sdr =>
                (SubDropResult.name sdr, SubDropResult.sizingOptions sdr))
           (DropResult.subDropResults dr))
    (calculateDropsSizing refHost drops (Scenario.system air)
       Scenario.geometry Scenario.DEFAULT_PIPE_SIZES)
  = map (fun drop =>
           map (fun sd =>
                  (SubDrop.name sd,
                   first_3_options
                     (subDrop_table refHost (Scenario.system air)
                        Scenario.geometry
                        (filter PipeSize.selected
                           Scenario.DEFAULT_PIPE_SIZES) sd)))
             (Drop.subDrops drop))
      drops
  /\
  map (fun dr =>
         map (fun sdr => map Row.nominal (SubDropResult.sizingOptions sdr))
           (DropResult.subDropResults dr))
    (calculateDropsSizing refHost drops (Scenario.system air)
       Scenario.geometry Scenario.DEFAULT_PIPE_SIZES)
  = [[map Scenario.inch ["1/2"; "3/4"; "1"]]].
Proof.
  intros drops. split; [| vm_compute; reflexivity].
  pose proof (subDrop_sizingOptions refHost (Scenario.system air)
                Scenario.geometry Scenario.DEFAULT_PIPE_SIZES drops) as H.
  destruct H as [H _]; [vm_compute; discriminate |]. exact H.
Defined.

(** C8, as stated, fails on the non-emptiness: a sub-drop that declares no
    flow is inactive, its comparison table is empty and so is its option
    set. *)
Lemma inactive_subDrop_has_no_option :
  map (fun dr => map SubDropResult.sizingOptions
                   (DropResult.subDropResults dr))
    (calculateDropsSizing refHost [Scenario.drop 100 [Scenario.subDrop 0]]
       (Scenario.system air) Scenario.geometry Scenario.DEFAULT_PIPE_SIZES)
  = [[[]]].
Proof. vm_compute. reflexivity. Qed.

End AggregationProperties.
